(** * MEV detector: a shallow embedding of the detection pipeline of [app.py]

    The development follows the Python source function by function:
    [detect_sandwich], [detect_anomalies], [dbscan_cluster] and the part of
    [run_dashboard] that follows the call of [fetch_recent_txs].

    - A transaction is the dictionary built by [fetch_recent_txs]
      (record [Tx]); a pandas [DataFrame] is a list of labelled rows, plus the
      ['cluster'] column once it has been assigned.
    - [gasPrice] and [value] are finite binary64 numbers in the program.
      Every such number is a rational and the comparisons the detectors use
      are exact on them, so they are embedded in [Q]; [nan] (the median of
      nothing) is [None] in [float].  The rounding of the two arithmetic
      operations of the pipeline (the midpoint of the median and the product
      [median * multiplier]) is not modelled.
    - The batch is one Python object shared by reference between
      [run_dashboard] and every detector: it lives in the [heap] of the
      [World], next to NumPy's global random state and the list of Streamlit
      elements written so far.  Python code is a computation in the monad
      [M], which threads the world and propagates exceptions.
    - pandas' sorting routine and the scikit-learn estimators are not part of
      the repository: they are interfaces ([Pandas] with what pandas
      documents of the routine in [PandasLaws], and [Sklearn]), and every
      theorem holds for all their implementations.  The implementations given
      below only serve to run the model on concrete batches. *)

From Stdlib Require Import String List ZArith QArith Bool Lia Permutation Sorted.
Import ListNotations.

Local Open Scope string_scope.
Local Open Scope list_scope.
Local Open Scope Z_scope.

(** ** Exceptions *)

Inductive exn : Type :=
| IndexError
| KeyError
| ValueError
| LibraryError (name : string).

Inductive result (A : Type) : Type :=
| Ok (a : A)
| Raise (e : exn).
Arguments Ok {A} a.
Arguments Raise {A} e.

(** ** Numbers *)

(** A Python float: a rational, or [nan]. *)
Definition float : Type := option Q.
Definition nan : float := None.

Definition Qltb (x y : Q) : bool := negb (Qle_bool y x).
Definition Qgtb (x y : Q) : bool := Qltb y x.

(** [a * b] and [a >= b] on floats; every comparison with [nan] is false. *)
Definition fmul (a b : float) : float :=
  match a, b with
  | Some x, Some y => Some (x * y)%Q
  | _, _ => nan
  end.

Definition fge (a b : float) : bool :=
  match a, b with
  | Some x, Some y => Qle_bool y x
  | _, _ => false
  end.

Definition fgt (a b : float) : bool :=
  match a, b with
  | Some x, Some y => Qgtb x y
  | _, _ => false
  end.

(** The builtin [max(a, b)]: [b] when [b > a], else [a]. *)
Definition py_max (a b : float) : float := if fgt b a then b else a.

(** [range(lo, hi)]. *)
Definition range (lo hi : Z) : list Z :=
  map (fun k => lo + Z.of_nat k) (seq 0 (Z.to_nat (hi - lo))).

(** ** Transactions and frames *)

(** The dictionary appended to [all_txs] by [fetch_recent_txs];
    [to_address] is [tx.get('to')], [None] for a contract creation. *)
Record Tx : Type := mkTx {
  tx_hash : string;
  from_address : string;
  to_address : option string;
  gasPrice : Q;
  value : Q;
  blockNumber : Z
}.

(** A [DataFrame] over the six columns of [Tx]: the rows with their index
    labels, and the ['cluster'] column when the frame has one. *)
Record DataFrame : Type := mkDF {
  rows : list (Z * Tx);
  cluster : option (list Z)
}.

Definition base_columns : list string :=
  ["tx_hash"; "from_address"; "to_address"; "gasPrice"; "value"; "blockNumber"].

Definition columns (df : DataFrame) : list string :=
  match cluster df with
  | None => base_columns
  | Some _ => base_columns ++ ["cluster"]
  end.

(** [pd.DataFrame(all_txs)]: a [RangeIndex] over the records, so that the
    index label of a row is its position in the batch.  (From an empty list
    pandas builds a frame without columns; the model keeps the six names,
    which nothing reads on a frame without rows.) *)
Definition DataFrame_of (recs : list Tx) : DataFrame :=
  {| rows := combine (range 0 (Z.of_nat (length recs))) recs; cluster := None |}.

Definition df_len (df : DataFrame) : Z := Z.of_nat (length (rows df)).

Definition df_empty (df : DataFrame) : bool :=
  match rows df with [] => true | _ => false end.

Definition records (df : DataFrame) : list Tx := map snd (rows df).

(** [df.iloc[i]]: positional, a negative [i] counts from the end. *)
Definition df_iloc (df : DataFrame) (i : Z) : result Tx :=
  let n := df_len df in
  if (0 <=? i) && (i <? n) then
    match nth_error (records df) (Z.to_nat i) with
    | Some r => Ok r
    | None => Raise IndexError
    end
  else if (- n <=? i) && (i <? 0) then
    match nth_error (records df) (Z.to_nat (n + i)) with
    | Some r => Ok r
    | None => Raise IndexError
    end
  else Raise IndexError.

(** The elements of [l] at which [mask] is true. *)
Fixpoint compress {A : Type} (mask : list bool) (l : list A) : list A :=
  match mask, l with
  | b :: mask', x :: l' => if b then x :: compress mask' l' else compress mask' l'
  | _, _ => []
  end.

(** [df[mask]] for a boolean array [mask]. *)
Definition df_getitem_mask (df : DataFrame) (mask : list bool) : result DataFrame :=
  if (length mask =? length (rows df))%nat then
    Ok {| rows := compress mask (rows df);
          cluster := option_map (compress mask) (cluster df) |}
  else Raise ValueError.

(** [df['cluster'] = lbls], as a new value of the object. *)
Definition df_setitem_cluster (df : DataFrame) (lbls : list Z) : result DataFrame :=
  if (length lbls =? length (rows df))%nat then
    Ok {| rows := rows df; cluster := Some lbls |}
  else Raise ValueError.

(** [df['cluster']]. *)
Definition df_getitem_cluster (df : DataFrame) : result (list Z) :=
  match cluster df with
  | Some c => Ok c
  | None => Raise KeyError
  end.

(** [l[indexer]]. *)
Definition take {A : Type} (indexer : list nat) (l : list A) : list A :=
  flat_map (fun i => match nth_error l i with Some x => [x] | None => [] end) indexer.

(** ** Statistics *)

Fixpoint insert_sorted (x : Q) (l : list Q) : list Q :=
  match l with
  | [] => [x]
  | y :: l' => if Qle_bool x y then x :: l else y :: insert_sorted x l'
  end.

Definition sort_values_Q (l : list Q) : list Q := fold_right insert_sorted [] l.

(** [Series.median()]: the middle order statistic, the midpoint of the two
    middle ones for an even count, [nan] for an empty series. *)
Definition median (l : list Q) : float :=
  let s := sort_values_Q l in
  let n := length l in
  match n with
  | O => nan
  | _ =>
    if Nat.even n
    then Some ((nth (n / 2 - 1) s 0%Q + nth (n / 2) s 0%Q) / 2)%Q
    else Some (nth (n / 2) s 0%Q)
  end.

Definition Qsum (l : list Q) : Q := fold_right Qplus 0%Q l.

(** [Series.mean()]. *)
Definition mean (l : list Q) : float :=
  match l with
  | [] => nan
  | _ => Some (Qsum l / inject_Z (Z.of_nat (length l)))%Q
  end.

(** [Series.max()]. *)
Definition series_max (l : list Q) : float :=
  match l with
  | [] => nan
  | x :: l' => Some (fold_left (fun m y => if Qltb m y then y else m) l' x)
  end.

(** The feature matrices [txs[['gasPrice','value']].values] and
    [txs[['gasPrice','blockNumber']].values]. *)
Definition anomaly_features (df : DataFrame) : list (Q * Q) :=
  map (fun r => (gasPrice r, value r)) (records df).

Definition cluster_features (df : DataFrame) : list (Q * Q) :=
  map (fun r => (gasPrice r, inject_Z (blockNumber r))) (records df).

(** ** The libraries *)

(** The keys of [ks] read along [indexer]. *)
Definition keys_along (ks : list Q) (indexer : list nat) : list Q :=
  map (fun i => nth i ks 0%Q) indexer.

Definition key_order (ascending : bool) : Q -> Q -> Prop :=
  if ascending then Qle else fun x y => Qle y x.

(** pandas' [nargsort], the routine behind [sort_values]: from the flag
    [ascending] and the keys to the positions in sorted order. *)
Class Pandas : Type := {
  nargsort : bool -> list Q -> list nat
}.

(** What is known of the routine.  The source calls [sort_values] without
    [kind], that is with ['quicksort'], which pandas documents as not stable:
    the routine returns some permutation of the positions along which the
    keys are in order, and nothing is known of the order of equal keys. *)
Class PandasLaws (pandas : Pandas) : Prop := {
  nargsort_perm : forall ascending ks,
    Permutation (nargsort ascending ks) (seq 0 (length ks));
  nargsort_sorted : forall ascending ks,
    Sorted (key_order ascending) (keys_along ks (nargsort ascending ks))
}.

(** scikit-learn: [StandardScaler().fit_transform], the isolation forest run
    on a given random state (it returns the advanced state), and
    [DBSCAN(eps, min_samples).fit_predict].  Each may raise. *)
Class Sklearn : Type := {
  RandomState : Type;
  Matrix : Type;
  RandomState_of_seed : Z -> RandomState;
  StandardScaler_fit_transform : list (Q * Q) -> result Matrix;
  isolation_forest : Q -> RandomState -> Matrix -> RandomState * result (list Z);
  DBSCAN_fit_predict : Q -> Z -> Matrix -> result (list Z)
}.

(** ** Findings and the page *)

(** One dictionary of [recs] in [detect_sandwich]. *)
Record Finding : Type := mkFinding {
  block : Z;
  victim_hash : string;
  front_hash : string;
  back_hash : string;
  finding_to_address : option string;
  front_gas : Q;
  victim_gas : Q;
  back_gas : Q
}.

(** The Streamlit elements [run_dashboard] writes after the ingestion; the
    formatted texts are kept as the values they are formatted from. *)
Inductive Element : Type :=
| st_markdown_summary (high_gas sandwiches anomalies : Z)
| st_subheader (text : string)
| st_caption (multiplier : Q) (median_gas threshold : float)
| st_dataframe (df : DataFrame)
| st_dataframe_findings (recs : list Finding)
| st_info (text : string)
| st_markdown_sandwich (r : Finding)
| st_markdown_anomaly (a : Tx) (ratio : float)
| st_vega_lite_chart (df : DataFrame) (y_max : float).

(** ** Configuration *)

Definition HIGH_GAS_MULTIPLIER : Q := 3.

Section Pipeline.

Context {pandas : Pandas} {sklearn : Sklearn}.

(** ** The world and the monad *)

Definition ref : Type := nat.

Record World : Type := mkWorld {
  heap : ref -> DataFrame;
  np_random : RandomState;
  screen : list Element
}.

Definition M (A : Type) : Type := World -> World * result A.

Definition ret {A : Type} (a : A) : M A := fun w => (w, Ok a).

Definition bind {A B : Type} (m : M A) (k : A -> M B) : M B :=
  fun w =>
    match m w with
    | (w', Ok a) => k a w'
    | (w', Raise e) => (w', Raise e)
    end.

Notation "x <- m ;; k" := (bind m (fun x => k))
  (at level 61, m at next level, right associativity).
Notation "' pat <- m ;; k" :=
  (bind m (fun x => match x with pat => k end))
  (at level 61, pat pattern, m at next level, right associativity).
Notation "m ;;; k" := (bind m (fun _ => k))
  (at level 61, right associativity).

Definition lift {A : Type} (r : result A) : M A := fun w => (w, r).

Definition load (r : ref) : M DataFrame := fun w => (w, Ok (heap w r)).

Definition store (r : ref) (df : DataFrame) : M unit :=
  fun w =>
    ({| heap := fun r' => if Nat.eqb r' r then df else heap w r';
        np_random := np_random w;
        screen := screen w |}, Ok tt).

Definition st (e : Element) : M unit :=
  fun w =>
    ({| heap := heap w; np_random := np_random w; screen := screen w ++ [e] |},
     Ok tt).

(** [for x in xs: s = body(x, s)]. *)
Fixpoint for_ {A S : Type} (xs : list A) (body : A -> S -> M S) (s : S) : M S :=
  match xs with
  | [] => ret s
  | x :: xs' => s' <- body x s ;; for_ xs' body s'
  end.

(** Reads and writes of the object behind a reference. *)
Definition len (txs : ref) : M Z := df <- load txs ;; ret (df_len df).

Definition iloc (txs : ref) (i : Z) : M Tx := df <- load txs ;; lift (df_iloc df i).

Definition getitem_gasPrice (txs : ref) : M (list Q) :=
  df <- load txs ;; ret (map gasPrice (records df)).

Definition getitem_mask (txs : ref) (mask : list bool) : M DataFrame :=
  df <- load txs ;; lift (df_getitem_mask df mask).

Definition getitem_cluster (txs : ref) : M (list Z) :=
  df <- load txs ;; lift (df_getitem_cluster df).

Definition setitem_cluster (txs : ref) (lbls : list Z) : M unit :=
  df <- load txs ;; df' <- lift (df_setitem_cluster df lbls) ;; store txs df'.

(** [df.sort_values(by='gasPrice', ascending=...)]: a new frame. *)
Definition sort_values_gasPrice (ascending : bool) (df : DataFrame) : DataFrame :=
  let indexer := nargsort ascending (map gasPrice (records df)) in
  {| rows := take indexer (rows df);
     cluster := option_map (take indexer) (cluster df) |}.

(** [IsolationForest(contamination, random_state).fit_predict(X)]: an integer
    [random_state] seeds a generator of the estimator's own; [None] draws
    from NumPy's global one and advances it. *)
Definition IsolationForest_fit_predict
    (contamination : Q) (random_state : option Z) (X : Matrix) : M (list Z) :=
  fun w =>
    match random_state with
    | Some seed =>
        (w, snd (isolation_forest contamination (RandomState_of_seed seed) X))
    | None =>
        let (g, r) := isolation_forest contamination (np_random w) X in
        ({| heap := heap w; np_random := g; screen := screen w |}, r)
    end.

(** ** The detectors *)

Definition py_eq_address (a b : option string) : bool :=
  match a, b with
  | Some x, Some y => String.eqb x y
  | None, None => true
  | _, _ => false
  end.

Definition sandwich_condition (prev curr nxt : Tx) : bool :=
  py_eq_address (to_address prev) (to_address nxt)
  && (Qgtb (gasPrice prev) (gasPrice curr) && Qltb (gasPrice curr) (gasPrice nxt))
  && ((blockNumber prev =? blockNumber curr) && (blockNumber curr =? blockNumber nxt)).

Definition sandwich_record (prev curr nxt : Tx) : Finding :=
  {| block := blockNumber prev;
     victim_hash := tx_hash curr;
     front_hash := tx_hash prev;
     back_hash := tx_hash nxt;
     finding_to_address := to_address prev;
     front_gas := gasPrice prev;
     victim_gas := gasPrice curr;
     back_gas := gasPrice nxt |}.

Definition detect_sandwich (txs : ref) : M (list Finding) :=
  n <- len txs ;;
  for_ (range 1 (n - 1)) (fun i recs =>
    prev <- iloc txs (i - 1) ;;
    curr <- iloc txs i ;;
    nxt <- iloc txs (i + 1) ;;
    if sandwich_condition prev curr nxt
    then ret (recs ++ [sandwich_record prev curr nxt])
    else ret recs) [].

Definition detect_anomalies (txs : ref) : M DataFrame :=
  df <- load txs ;;
  let feats := anomaly_features df in
  X <- lift (StandardScaler_fit_transform feats) ;;
  labels <- IsolationForest_fit_predict 0.01 (Some 42) X ;;
  getitem_mask txs (map (fun l => l =? -1) labels).

Definition dbscan_cluster (txs : ref) : M DataFrame :=
  df <- load txs ;;
  let feats := cluster_features df in
  X <- lift (StandardScaler_fit_transform feats) ;;
  lbls <- lift (DBSCAN_fit_predict 0.5 3 X) ;;
  setitem_cluster txs lbls ;;;
  col <- getitem_cluster txs ;;
  getitem_mask txs (map (fun c => negb (c =? -1)) col).

(** Lines 151 to 153 of [run_dashboard], for a given multiplier: the median,
    the threshold and [high_gas_df]. *)
Definition high_gas (multiplier : Q) (txs : ref) : M (float * float * DataFrame) :=
  gas <- getitem_gasPrice txs ;;
  let median_gas := median gas in
  let threshold := fmul median_gas (Some multiplier) in
  gas' <- getitem_gasPrice txs ;;
  selected <- getitem_mask txs (map (fun g => fge (Some g) threshold) gas') ;;
  ret (median_gas, threshold, sort_values_gasPrice false selected).

(** [run_dashboard] from the return of [fetch_recent_txs] on: [txs] is the
    frame it returned, and what the page showed before is in [screen]. *)
Definition run_dashboard (txs : ref) : M unit :=
  df <- load txs ;;
  if df_empty df then ret tt else
  '(median_gas, threshold, high_gas_df) <- high_gas HIGH_GAS_MULTIPLIER txs ;;
  sandwiches <- detect_sandwich txs ;;
  anomalies <- detect_anomalies txs ;;
  st (st_markdown_summary (df_len high_gas_df)
        (Z.of_nat (length sandwiches)) (df_len anomalies)) ;;;
  st (st_subheader "1. High-Gas Transactions") ;;;
  st (st_caption HIGH_GAS_MULTIPLIER median_gas threshold) ;;;
  st (st_dataframe high_gas_df) ;;;
  st (st_subheader "2. Detected Sandwich Attacks") ;;;
  match sandwiches with
  | [] => st (st_info "No sandwich attacks found in this dataset.")
  | _ =>
      st (st_dataframe_findings sandwiches) ;;;
      for_ sandwiches (fun r _ => st (st_markdown_sandwich r)) tt
  end ;;;
  st (st_subheader "3. Suspicious Transactions") ;;;
  (if df_empty anomalies then st (st_info "No anomalies detected.")
   else
     st (st_dataframe anomalies) ;;;
     gas <- getitem_gasPrice txs ;;
     let avg_gas := mean gas in
     for_ (records anomalies) (fun a _ =>
       let ratio :=
         match avg_gas with
         | Some avg => if Qeq_bool avg 0 then nan else Some (gasPrice a / avg)%Q
         | None => nan
         end in
       st (st_markdown_anomaly a ratio)) tt) ;;;
  st (st_subheader "4. MEV Bot Clusters") ;;;
  clusters <- dbscan_cluster txs ;;
  if df_empty clusters then st (st_info "No clusters detected.")
  else
    st (st_vega_lite_chart clusters
          (py_max (series_max (map gasPrice (records clusters))) threshold)).



End Pipeline.

(** ** Implementations of the interfaces

    Two sorting routines that meet [PandasLaws] (insertion of the positions,
    ties kept in batch order or reversed), and stand-ins for the estimators
    in exact arithmetic, on which the model runs on concrete batches. *)

Section InsertionArgsort.

Variable before : Q -> Q -> bool.
Variable ks : list Q.

Fixpoint insert_index (i : nat) (l : list nat) : list nat :=
  match l with
  | [] => [i]
  | j :: l' =>
      if before (nth i ks 0%Q) (nth j ks 0%Q) then i :: l
      else j :: insert_index i l'
  end.

Definition insertion_argsort : list nat :=
  fold_right insert_index [] (seq 0 (length ks)).

End InsertionArgsort.

(** A position goes before the positions already placed (all greater) when
    its key is not after theirs: equal keys keep the batch order. *)
Definition stable_before (ascending : bool) (x y : Q) : bool :=
  if ascending then Qle_bool x y else Qle_bool y x.


Definition Qsq (x : Q) : Q := (x * x)%Q.

Definition Qmean (l : list Q) : Q := (Qsum l / inject_Z (Z.of_nat (length l)))%Q.

(** The variance of a column, [1] standing for [0] as in [StandardScaler]. *)
Definition scale_sq (l : list Q) : Q :=
  let m := Qmean l in
  let v := Qmean (map (fun x => Qsq (x - m)) l) in
  if Qeq_bool v 0 then 1%Q else v.

(** A standardised matrix, kept without square roots: the centred rows and
    the squared scale of each column. *)
Definition Standardised : Type := list (Q * Q) * (Q * Q).

Definition standardise (feats : list (Q * Q)) : result Standardised :=
  match feats with
  | [] => Raise ValueError
  | _ =>
      let xs := map fst feats in
      let ys := map snd feats in
      Ok (map (fun p => (fst p - Qmean xs, snd p - Qmean ys)%Q) feats,
          (scale_sq xs, scale_sq ys))
  end.

(** The squared distance of two rows of the standardised matrix. *)
Definition dist_sq (X : Standardised) (a b : Q * Q) : Q :=
  (Qsq (fst a - fst b) / fst (snd X) + Qsq (snd a - snd b) / snd (snd X))%Q.

(** A one-cut isolation rule: the random state picks the feature, and a row
    is an outlier ([-1]) when its squared standard score on that feature
    exceeds [2]. *)
Definition one_cut_forest (contamination : Q) (g : Z) (X : Standardised)
  : Z * result (list Z) :=
  ((g * 75 + 74) mod 65537,
   Ok (map (fun r =>
              let z2 := if Z.even g then (Qsq (fst r) / fst (snd X))%Q
                        else (Qsq (snd r) / snd (snd X))%Q in
              if Qltb 2 z2 then -1 else 1) (fst X))).

(** A density rule with one cluster id: a row is dense ([0]) when it, or a
    row within [eps] of it, has [min_samples] rows within [eps]; the others
    are noise ([-1]). *)
Definition density_labels (eps : Q) (min_samples : Z) (X : Standardised)
  : result (list Z) :=
  let near a b := Qle_bool (dist_sq X a b) (Qsq eps) in
  let core a := min_samples <=? Z.of_nat (length (filter (near a) (fst X))) in
  Ok (map (fun a =>
             if core a || existsb (fun b => near a b && core b) (fst X)
             then 0 else -1) (fst X)).

#[local] Instance exact_sklearn : Sklearn := {|
  RandomState := Z;
  Matrix := Standardised;
  RandomState_of_seed := fun seed => seed;
  StandardScaler_fit_transform := standardise;
  isolation_forest := one_cut_forest;
  DBSCAN_fit_predict := density_labels
|}.

(** An installation whose estimators raise on every input. *)
#[local] Instance failing_sklearn : Sklearn := {|
  RandomState := unit;
  Matrix := unit;
  RandomState_of_seed := fun _ => tt;
  StandardScaler_fit_transform := fun _ => Raise (LibraryError "StandardScaler");
  isolation_forest := fun _ g _ => (g, Raise (LibraryError "IsolationForest"));
  DBSCAN_fit_predict := fun _ _ _ => Raise (LibraryError "DBSCAN")
|}.

(** The routine of a stable kind. *)
#[local] Instance stable_pandas : Pandas := {|
  nargsort := fun ascending => insertion_argsort (stable_before ascending)
|}.


(** ** What the claims are stated with *)

(** The findings [detect_sandwich] appends at position [i] of the batch. *)
Definition findings_at (recs : list Tx) (i : Z) : list Finding :=
  match nth_error recs (Z.to_nat (i - 1)),
        nth_error recs (Z.to_nat i),
        nth_error recs (Z.to_nat (i + 1)) with
  | Some prev, Some curr, Some nxt =>
      if sandwich_condition prev curr nxt
      then [sandwich_record prev curr nxt] else []
  | _, _, _ => []
  end.

Definition flagged (recs : list Tx) (i : Z) : bool :=
  match findings_at recs i with [] => false | _ => true end.

(** The window of three consecutive positions around [i]. *)
Definition window (recs : list Tx) (i : Z) (prev curr nxt : Tx) : Prop :=
  1 <= i /\
  nth_error recs (Z.to_nat (i - 1)) = Some prev /\
  nth_error recs (Z.to_nat i) = Some curr /\
  nth_error recs (Z.to_nat (i + 1)) = Some nxt.

(** The three conditions of the sandwich detector, in the specification's
    words. *)
Definition sandwich_spec (prev curr nxt : Tx) : Prop :=
  to_address prev = to_address nxt /\
  (blockNumber prev = blockNumber curr /\ blockNumber curr = blockNumber nxt) /\
  (gasPrice curr < gasPrice prev /\ gasPrice curr < gasPrice nxt)%Q.

(** Position [i] is a sandwich victim of the batch. *)
Definition victim_spec (recs : list Tx) (i : Z) : Prop :=
  1 <= i <= Z.of_nat (length recs) - 2 /\
  exists prev curr nxt, window recs i prev curr nxt /\ sandwich_spec prev curr nxt.

(** [f] is the finding for the victim at position [i], with its front and
    back transactions. *)
Definition finding_of (recs : list Tx) (i : Z) (f : Finding) : Prop :=
  exists prev curr nxt,
    window recs i prev curr nxt /\ f = sandwich_record prev curr nxt.



(** ** Concrete batches *)

(** The batch of the sandwich example of the specification and its two
    variations. *)
Definition tx_A : Tx := mkTx "A" "a" (Some "X") 5 0 1.
Definition tx_B : Tx := mkTx "B" "b" (Some "Y") 2 0 1.
Definition tx_C : Tx := mkTx "C" "c" (Some "X") 6 0 1.

(** A world whose reference [r] holds the batch [recs], with an empty page. *)
Definition world_of `{Sklearn} (g : RandomState) (r : ref) (recs : list Tx) : World :=
  {| heap := fun r' => if Nat.eqb r' r then DataFrame_of recs else DataFrame_of [];
     np_random := g; screen := [] |}.

(** The world of the examples: the exact estimators, the global random
    state [g], the batch behind reference 0 and an empty page. *)
Definition example_world (g : Z) (recs : list Tx) : @World exact_sklearn :=
  @world_of exact_sklearn g 0%nat recs.

Definition batch_ABC : list Tx := [tx_A; tx_B; tx_C].

Definition finding_B : Finding := sandwich_record tx_A tx_B tx_C.


(** Two transactions of one gas price. *)
Definition tx_tie1 : Tx := mkTx "T1" "a" (Some "X") 5 1 1.
Definition tx_tie2 : Tx := mkTx "T2" "b" (Some "Y") 5 1 1.

(** Four transactions of block 1, three at 1 Gwei and one at 10, and the
    same with a fifth of 1 Gwei first. *)
Definition tx_low (h : string) : Tx := mkTx h "a" (Some "X") 1 0 1.
Definition tx_far : Tx := mkTx "far" "b" (Some "Y") 10 0 1.
Definition batch_dense : list Tx := [tx_low "l1"; tx_low "l2"; tx_low "l3"; tx_far].
Definition batch_outlier : list Tx := tx_low "l0" :: batch_dense.

(** Four cheap transactions, then a victim at 5 Gwei between two bids of
    10 Gwei to one contract. *)
Definition tx_front : Tx := mkTx "front" "bot" (Some "pool") 10 0 1.
Definition tx_victim : Tx := mkTx "victim" "user" (Some "pool") 5 1 1.
Definition tx_back : Tx := mkTx "back" "bot" (Some "pool") 10 0 1.
Definition batch_both : list Tx :=
  [tx_low "l1"; tx_low "l2"; tx_low "l3"; tx_low "l4"; tx_front; tx_victim; tx_back].


(** The batch has constant gas price (zero variance of the feature). *)
Definition constant_gasPrice (df : DataFrame) : Prop :=
  forall a b, In a (records df) -> In b (records df) ->
              (gasPrice a == gasPrice b)%Q.

(** ** The page of a complete run

    What [run_dashboard] writes, section by section, as lists of elements. *)

Definition head_section (median_gas threshold : float) (high_gas_df : DataFrame)
    (sandwiches : list Finding) (anomalies : DataFrame) : list Element :=
  [st_markdown_summary (df_len high_gas_df) (Z.of_nat (length sandwiches))
     (df_len anomalies);
   st_subheader "1. High-Gas Transactions";
   st_caption HIGH_GAS_MULTIPLIER median_gas threshold;
   st_dataframe high_gas_df].

Definition sandwich_section (sandwiches : list Finding) : list Element :=
  st_subheader "2. Detected Sandwich Attacks" ::
  match sandwiches with
  | [] => [st_info "No sandwich attacks found in this dataset."]
  | _ => st_dataframe_findings sandwiches :: map st_markdown_sandwich sandwiches
  end.

(** The ratio of a gas price to the batch average, [nan] when the average is
    zero. *)
Definition anomaly_ratio (avg_gas : float) (a : Tx) : float :=
  match avg_gas with
  | Some avg => if Qeq_bool avg 0 then nan else Some (gasPrice a / avg)%Q
  | None => nan
  end.

Definition anomaly_section (gas : list Q) (anomalies : DataFrame) : list Element :=
  st_subheader "3. Suspicious Transactions" ::
  if df_empty anomalies then [st_info "No anomalies detected."]
  else st_dataframe anomalies ::
       map (fun a => st_markdown_anomaly a (anomaly_ratio (mean gas) a))
           (records anomalies).

Definition cluster_element (threshold : float) (clusters : DataFrame) : Element :=
  if df_empty clusters then st_info "No clusters detected."
  else st_vega_lite_chart clusters
         (py_max (series_max (map gasPrice (records clusters))) threshold).

(** The page up to the call of [dbscan_cluster]. *)
Definition page_before_clusters (median_gas threshold : float)
    (high_gas_df : DataFrame) (sandwiches : list Finding) (anomalies : DataFrame)
    (gas : list Q) : list Element :=
  head_section median_gas threshold high_gas_df sandwiches anomalies ++
  sandwich_section sandwiches ++
  anomaly_section gas anomalies ++
  [st_subheader "4. MEV Bot Clusters"].

(** The world with elements added to the page. *)
Definition push_all `{Sklearn} (es : list Element) (w : World) : World :=
  {| heap := heap w; np_random := np_random w; screen := screen w ++ es |}.

(** ** The ingestion: [safe_get], [get_latest_block], [fetch_recent_txs]

    The responses of the API are Python values decoded from JSON; the
    network and the clock are outside the program ([Outside]), and so are the
    builtins whose results the code only passes on ([Builtins]).  A run keeps
    the requests sent, the number of clock readings and the Streamlit
    elements written ([Run]). *)

From Stdlib Require HexString.

Module Py.

Inductive error : Type :=
| TypeError
| AttributeError
| KeyError
| ValueError
| OverflowError
| UnboundLocalError
| Raised (name : string).

Inductive outcome (A : Type) : Type :=
| Return (a : A)
| Raise (e : error).
Arguments Return {A} a.
Arguments Raise {A} e.

(** A value decoded by [resp.json()]; [Obj] is a dict (its keys are
    distinct), [Float None] is [nan], the infinities are left out. *)
#[warnings="-register-all"]
Inductive json : Type :=
| Null
| Bool (b : bool)
| Int (z : Z)
| Float (x : float)
| Str (s : string)
| Arr (items : list json)
| Obj (fields : list (string * json)).

(** The truth value of [j]. *)
Definition truthy (j : json) : bool :=
  match j with
  | Null => false
  | Bool b => b
  | Int z => negb (z =? 0)
  | Float (Some q) => negb (Qeq_bool q 0)
  | Float None => true
  | Str s => negb (String.eqb s "")
  | Arr items => match items with [] => false | _ => true end
  | Obj fields => match fields with [] => false | _ => true end
  end.

Definition is_none (j : json) : bool :=
  match j with Null => true | _ => false end.

Fixpoint lookup (key : string) (fields : list (string * json)) : option json :=
  match fields with
  | [] => None
  | (k, v) :: fields' => if String.eqb k key then Some v else lookup key fields'
  end.

(** [j.get(key)]: only a dict has the method. *)
Definition get (j : json) (key : string) : outcome json :=
  match j with
  | Obj fields =>
      Return match lookup key fields with Some v => v | None => Null end
  | _ => Raise AttributeError
  end.

(** [j[key]] for a string [key]. *)
Definition getitem (j : json) (key : string) : outcome json :=
  match j with
  | Obj fields =>
      match lookup key fields with
      | Some v => Return v
      | None => Raise KeyError
      end
  | _ => Raise TypeError
  end.

(** The values [for x in j] goes through: the items of a list, the keys of
    a dict, the characters of a string. *)
Definition iter (j : json) : outcome (list json) :=
  match j with
  | Arr items => Return items
  | Obj fields => Return (map (fun kv => Str (fst kv)) fields)
  | Str s => Return (map (fun c => Str (String c "")) (list_ascii_of_string s))
  | _ => Raise TypeError
  end.

End Py.

(** The builtins the ingestion calls and only passes the results of:
    [int(s, 16)] on a string ([None] for [ValueError]), the conversion of an
    integer to a float before a division ([None] for [OverflowError]), and
    [datetime.fromtimestamp(ts, tz=timezone.utc).strftime(...)]. *)
Class Builtins : Type := {
  int16 : string -> option Z;
  float_of_int : Z -> option Q;
  utc_text : Z -> Py.outcome string
}.

Inductive Request : Type :=
| eth_blockNumber
| eth_getBlockByNumber (tag : string).

(** What [requests.get], [raise_for_status] and [json] make of a request:
    an exception of the library, or the decoded body. *)
Inductive Response : Type :=
| RequestException (message : string)
| Body (data : Py.json).

(** The network (the response to each request of the run) and the clock
    (the readings of [time.time()], in order). *)
Class Outside : Type := {
  respond : Request -> Response;
  time_time : nat -> Q
}.

(** The Streamlit elements of the ingestion. *)
Inductive Notice : Type :=
| ui_error (message : string)
| ui_progress (value : Q)
| ui_placeholder
| ui_warning_timeout
| ui_status (fetched limit_blocks : Z)
| ui_progress_empty
| ui_status_empty
| ui_time_range (min_time max_time : string)
| ui_success (blocks transactions : Z).

(** A dictionary of [all_txs] as [fetch_recent_txs] builds it: the hash and
    the addresses are whatever the response holds under the keys. *)
Record RawTx : Type := mkRawTx {
  raw_tx_hash : Py.json;
  raw_from_address : Py.json;
  raw_to_address : Py.json;
  raw_gasPrice : Q;
  raw_value : Q;
  raw_blockNumber : Z
}.

Definition MAX_BLOCKS : Z := 100.
Definition FETCH_TIMEOUT : Q := 60.

Record Run : Type := mkRun {
  sent : list Request;
  reads : nat;
  shown : list Notice
}.

Section Ingestion.

Context {builtins : Builtins} {outside : Outside}.

Definition IO (A : Type) : Type := Run -> Run * Py.outcome A.

Definition io_ret {A : Type} (a : A) : IO A := fun s => (s, Py.Return a).

Definition io_bind {A B : Type} (m : IO A) (k : A -> IO B) : IO B :=
  fun s =>
    match m s with
    | (s', Py.Return a) => k a s'
    | (s', Py.Raise e) => (s', Py.Raise e)
    end.

Notation "x <- m ;; k" := (io_bind m (fun x => k))
  (at level 61, m at next level, right associativity).
Notation "' pat <- m ;; k" :=
  (io_bind m (fun x => match x with pat => k end))
  (at level 61, pat pattern, m at next level, right associativity).
Notation "m ;;; k" := (io_bind m (fun _ => k))
  (at level 61, right associativity).

Definition io_lift {A : Type} (r : Py.outcome A) : IO A := fun s => (s, r).

Definition show (n : Notice) : IO unit :=
  fun s => ({| sent := sent s; reads := reads s; shown := shown s ++ [n] |},
            Py.Return tt).

(** [time.time()]. *)
Definition time : IO Q :=
  fun s => ({| sent := sent s; reads := S (reads s); shown := shown s |},
            Py.Return (time_time (reads s))).

(** [int(j, 16)]. *)
Definition int_base16 (j : Py.json) : Py.outcome Z :=
  match j with
  | Py.Str s =>
      match int16 s with
      | Some z => Py.Return z
      | None => Py.Raise Py.ValueError
      end
  | _ => Py.Raise Py.TypeError
  end.

(** [n / d] for an integer [n] and a float [d]. *)
Definition int_truediv (n : Z) (d : Q) : Py.outcome Q :=
  match float_of_int n with
  | Some x => Py.Return (x / d)%Q
  | None => Py.Raise Py.OverflowError
  end.

Definition pure_bind {A B : Type} (r : Py.outcome A) (k : A -> Py.outcome B)
  : Py.outcome B :=
  match r with
  | Py.Return a => k a
  | Py.Raise e => Py.Raise e
  end.

Notation "x <-- r ;; k" := (pure_bind r (fun x => k))
  (at level 61, r at next level, right associativity).

(** A failed request is reported and gives [None]. *)
Definition safe_get (request : Request) : IO Py.json :=
  fun s =>
    let s1 := {| sent := sent s ++ [request]; reads := reads s; shown := shown s |} in
    match respond request with
    | Body data => (s1, Py.Return data)
    | RequestException message =>
        ({| sent := sent s1; reads := reads s1;
            shown := shown s1 ++ [ui_error message] |},
         Py.Return Py.Null)
    end.

Definition get_latest_block : IO Z :=
  data <- safe_get eth_blockNumber ;;
  ok <- (if Py.truthy data
         then result <- io_lift (Py.get data "result") ;; io_ret (Py.truthy result)
         else io_ret false) ;;
  if ok then
    result <- io_lift (Py.getitem data "result") ;;
    io_lift (int_base16 result)
  else io_ret 0.

(** The dictionary appended for [tx] of [block], or the exception of the
    first expression that raises. *)
Definition parse_tx (block tx : Py.json) : Py.outcome RawTx :=
  g <-- Py.getitem tx "gasPrice" ;;
  g <-- int_base16 g ;;
  gas_price <-- int_truediv g (1000000000 # 1) ;;
  v <-- Py.getitem tx "value" ;;
  v <-- int_base16 v ;;
  value <-- int_truediv v (1000000000000000000 # 1) ;;
  h <-- Py.getitem tx "hash" ;;
  f <-- Py.getitem tx "from" ;;
  t <-- Py.get tx "to" ;;
  n <-- Py.getitem block "number" ;;
  n <-- int_base16 n ;;
  Py.Return {| raw_tx_hash := h; raw_from_address := f; raw_to_address := t;
               raw_gasPrice := gas_price; raw_value := value;
               raw_blockNumber := n |}.

(** The inner loop of the [try]: the list with the dictionaries appended up
    to the first transaction that raises, and whether none did. *)
Fixpoint append_txs (block : Py.json) (txs : list Py.json) (all_txs : list RawTx)
  : list RawTx * bool :=
  match txs with
  | [] => (all_txs, true)
  | tx :: txs' =>
      match parse_tx block tx with
      | Py.Return row => append_txs block txs' (all_txs ++ [row])
      | Py.Raise _ => (all_txs, false)
      end
  end.

(** The body of the [try] on [block]: the two lists as the body leaves
    them, and whether it ended without an exception. *)
Definition try_block (block : Py.json) (all_txs : list RawTx) (timestamps : list Z)
  : list RawTx * list Z * bool :=
  match (t <-- Py.getitem block "timestamp" ;; int_base16 t) with
  | Py.Raise _ => (all_txs, timestamps, false)
  | Py.Return ts =>
      let timestamps' := timestamps ++ [ts] in
      match (txs <-- Py.getitem block "transactions" ;; Py.iter txs) with
      | Py.Raise _ => (all_txs, timestamps', false)
      | Py.Return txs =>
          let (all_txs', ok) := append_txs block txs all_txs in
          (all_txs', timestamps', ok)
      end
  end.

(** [enumerate(range(latest_block, latest_block - limit_blocks, -1))]. *)
Definition countdown (latest_block limit_blocks : Z) : list (Z * Z) :=
  map (fun k => (Z.of_nat k, latest_block - Z.of_nat k))
      (seq 0 (Z.to_nat limit_blocks)).

Definition block_request (blk : Z) : Request :=
  eth_getBlockByNumber (HexString.of_Z blk).

(** The [for] loop of [fetch_recent_txs] over the remaining pairs
    [(i, blk)]; [last] is the value of [i] when the loop is left, if it was
    ever bound. *)
Fixpoint fetch_loop (limit_blocks : Z) (start_time : Q) (items : list (Z * Z))
    (all_txs : list RawTx) (timestamps : list Z) (last : option Z)
  : IO (list RawTx * list Z * option Z) :=
  match items with
  | [] => io_ret (all_txs, timestamps, last)
  | (i, blk) :: items' =>
      now <- time ;;
      if Qgtb (now - start_time) FETCH_TIMEOUT then
        show ui_warning_timeout ;;;
        io_ret (all_txs, timestamps, Some i)
      else
        data <- safe_get (block_request blk) ;;
        skip <- (if negb (Py.truthy data) then io_ret true
                 else result <- io_lift (Py.get data "result") ;;
                      io_ret (Py.is_none result)) ;;
        if skip then fetch_loop limit_blocks start_time items' all_txs timestamps (Some i)
        else
          block <- io_lift (Py.getitem data "result") ;;
          let '(all_txs', timestamps', ok) := try_block block all_txs timestamps in
          if ok then
            show (ui_progress (inject_Z (i + 1) / inject_Z limit_blocks)) ;;;
            show (ui_status (i + 1) limit_blocks) ;;;
            fetch_loop limit_blocks start_time items' all_txs' timestamps' (Some i)
          else
            fetch_loop limit_blocks start_time items' all_txs' timestamps' (Some i)
  end.

Definition list_min (x : Z) (l : list Z) : Z := fold_left Z.min l x.
Definition list_max (x : Z) (l : list Z) : Z := fold_left Z.max l x.

(** [fetch_recent_txs(limit_blocks)]; the frame it returns is the list of
    its rows. *)
Definition fetch_recent_txs (limit_blocks : Z) : IO (list RawTx) :=
  let limit_blocks := Z.min limit_blocks MAX_BLOCKS in
  latest_block <- get_latest_block ;;
  show (ui_progress 0) ;;;
  show ui_placeholder ;;;
  start_time <- time ;;
  '(all_txs, timestamps, last) <-
     fetch_loop limit_blocks start_time (countdown latest_block limit_blocks)
       [] [] None ;;
  show ui_progress_empty ;;;
  show ui_status_empty ;;;
  match timestamps with
  | [] => io_ret tt
  | ts :: timestamps' =>
      min_time <- io_lift (utc_text (list_min ts timestamps')) ;;
      max_time <- io_lift (utc_text (list_max ts timestamps')) ;;
      show (ui_time_range min_time max_time)
  end ;;;
  match last with
  | None => io_lift (Py.Raise Py.UnboundLocalError)
  | Some i =>
      show (ui_success (i + 1) (Z.of_nat (length all_txs))) ;;;
      io_ret all_txs
  end.

End Ingestion.

(** ** What the ingestion is described with *)

Section IngestionSpec.

Context {builtins : Builtins} {outside : Outside}.

(** What the loop does with a response: it skips the block (failed request,
    falsy body, no result), it breaks on a body that is true and no dict, or
    it goes on with the result as [block]. *)
Inductive Reply : Type :=
| Skipped
| Breaks
| Block (block : Py.json).

Definition reply_of (r : Response) : Reply :=
  match r with
  | RequestException _ => Skipped
  | Body data =>
      if negb (Py.truthy data) then Skipped
      else match data with
           | Py.Obj fields =>
               match Py.lookup "result" fields with
               | None | Some Py.Null => Skipped
               | Some block => Block block
               end
           | _ => Breaks
           end
  end.

(** The rows of the longest run of transactions, from the first one on,
    for which every field is there and decodes. *)
Fixpoint parsed_prefix (block : Py.json) (txs : list Py.json) : list RawTx :=
  match txs with
  | [] => []
  | tx :: txs' =>
      match parse_tx block tx with
      | Py.Return row => row :: parsed_prefix block txs'
      | Py.Raise _ => []
      end
  end.

Definition all_parse (block : Py.json) (txs : list Py.json) : bool :=
  forallb (fun tx => match parse_tx block tx with
                     | Py.Return _ => true
                     | Py.Raise _ => false
                     end) txs.

(** The timestamp of a block, when it is there and decodes. *)
Definition stamp_of (block : Py.json) : option Z :=
  match Py.getitem block "timestamp" with
  | Py.Return t =>
      match int_base16 t with
      | Py.Return ts => Some ts
      | Py.Raise _ => None
      end
  | Py.Raise _ => None
  end.

(** The transactions of a block, when they can be gone through. *)
Definition txs_of (block : Py.json) : option (list Py.json) :=
  match Py.getitem block "transactions" with
  | Py.Return txs =>
      match Py.iter txs with
      | Py.Return l => Some l
      | Py.Raise _ => None
      end
  | Py.Raise _ => None
  end.

(** The rows a block adds to the batch. *)
Definition rows_of_block (block : Py.json) : list RawTx :=
  match stamp_of block, txs_of block with
  | Some _, Some txs => parsed_prefix block txs
  | _, _ => []
  end.

(** The rows and the timestamps a response adds. *)
Definition rows_of (r : Response) : list RawTx :=
  match reply_of r with
  | Block block => rows_of_block block
  | _ => []
  end.

Definition stamps_of (r : Response) : list Z :=
  match reply_of r with
  | Block block => match stamp_of block with Some ts => [ts] | None => [] end
  | _ => []
  end.

(** The [try] body ends without an exception on the block. *)
Definition block_ok (block : Py.json) : bool :=
  match stamp_of block, txs_of block with
  | Some _, Some txs => all_parse block txs
  | _, _ => false
  end.

(** The states of a run after a reading of the clock, a request and an
    element. *)
Definition after_read (s : Run) : Run :=
  {| sent := sent s; reads := S (reads s); shown := shown s |}.

Definition after_request (request : Request) (s : Run) : Run :=
  {| sent := sent s ++ [request]; reads := reads s; shown := shown s |}.

Definition after_show (ns : list Notice) (s : Run) : Run :=
  {| sent := sent s; reads := reads s; shown := shown s ++ ns |}.

(** The elements a block request adds to the page. *)
Definition notices_of (limit_blocks i : Z) (r : Response) : list Notice :=
  match r with
  | RequestException message => [ui_error message]
  | Body _ =>
      match reply_of r with
      | Block block =>
          if block_ok block
          then [ui_progress (inject_Z (i + 1) / inject_Z limit_blocks);
                ui_status (i + 1) limit_blocks]
          else []
      | _ => []
      end
  end.

(** The clock reading of iteration [j] of a loop begun in state [s] is past
    the budget. *)
Definition over_budget (start_time : Q) (s : Run) (j : nat) : bool :=
  Qgtb (time_time (reads s + j) - start_time) FETCH_TIMEOUT.

(** The request, the elements, the rows and the timestamps of the pairs
    [(i, blk)] the loop has gone through. *)
Definition request_of (it : Z * Z) : Request := block_request (snd it).

Definition page_of (limit_blocks : Z) (done : list (Z * Z)) : list Notice :=
  flat_map (fun it => notices_of limit_blocks (fst it) (respond (request_of it))) done.

Definition batch_of (done : list (Z * Z)) : list RawTx :=
  flat_map (fun it => rows_of (respond (request_of it))) done.

Definition times_of (done : list (Z * Z)) : list Z :=
  flat_map (fun it => stamps_of (respond (request_of it))) done.

Definition no_break (it : Z * Z) : Prop :=
  reply_of (respond (request_of it)) <> Breaks.

(** The value of [i] after the loop has gone through all of [items]. *)
Definition last_index (items : list (Z * Z)) (last : option Z) : option Z :=
  fold_left (fun _ it => Some (fst it)) items last.

(** The block numbers [latest_block], [latest_block - 1], ... of the first
    [k] iterations. *)
Definition blocks_down (latest_block : Z) (k : nat) : list Z :=
  map (fun j => latest_block - Z.of_nat j) (seq 0 k).

(** What [get_latest_block] makes of the response to its request. *)
Definition latest_of (r : Response) : Py.outcome Z :=
  match r with
  | RequestException _ => Py.Return 0
  | Body data =>
      if negb (Py.truthy data) then Py.Return 0
      else match data with
           | Py.Obj fields =>
               match Py.lookup "result" fields with
               | Some v => if Py.truthy v then int_base16 v else Py.Return 0
               | None => Py.Return 0
               end
           | _ => Py.Raise Py.AttributeError
           end
  end.

Definition error_of (r : Response) : list Notice :=
  match r with
  | RequestException message => [ui_error message]
  | Body _ => []
  end.

(** The line of the time range, when there is a timestamp. *)
Definition time_range_of (timestamps : list Z) : Py.outcome (list Notice) :=
  match timestamps with
  | [] => Py.Return []
  | ts :: timestamps' =>
      match utc_text (list_min ts timestamps') with
      | Py.Raise e => Py.Raise e
      | Py.Return min_time =>
          match utc_text (list_max ts timestamps') with
          | Py.Raise e => Py.Raise e
          | Py.Return max_time => Py.Return [ui_time_range min_time max_time]
          end
      end
  end.

(** The lines of [fetch_recent_txs] after its loop. *)
Definition fetch_end (all_txs : list RawTx) (timestamps : list Z) (last : option Z)
    (s : Run) : Run * Py.outcome (list RawTx) :=
  let s1 := after_show [ui_progress_empty; ui_status_empty] s in
  match time_range_of timestamps with
  | Py.Raise e => (s1, Py.Raise e)
  | Py.Return ns =>
      match last with
      | None => (after_show ns s1, Py.Raise Py.UnboundLocalError)
      | Some i =>
          (after_show (ns ++ [ui_success (i + 1) (Z.of_nat (length all_txs))]) s1,
           Py.Return all_txs)
      end
  end.

(** The progress values and the status counts are within their bounds. *)
Definition within_bounds (limit_blocks : Z) (n : Notice) : Prop :=
  match n with
  | ui_progress value => (0 <= value <= 1)%Q
  | ui_status fetched limit => 1 <= fetched <= limit /\ limit = limit_blocks
  | _ => True
  end.

(** The elements of the loop are errors, progress values and statuses. *)
Definition of_the_loop (n : Notice) : Prop :=
  match n with
  | ui_error _ | ui_progress _ | ui_status _ _ => True
  | _ => False
  end.

End IngestionSpec.

(** ** An API and builtins to run the ingestion on *)

(** [int(s, 16)] on the texts [hex] writes, the exact quotient, and the
    number itself as the text of a time. *)
#[local] Instance plain_builtins : Builtins := {|
  int16 := fun s =>
    let z := HexString.to_Z s in
    if String.eqb (HexString.of_Z z) s then Some z else None;
  float_of_int := fun n => Some (inject_Z n);
  utc_text := fun ts => Py.Return (HexString.of_Z ts)
|}.

Definition tx_json (hash gas_price : string) : Py.json :=
  Py.Obj [("hash", Py.Str hash); ("from", Py.Str "0xa"); ("to", Py.Null);
          ("gasPrice", Py.Str gas_price); ("value", Py.Str "0x0")].

Definition block_json (number timestamp : string) (txs : list Py.json) : Py.json :=
  Py.Obj [("number", Py.Str number); ("timestamp", Py.Str timestamp);
          ("transactions", Py.Arr txs)].

(** Block 2 has two transactions and a third without a gas price, then a
    fourth; the request of block 1 fails; block 0 has one transaction. *)
Definition block_two : Py.json :=
  block_json "0x2" "0x64"
    [tx_json "0xh1" "0x3b9aca00"; tx_json "0xh2" "0x77359400";
     Py.Obj [("hash", Py.Str "0xh3")]; tx_json "0xh4" "0x3b9aca00"].

Definition block_zero : Py.json :=
  block_json "0x0" "0x10" [tx_json "0xh0" "0x3b9aca00"].

Definition example_api (request : Request) : Response :=
  match request with
  | eth_blockNumber => Body (Py.Obj [("result", Py.Str "0x2")])
  | eth_getBlockByNumber tag =>
      if String.eqb tag "0x2" then Body (Py.Obj [("result", block_two)])
      else if String.eqb tag "0x1" then RequestException "timed out"
      else if String.eqb tag "0x0" then Body (Py.Obj [("result", block_zero)])
      else Body (Py.Obj [("result", Py.Null)])
  end.

(** A clock that advances by one second at every reading, and one that
    advances by fifty. *)
#[local] Instance quick_outside : Outside := {|
  respond := example_api;
  time_time := fun k => inject_Z (Z.of_nat k)
|}.

#[local] Instance slow_outside : Outside := {|
  respond := example_api;
  time_time := fun k => inject_Z (50 * Z.of_nat k)
|}.

(** An API whose every request fails. *)
#[local] Instance dead_outside : Outside := {|
  respond := fun _ => RequestException "no route";
  time_time := fun k => inject_Z (Z.of_nat k)
|}.

(** An API that answers a block request with a JSON list. *)
#[local] Instance list_outside : Outside := {|
  respond := fun request =>
    match request with
    | eth_blockNumber => Body (Py.Obj [("result", Py.Str "0x2")])
    | eth_getBlockByNumber _ => Body (Py.Arr [Py.Str "rate limited"])
    end;
  time_time := fun k => inject_Z (Z.of_nat k)
|}.

Definition fresh_run : Run := {| sent := []; reads := 0; shown := [] |}.

(** ** Properties of the sorting routines *)

Section InsertionArgsortFacts.

Variable before : Q -> Q -> bool.
Variable R : Q -> Q -> Prop.
Variable ks : list Q.
Hypothesis before_true : forall x y, before x y = true -> R x y.
Hypothesis before_false : forall x y, before x y = false -> R y x.

Lemma insert_index_perm (i : nat) (l : list nat) :
  Permutation (insert_index before ks i l) (i :: l).
Proof.
  induction l as [|j l IH]; simpl.
  - reflexivity.
  - destruct (before _ _).
    + reflexivity.
    + rewrite IH. apply perm_swap.
Qed.

Lemma insertion_argsort_perm :
  Permutation (insertion_argsort before ks) (seq 0 (length ks)).
Proof.
  unfold insertion_argsort.
  induction (seq 0 (length ks)) as [|i l IH]; simpl.
  - reflexivity.
  - rewrite insert_index_perm. now apply perm_skip.
Qed.

Lemma insert_index_sorted (i : nat) (l : list nat) :
  Sorted R (keys_along ks l) ->
  Sorted R (keys_along ks (insert_index before ks i l)).
Proof.
  induction l as [|j l IH]; simpl; intros Hs.
  - repeat constructor.
  - destruct (before _ _) eqn:Hb; simpl.
    + constructor; [exact Hs|]. constructor. now apply before_true.
    + inversion Hs as [|? ? Hs' Hhd]; subst.
      constructor; [now apply IH|].
      destruct l as [|k l]; simpl.
      * constructor. now apply before_false.
      * destruct (before (nth i ks 0%Q) (nth k ks 0%Q)); simpl.
        -- constructor. now apply before_false.
        -- inversion Hhd; subst. now constructor.
Qed.

Lemma insertion_argsort_sorted :
  Sorted R (keys_along ks (insertion_argsort before ks)).
Proof.
  unfold insertion_argsort.
  induction (seq 0 (length ks)) as [|i l IH]; simpl.
  - constructor.
  - now apply insert_index_sorted.
Qed.

End InsertionArgsortFacts.

Lemma Qltb_lt (x y : Q) : Qltb x y = true <-> (x < y)%Q.
Proof.
  unfold Qltb. rewrite negb_true_iff. split; intros H.
  - apply Qnot_le_lt. intros Hle. apply Qle_bool_iff in Hle. congruence.
  - destruct (Qle_bool y x) eqn:E; [|reflexivity].
    apply Qle_bool_iff in E. exfalso. now apply (Qlt_not_le x y).
Qed.

Lemma Qltb_ge (x y : Q) : Qltb x y = false <-> (y <= x)%Q.
Proof.
  unfold Qltb. rewrite negb_false_iff. apply Qle_bool_iff.
Qed.

Lemma Qle_bool_false (x y : Q) : Qle_bool x y = false -> (y <= x)%Q.
Proof.
  intros H. apply Qlt_le_weak, Qnot_le_lt. intros Hle.
  apply Qle_bool_iff in Hle. congruence.
Qed.

Lemma stable_before_true ascending x y :
  stable_before ascending x y = true -> key_order ascending x y.
Proof. destruct ascending; simpl; apply Qle_bool_iff. Qed.

Lemma stable_before_false ascending x y :
  stable_before ascending x y = false -> key_order ascending y x.
Proof. destruct ascending; simpl; apply Qle_bool_false. Qed.



(** Both routines meet the contract. *)
Lemma stable_pandas_laws : PandasLaws stable_pandas.
Proof.
  split; intros ascending ks; simpl.
  - apply insertion_argsort_perm.
  - apply (insertion_argsort_sorted _ _ ks
             (stable_before_true ascending) (stable_before_false ascending)).
Qed.


(** ** Lists, ranges and the monad *)

Lemma in_range (lo hi i : Z) : In i (range lo hi) <-> lo <= i < hi.
Proof.
  unfold range. rewrite in_map_iff. split.
  - intros (k & <- & Hk). apply in_seq in Hk. lia.
  - intros Hi. exists (Z.to_nat (i - lo)). split; [lia|].
    apply in_seq. lia.
Qed.

Lemma range_sorted (lo hi : Z) : StronglySorted Z.lt (range lo hi).
Proof.
  unfold range. generalize (Z.to_nat (hi - lo)) as n. intros n.
  generalize 0%nat as s. induction n as [|n IH]; intros s; simpl.
  - constructor.
  - constructor; [apply IH|].
    apply Forall_forall. intros x Hx. apply in_map_iff in Hx.
    destruct Hx as (k & <- & Hk). apply in_seq in Hk. lia.
Qed.

Lemma filter_sorted {A : Type} (R : A -> A -> Prop) (p : A -> bool) (l : list A) :
  StronglySorted R l -> StronglySorted R (filter p l).
Proof.
  induction 1 as [|x l Hs IH Hall]; simpl.
  - constructor.
  - destruct (p x); [|exact IH].
    constructor; [exact IH|].
    apply Forall_forall. intros y Hy. apply filter_In in Hy.
    rewrite Forall_forall in Hall. now apply Hall.
Qed.

Lemma range_records (recs : list Tx) :
  map snd (combine (range 0 (Z.of_nat (length recs))) recs) = recs.
Proof.
  unfold range. rewrite Z.sub_0_r, Nat2Z.id.
  generalize 0%nat as s. induction recs as [|r recs IH]; intros s; simpl.
  - reflexivity.
  - now rewrite IH.
Qed.

Lemma records_DataFrame_of (recs : list Tx) : records (DataFrame_of recs) = recs.
Proof. apply range_records. Qed.

Lemma df_len_records (df : DataFrame) : df_len df = Z.of_nat (length (records df)).
Proof. unfold df_len, records. now rewrite length_map. Qed.

Lemma df_iloc_nth (df : DataFrame) (i : Z) :
  0 <= i < df_len df ->
  exists r, nth_error (records df) (Z.to_nat i) = Some r /\ df_iloc df i = Ok r.
Proof.
  intros Hi. unfold df_iloc.
  replace ((0 <=? i) && (i <? df_len df)) with true
    by (symmetry; apply andb_true_iff; split; [apply Z.leb_le|apply Z.ltb_lt]; lia).
  destruct (nth_error (records df) (Z.to_nat i)) as [r|] eqn:E.
  - now exists r.
  - apply nth_error_None in E. rewrite df_len_records in Hi. lia.
Qed.

Section Facts.

Context {pandas : Pandas} {sklearn : Sklearn}.

Lemma for_appends {A B : Type} (f : A -> list B) (w : World)
    (body : A -> list B -> M (list B)) (xs : list A) :
  (forall x s, In x xs -> body x s w = (w, Ok (s ++ f x))) ->
  forall s, for_ xs body s w = (w, Ok (s ++ flat_map f xs)).
Proof.
  induction xs as [|x xs IH]; intros Hbody s; simpl.
  - unfold ret. now rewrite app_nil_r.
  - unfold bind. rewrite Hbody by now left.
    rewrite IH by (intros; apply Hbody; now right).
    now rewrite app_assoc.
Qed.

(** The loop of [detect_sandwich], run: it touches nothing and returns the
    findings of the interior positions in ascending order. *)
Lemma detect_sandwich_run (txs : ref) (w : World) :
  detect_sandwich txs w =
  (w, Ok (flat_map (findings_at (records (heap w txs)))
            (range 1 (df_len (heap w txs) - 1)))).
Proof.
  assert (Hlen : forall k : Z -> M (list Finding),
             bind (len txs) k w = k (df_len (heap w txs)) w) by reflexivity.
  unfold detect_sandwich. rewrite Hlen. clear Hlen.
  set (df := heap w txs).
  rewrite (for_appends (findings_at (records df)) w); [reflexivity|].
  intros i recs Hi. apply in_range in Hi.
  unfold bind, iloc, bind, load, lift. fold df.
  destruct (df_iloc_nth df (i - 1)) as (prev & Eprev & ->); [lia|].
  destruct (df_iloc_nth df i) as (curr & Ecurr & ->); [lia|].
  destruct (df_iloc_nth df (i + 1)) as (nxt & Enxt & ->); [lia|].
  unfold findings_at. rewrite Eprev, Ecurr, Enxt.
  destruct (sandwich_condition prev curr nxt); unfold ret.
  - reflexivity.
  - now rewrite app_nil_r.
Qed.

End Facts.

(** ** The sandwich detector *)

Lemma py_eq_address_eq (a b : option string) : py_eq_address a b = true <-> a = b.
Proof.
  destruct a as [x|], b as [y|]; simpl; split; intros H;
    try discriminate; try reflexivity.
  - apply String.eqb_eq in H. now subst.
  - injection H as ->. apply String.eqb_refl.
Qed.

Lemma sandwich_condition_spec (prev curr nxt : Tx) :
  sandwich_condition prev curr nxt = true <-> sandwich_spec prev curr nxt.
Proof.
  unfold sandwich_condition, sandwich_spec, Qgtb.
  rewrite !andb_true_iff, py_eq_address_eq, !Qltb_lt, !Z.eqb_eq. tauto.
Qed.

Lemma window_interior (recs : list Tx) (i : Z) (prev curr nxt : Tx) :
  window recs i prev curr nxt -> 1 <= i <= Z.of_nat (length recs) - 2.
Proof.
  intros (Hi & _ & _ & Hn).
  assert (Hlt : (Z.to_nat (i + 1) < length recs)%nat)
    by (apply nth_error_Some; congruence).
  lia.
Qed.

Lemma findings_at_inv (recs : list Tx) (i : Z) (f : Finding) :
  1 <= i -> In f (findings_at recs i) ->
  exists prev curr nxt,
    window recs i prev curr nxt /\ sandwich_condition prev curr nxt = true /\
    f = sandwich_record prev curr nxt.
Proof.
  unfold findings_at, window. intros Hi Hin.
  destruct (nth_error recs (Z.to_nat (i - 1))) as [prev|]; [|easy].
  destruct (nth_error recs (Z.to_nat i)) as [curr|]; [|easy].
  destruct (nth_error recs (Z.to_nat (i + 1))) as [nxt|]; [|easy].
  destruct (sandwich_condition prev curr nxt) eqn:Hc; [|easy].
  destruct Hin as [<-|[]]. now exists prev, curr, nxt.
Qed.

Lemma findings_at_window (recs : list Tx) (i : Z) (prev curr nxt : Tx) :
  window recs i prev curr nxt ->
  findings_at recs i =
  if sandwich_condition prev curr nxt then [sandwich_record prev curr nxt] else [].
Proof.
  intros (_ & Hp & Hc & Hn). unfold findings_at. now rewrite Hp, Hc, Hn.
Qed.

Lemma flagged_victim (recs : list Tx) (i : Z) :
  1 <= i -> (flagged recs i = true <-> victim_spec recs i).
Proof.
  intros Hi. unfold flagged, victim_spec. split.
  - intros Hf.
    destruct (findings_at recs i) as [|f fs] eqn:E; [discriminate|].
    destruct (findings_at_inv recs i f Hi) as (p & c & n & Hw & Hc & _);
      [rewrite E; now left|].
    split; [now apply (window_interior recs i p c n)|].
    exists p, c, n. split; [exact Hw|now apply sandwich_condition_spec].
  - intros (_ & p & c & n & Hw & Hs).
    rewrite (findings_at_window recs i p c n Hw).
    apply sandwich_condition_spec in Hs. now rewrite Hs.
Qed.

Lemma findings_follow_positions (recs : list Tx) (xs : list Z) :
  Forall (fun i => 1 <= i) xs ->
  Forall2 (finding_of recs) (filter (flagged recs) xs)
          (flat_map (findings_at recs) xs).
Proof.
  induction 1 as [|i xs Hi _ IH]; simpl.
  - constructor.
  - unfold flagged at 1.
    destruct (findings_at recs i) as [|f fs] eqn:E; simpl; [exact IH|].
    destruct (findings_at_inv recs i f Hi) as (p & c & n & Hw & Hc & ->);
      [rewrite E; now left|].
    rewrite (findings_at_window recs i p c n Hw), Hc in E.
    injection E as <-. constructor; [|exact IH].
    now exists p, c, n.
Qed.


Section Sandwich.

Context {sklearn : Sklearn}.


(** C7. Every finding of [detect_sandwich] is the finding of a window whose
    middle position [i] is interior ([1 <= i <= len - 2]); in a batch whose
    hashes are distinct, no finding names the first or the last transaction
    of the batch as its victim. *)
Theorem first_and_last_never_flagged (w w' : World) (txs : ref)
    (findings : list Finding) (f : Finding) :
  detect_sandwich txs w = (w', Ok findings) ->
  In f findings ->
  let recs := records (heap w txs) in
  (exists i, 1 <= i <= Z.of_nat (length recs) - 2 /\ finding_of recs i f) /\
  (NoDup (map tx_hash recs) ->
   forall first last,
     nth_error recs 0 = Some first ->
     nth_error recs (length recs - 1) = Some last ->
     victim_hash f <> tx_hash first /\ victim_hash f <> tx_hash last).
Proof.
  intros Hrun Hin recs. rewrite detect_sandwich_run in Hrun.
  injection Hrun as _ <-. fold recs in Hin.
  apply in_flat_map in Hin. destruct Hin as (i & Hi & Hf).
  apply in_range in Hi.
  destruct (findings_at_inv recs i f) as (p & c & n & Hw & _ & ->);
    [lia|exact Hf|].
  pose proof (window_interior recs i p c n Hw) as Hint.
  split.
  - exists i. split; [exact Hint|]. now exists p, c, n.
  - intros Hnd first last Hfirst Hlast. simpl.
    destruct Hw as (_ & _ & Hc & _).
    assert (Hat : forall k t, nth_error recs k = Some t ->
                  nth_error (map tx_hash recs) k = Some (tx_hash t))
      by (intros k t Hk; now rewrite nth_error_map, Hk).
    rewrite NoDup_nth_error in Hnd.
    split; intros Heq.
    + assert (Z.to_nat i = 0%nat); [|lia].
      apply Hnd.
      * rewrite length_map. apply nth_error_Some. congruence.
      * rewrite (Hat _ _ Hc), (Hat _ _ Hfirst). now f_equal.
    + assert (Z.to_nat i = (length recs - 1)%nat); [|lia].
      apply Hnd.
      * rewrite length_map. apply nth_error_Some. congruence.
      * rewrite (Hat _ _ Hc), (Hat _ _ Hlast). now f_equal.
Qed.


End Sandwich.

(** ** Masks, [take] and the sorted frame *)

Lemma compress_map {A : Type} (p : A -> bool) (l : list A) :
  compress (map p l) l = filter p l.
Proof.
  induction l as [|x l IH]; simpl; [reflexivity|].
  rewrite IH. reflexivity.
Qed.

Lemma df_getitem_mask_map (df : DataFrame) (p : Z * Tx -> bool) :
  df_getitem_mask df (map p (rows df)) =
  Ok {| rows := filter p (rows df);
        cluster := option_map (compress (map p (rows df))) (cluster df) |}.
Proof.
  unfold df_getitem_mask. rewrite length_map, Nat.eqb_refl.
  now rewrite compress_map.
Qed.

Lemma take_all {A : Type} (l : list A) : take (seq 0 (length l)) l = l.
Proof.
  unfold take. induction l as [|x l IH]; simpl; [reflexivity|].
  f_equal. rewrite <- seq_shift, flat_map_concat_map, map_map.
  rewrite <- flat_map_concat_map. exact IH.
Qed.

Lemma take_perm {A : Type} (indexer : list nat) (l : list A) :
  Permutation indexer (seq 0 (length l)) -> Permutation (take indexer l) l.
Proof.
  intros Hp. rewrite <- (take_all l) at 2. unfold take.
  induction Hp; simpl.
  - reflexivity.
  - now apply Permutation_app_head.
  - rewrite !app_assoc. apply Permutation_app_tail, Permutation_app_comm.
  - etransitivity; eassumption.
Qed.



Lemma median_of_some (l : list Q) : l <> [] -> exists med, median l = Some med.
Proof.
  intros Hl. unfold median. destruct l as [|x l]; [easy|].
  cbv zeta. change (length (x :: l)) with (S (length l)).
  destruct (Nat.even (S (length l))); eexists; reflexivity.
Qed.

Section HighGas.

Context {pandas : Pandas} {laws : PandasLaws pandas} {sklearn : Sklearn}.

Lemma sort_values_perm (ascending : bool) (df : DataFrame) :
  Permutation (rows (sort_values_gasPrice ascending df)) (rows df).
Proof.
  simpl. apply take_perm.
  replace (length (rows df)) with (length (map gasPrice (records df)))
    by (unfold records; now rewrite !length_map).
  apply nargsort_perm.
Qed.


(** Lines 151 to 153, run on a frame with rows. *)
Lemma high_gas_run (multiplier : Q) (txs : ref) (w : World) (med : Q) :
  median (map gasPrice (records (heap w txs))) = Some med ->
  high_gas multiplier txs w =
  (w, Ok (Some med, Some (med * multiplier)%Q,
          sort_values_gasPrice false
            {| rows := filter (fun r => Qle_bool (med * multiplier) (gasPrice (snd r)))
                              (rows (heap w txs));
               cluster := option_map
                 (compress (map (fun r => Qle_bool (med * multiplier) (gasPrice (snd r)))
                                (rows (heap w txs))))
                 (cluster (heap w txs)) |})).
Proof.
  intros Hmed.
  unfold high_gas, bind, getitem_gasPrice, getitem_mask, bind, load, ret, lift.
  rewrite Hmed. unfold records. rewrite !map_map. simpl fmul. cbv beta.
  change (fun x : Z * Tx => fge (Some (gasPrice (snd x))) (Some (med * multiplier)%Q))
    with (fun r : Z * Tx => Qle_bool (med * multiplier) (gasPrice (snd r))).
  now rewrite df_getitem_mask_map.
Qed.

Lemma nonempty_records (df : DataFrame) :
  df_empty df = false -> map gasPrice (records df) <> [].
Proof.
  unfold df_empty, records. destruct (rows df); [discriminate|].
  simpl. discriminate.
Qed.


End HighGas.

(** ** The anomaly scorer and the clusterer *)

Lemma combine_functional {A B : Type} (l1 : list A) (l2 : list B) (a : A) (b b' : B) :
  NoDup l1 -> In (a, b) (combine l1 l2) -> In (a, b') (combine l1 l2) -> b = b'.
Proof.
  intros Hnd. revert l2. induction Hnd as [|x l1 Hx _ IH]; intros l2 H1 H2.
  - destruct H1.
  - destruct l2 as [|y l2]; [destruct H1|]. simpl in H1, H2.
    destruct H1 as [E1|H1], H2 as [E2|H2].
    + congruence.
    + injection E1 as -> ->. apply in_combine_l in H2. contradiction.
    + injection E2 as -> ->. apply in_combine_l in H1. contradiction.
    + now apply (IH l2).
Qed.

Lemma compress_combine {A B : Type} (mask : list bool) (l1 : list A) (l2 : list B) :
  combine (compress mask l1) (compress mask l2) = compress mask (combine l1 l2).
Proof.
  revert l1 l2. induction mask as [|b mask IH]; intros l1 l2; [reflexivity|].
  destruct l1 as [|x l1], l2 as [|y l2]; simpl; try reflexivity.
  - now destruct b, (compress mask l1).
  - destruct b; simpl; now rewrite IH.
Qed.

Lemma compress_length {A B : Type} (mask : list bool) (l1 : list A) (l2 : list B) :
  length l1 = length l2 ->
  length (compress mask l1) = length (compress mask l2).
Proof.
  revert l1 l2. induction mask as [|b mask IH]; intros l1 l2 Hl; [reflexivity|].
  destruct l1 as [|x l1], l2 as [|y l2]; simpl in *; try discriminate;
    [reflexivity|].
  injection Hl as Hl. destruct b; simpl; now rewrite (IH l1 l2).
Qed.

Lemma compress_by_label {A : Type} (p : Z -> bool) (l : list A) (lbls : list Z) :
  length lbls = length l ->
  compress (map p lbls) (combine l lbls) = filter (fun x => p (snd x)) (combine l lbls).
Proof.
  revert lbls. induction l as [|x l IH]; intros [|c lbls] Hl; simpl in *;
    try discriminate; try reflexivity.
  injection Hl as Hl. rewrite (IH lbls Hl). reflexivity.
Qed.

Lemma nth_error_combine {A B : Type} (l1 : list A) (l2 : list B) (k : nat) a b :
  nth_error l1 k = Some a -> nth_error l2 k = Some b ->
  In (a, b) (combine l1 l2).
Proof.
  revert l1 l2. induction k as [|k IH]; intros [|x l1] [|y l2] H1 H2;
    simpl in *; try discriminate.
  - left. congruence.
  - right. now apply IH.
Qed.

Lemma in_combine_of_left {A B : Type} (l1 : list A) (l2 : list B) (a : A) :
  length l1 = length l2 -> In a l1 -> exists b, In (a, b) (combine l1 l2).
Proof.
  revert l2. induction l1 as [|x l1 IH]; intros [|y l2] Hl Hin;
    simpl in *; try discriminate; [destruct Hin|].
  injection Hl as Hl. destruct Hin as [->|Hin].
  - exists y. now left.
  - destruct (IH l2 Hl Hin) as (b & Hb). exists b. now right.
Qed.

Section Estimators.

Context {sklearn : Sklearn}.

(** [detect_anomalies], run: whatever the estimators do, the world is left
    as it was, and the outcome is theirs. *)
Lemma detect_anomalies_run (txs : ref) (w : World) :
  detect_anomalies txs w =
  (w, match StandardScaler_fit_transform (anomaly_features (heap w txs)) with
      | Raise e => Raise e
      | Ok X =>
          match snd (isolation_forest 0.01 (RandomState_of_seed 42) X) with
          | Raise e => Raise e
          | Ok labels =>
              df_getitem_mask (heap w txs) (map (fun l => l =? -1) labels)
          end
      end).
Proof.
  unfold detect_anomalies, bind at 1, load. fold (anomaly_features (heap w txs)).
  unfold bind at 1, lift.
  destruct (StandardScaler_fit_transform _) as [X|e]; [|reflexivity].
  unfold bind, IsolationForest_fit_predict.
  destruct (snd (isolation_forest _ _ X)) as [labels|e]; reflexivity.
Qed.

(** [dbscan_cluster], run: when the estimators return one label per row, the
    labels are written into the frame behind [txs], and the rows whose label
    is not [-1] are returned with their labels. *)
Lemma dbscan_cluster_run (txs : ref) (w : World) :
  dbscan_cluster txs w =
  match StandardScaler_fit_transform (cluster_features (heap w txs)) with
  | Raise e => (w, Raise e)
  | Ok X =>
      match DBSCAN_fit_predict 0.5 3 X with
      | Raise e => (w, Raise e)
      | Ok lbls =>
          if (length lbls =? length (rows (heap w txs)))%nat then
            let mask := map (fun c => negb (c =? -1)) lbls in
            (fst (store txs {| rows := rows (heap w txs); cluster := Some lbls |} w),
             Ok {| rows := compress mask (rows (heap w txs));
                   cluster := Some (compress mask lbls) |})
          else (w, Raise ValueError)
      end
  end.
Proof.
  unfold dbscan_cluster, bind at 1, load. fold (cluster_features (heap w txs)).
  unfold bind at 1, lift.
  destruct (StandardScaler_fit_transform _) as [X|e]; [|reflexivity].
  unfold bind at 1.
  destruct (DBSCAN_fit_predict _ _ X) as [lbls|e]; [|reflexivity].
  unfold bind at 1, setitem_cluster, bind at 1, load, bind at 1, lift.
  unfold df_setitem_cluster.
  destruct (length lbls =? length (rows (heap w txs)))%nat eqn:Hlen;
    [|reflexivity].
  unfold store, bind, getitem_cluster, getitem_mask, bind, load, lift.
  cbn [heap fst snd]. rewrite Nat.eqb_refl. cbn.
  unfold df_getitem_mask. cbn. now rewrite length_map, Hlen.
Qed.

(** C3, as the code has it.  [detect_anomalies] has no degraded mode: on
    every batch (one of constant gas price or a tiny one included) it writes
    nothing, so no diagnostic either; an exception of the scaler or of the
    forest is its own outcome; and when they return one label per row, it
    returns the rows labelled [-1]. *)
Theorem detect_anomalies_has_no_degraded_mode (w : World) (txs : ref) :
  fst (detect_anomalies txs w) = w /\
  (forall e,
     StandardScaler_fit_transform (anomaly_features (heap w txs)) = Raise e ->
     snd (detect_anomalies txs w) = Raise e) /\
  (forall X e,
     StandardScaler_fit_transform (anomaly_features (heap w txs)) = Ok X ->
     snd (isolation_forest 0.01 (RandomState_of_seed 42) X) = Raise e ->
     snd (detect_anomalies txs w) = Raise e) /\
  (forall X labels,
     StandardScaler_fit_transform (anomaly_features (heap w txs)) = Ok X ->
     snd (isolation_forest 0.01 (RandomState_of_seed 42) X) = Ok labels ->
     length labels = length (rows (heap w txs)) ->
     exists out,
       snd (detect_anomalies txs w) = Ok out /\
       combine (rows out) (compress (map (fun l => l =? -1) labels) labels) =
       filter (fun p => snd p =? -1) (combine (rows (heap w txs)) labels)).
Proof.
  rewrite detect_anomalies_run. cbn [fst snd].
  split; [reflexivity|]. split; [|split].
  - intros e ->. reflexivity.
  - intros X e -> ->. reflexivity.
  - intros X labels -> -> Hlen. unfold df_getitem_mask.
    rewrite length_map, Hlen, Nat.eqb_refl. eexists. split; [reflexivity|].
    cbn [rows]. rewrite compress_combine.
    now apply (compress_by_label (fun l => l =? -1)).
Qed.

(** C5. Two runs of [detect_anomalies] on the same batch return the same
    outcome, whatever NumPy's global random state and the page are at each
    run, and a run leaves the world (the global random state included) as it
    found it: the forest is seeded with the constant 42 at every call. *)
Theorem detect_anomalies_deterministic (w1 w2 : World) (txs : ref) :
  heap w1 txs = heap w2 txs ->
  snd (detect_anomalies txs w1) = snd (detect_anomalies txs w2) /\
  fst (detect_anomalies txs w1) = w1 /\
  bind (detect_anomalies txs)
       (fun r1 => bind (detect_anomalies txs) (fun r2 => ret (r1, r2))) w1 =
  (w1, match snd (detect_anomalies txs w1) with
       | Ok r => Ok (r, r)
       | Raise e => Raise e
       end).
Proof.
  intros Hbatch. split; [|split].
  - rewrite !detect_anomalies_run. cbn [snd]. now rewrite Hbatch.
  - now rewrite detect_anomalies_run.
  - unfold bind. rewrite !detect_anomalies_run. cbn [snd].
    destruct (StandardScaler_fit_transform _) as [X|e]; [|reflexivity].
    destruct (snd (isolation_forest _ _ X)) as [labels|e]; [|reflexivity].
    destruct (df_getitem_mask _ _) as [r|e]; reflexivity.
Qed.

(** C8. When [dbscan_cluster] returns, the pairs (row, cluster id) of its
    output are exactly the pairs (row, label) of the batch whose label is not
    [-1], in batch order: every id in the output is a cluster id, and with
    distinct index labels a row labelled [-1] (noise) is not in the output at
    all. *)
Theorem dbscan_cluster_excludes_noise (w w' : World) (txs : ref) (out : DataFrame) :
  dbscan_cluster txs w = (w', Ok out) ->
  exists X lbls ids,
    StandardScaler_fit_transform (cluster_features (heap w txs)) = Ok X /\
    DBSCAN_fit_predict 0.5 3 X = Ok lbls /\
    length lbls = length (rows (heap w txs)) /\
    cluster out = Some ids /\
    length ids = length (rows out) /\
    combine (rows out) ids =
      filter (fun p => negb (snd p =? -1)) (combine (rows (heap w txs)) lbls) /\
    Forall (fun c => c <> -1) ids /\
    (NoDup (map fst (rows (heap w txs))) ->
     forall k r, nth_error (rows (heap w txs)) k = Some r ->
                 nth_error lbls k = Some (-1) ->
                 ~ In r (rows out)).
Proof.
  rewrite dbscan_cluster_run.
  destruct (StandardScaler_fit_transform _) as [X|e] eqn:HX; [|discriminate].
  destruct (DBSCAN_fit_predict _ _ X) as [lbls|e] eqn:Hlbls; [|discriminate].
  destruct (length lbls =? length (rows (heap w txs)))%nat eqn:Hlen;
    [|discriminate].
  apply Nat.eqb_eq in Hlen. cbv zeta. intros H. injection H as _ <-.
  set (mask := map (fun c => negb (c =? -1)) lbls).
  set (rs := rows (heap w txs)) in *.
  assert (Hpairs : combine (compress mask rs) (compress mask lbls) =
                   filter (fun p => negb (snd p =? -1)) (combine rs lbls)).
  { rewrite compress_combine.
    now apply (compress_by_label (fun c => negb (c =? -1))). }
  exists X, lbls, (compress mask lbls). cbn [rows cluster].
  split; [reflexivity|]. split; [exact Hlbls|]. split; [exact Hlen|].
  split; [reflexivity|]. split; [|split; [exact Hpairs|split]].
  - symmetry. now apply compress_length.
  - apply Forall_forall. intros c Hc.
    destruct (in_combine_of_left (compress mask lbls) (compress mask rs) c)
      as (r & Hr); [now apply compress_length|exact Hc|].
    assert (Hin : In (r, c) (combine (compress mask rs) (compress mask lbls))).
    { clear -Hr. revert Hr. generalize (compress mask rs) as l1.
      induction (compress mask lbls) as [|y l2 IH]; intros [|x l1] Hr;
        simpl in *; try easy.
      destruct Hr as [E|Hr]; [left; congruence|right; now apply IH]. }
    rewrite Hpairs in Hin. apply filter_In in Hin. destruct Hin as (_ & Hne).
    cbn in Hne. apply negb_true_iff, Z.eqb_neq in Hne. exact Hne.
  - intros Hnd k r Hr Hk Hin.
    destruct (in_combine_of_left (compress mask rs) (compress mask lbls) r)
      as (c & Hc); [now apply compress_length|exact Hin|].
    rewrite Hpairs in Hc. apply filter_In in Hc. destruct Hc as (Hc & Hne).
    cbn in Hne. apply negb_true_iff, Z.eqb_neq in Hne.
    assert (Hnoise : In (r, -1) (combine rs lbls))
      by now apply (nth_error_combine rs lbls k).
    apply Hne. apply (combine_functional rs lbls r c (-1)); try assumption.
    now apply NoDup_map_inv in Hnd.
Qed.

End Estimators.

(** ** The dashboard *)

Section Dashboard.

Context {pandas : Pandas} {laws : PandasLaws pandas} {sklearn : Sklearn}.














(** C6, as the code has it.  On an empty batch [run_dashboard] returns at
    once and leaves the world as it was: no median, no detector (the result
    does not depend on the estimators, which would be called on the batch
    otherwise), no change of the batch, and nothing written to the page, so
    no message for the state either. *)
Theorem run_dashboard_returns_silently_when_empty (w : World) (txs : ref) :
  df_empty (heap w txs) = true ->
  run_dashboard txs w = (w, Ok tt).
Proof.
  intros He. unfold run_dashboard, bind, load. now rewrite He.
Qed.



End Dashboard.

(** ** The frame of the detectors *)

Section Frame.

Context {pandas : Pandas} {sklearn : Sklearn}.

(** [detect_sandwich], [detect_anomalies] and the high-gas lines leave the
    world as they found it: the batch, the global random state, the page. *)
Lemma readers_leave_the_world (multiplier : Q) (txs : ref) (w : World) :
  fst (detect_sandwich txs w) = w /\
  fst (detect_anomalies txs w) = w /\
  fst (high_gas multiplier txs w) = w.
Proof.
  rewrite detect_sandwich_run, detect_anomalies_run. repeat split.
  unfold high_gas, bind, getitem_gasPrice, getitem_mask, bind, load, ret, lift.
  destruct (df_getitem_mask _ _); reflexivity.
Qed.

(** [dbscan_cluster] writes: when it returns, the frame behind [txs] has the
    labels of the clusterer as its ['cluster'] column; the rows, the other
    objects, the random state and the page are as before. *)
Lemma dbscan_cluster_writes_the_batch (txs : ref) (w w' : World) (out : DataFrame) :
  dbscan_cluster txs w = (w', Ok out) ->
  exists lbls,
    heap w' txs = {| rows := rows (heap w txs); cluster := Some lbls |} /\
    length lbls = length (rows (heap w txs)) /\
    (forall r, r <> txs -> heap w' r = heap w r) /\
    np_random w' = np_random w /\ screen w' = screen w.
Proof.
  rewrite dbscan_cluster_run.
  destruct (StandardScaler_fit_transform _) as [X|e]; [|discriminate].
  destruct (DBSCAN_fit_predict _ _ X) as [lbls|e]; [|discriminate].
  destruct (length lbls =? length (rows (heap w txs)))%nat eqn:Hlen;
    [|discriminate].
  cbv zeta. intros H. injection H as <- _. exists lbls. cbn.
  rewrite Nat.eqb_refl. repeat split.
  - now apply Nat.eqb_eq.
  - intros r Hr. apply Nat.eqb_neq in Hr. now rewrite Hr.
Qed.

End Frame.

(** ** Witnesses and counterexamples *)

Lemma pair_of_snd {A B : Type} (p : A * B) (b : B) : snd p = b -> p = (fst p, b).
Proof. destruct p. simpl. now intros ->. Qed.

(** The batch [A, B, C]: its one finding has the interior position 1 and
    names neither A nor C as victim. *)
Lemma first_and_last_never_flagged_witness :
  detect_sandwich 0%nat (example_world 0 batch_ABC) =
    (example_world 0 batch_ABC, Ok [finding_B]) /\
  In finding_B [finding_B] /\
  (exists i, 1 <= i <= 1 /\ finding_of batch_ABC i finding_B) /\
  victim_hash finding_B <> "A" /\ victim_hash finding_B <> "C".
Proof.
  assert (Hrun : detect_sandwich 0%nat (example_world 0 batch_ABC) =
                 (example_world 0 batch_ABC, Ok [finding_B]))
    by (rewrite detect_sandwich_run; reflexivity).
  assert (Hin : In finding_B [finding_B]) by (left; reflexivity).
  split; [exact Hrun|]. split; [exact Hin|].
  destruct (first_and_last_never_flagged
              (example_world 0 batch_ABC) (example_world 0 batch_ABC)
              0%nat [finding_B] finding_B Hrun Hin) as (Hi & Hh).
  split; [exact Hi|].
  apply (Hh ltac:(repeat constructor; simpl; intuition discriminate)
            tx_A tx_C eq_refl eq_refl).
Defined.




(** With the stable routine the same two rows come out in batch order: the
    order of ties is the routine's. *)
Example high_gas_ties_with_a_stable_routine :
  exists median_gas threshold,
    @high_gas stable_pandas exact_sklearn 1 0%nat
      (example_world 0 [tx_tie1; tx_tie2]) =
    (example_world 0 [tx_tie1; tx_tie2],
     Ok (median_gas, threshold,
         {| rows := [(0, tx_tie1); (1, tx_tie2)]; cluster := None |})).
Proof.
  do 2 eexists.
  rewrite (@high_gas_run stable_pandas exact_sklearn 1 0%nat
             (example_world 0 [tx_tie1; tx_tie2]) (10 # 2)%Q eq_refl).
  reflexivity.
Qed.

(** Four transactions at 1 Gwei and one at 10: the estimators return, the
    row at 10 Gwei is the outlier, and the world is as before. *)
Lemma detect_anomalies_has_no_degraded_mode_witness :
  exists out,
    snd (detect_anomalies 0%nat (example_world 0 batch_outlier)) = Ok out /\
    fst (detect_anomalies 0%nat (example_world 0 batch_outlier)) =
      example_world 0 batch_outlier /\
    rows out = [(4, tx_far)].
Proof.
  destruct (@detect_anomalies_has_no_degraded_mode exact_sklearn
              (example_world 0 batch_outlier) 0%nat)
    as (Hfst & _ & _ & Hok).
  assert (Hlib : exists X labels,
             standardise (anomaly_features
                            (heap (example_world 0 batch_outlier) 0%nat)) = Ok X /\
             snd (one_cut_forest 0.01 42 X) = Ok labels /\
             labels = [1; 1; 1; 1; -1])
    by (do 2 eexists; repeat split; vm_compute; reflexivity).
  destruct Hlib as (X & labels & HX & Hlabels & ->).
  destruct (Hok X _ HX Hlabels eq_refl) as (out & Hout & Hrows).
  exists out. split; [exact Hout|]. split; [exact Hfst|].
  vm_compute in Hout. injection Hout as <-. reflexivity.
Defined.

(** C3, the diagnostic.  On the batch [T1, T2] of constant gas price
    [detect_anomalies] returns without having written anything: the claim
    that a degraded result is accompanied by a diagnostic fails. *)
Lemma detect_anomalies_signals_nothing :
  ~ (forall (sklearn : Sklearn) (w : World) (txs : ref),
       constant_gasPrice (heap w txs) ->
       exists out,
         snd (detect_anomalies txs w) = Ok out /\
         screen (fst (detect_anomalies txs w)) <> screen w).
Proof.
  intros H.
  destruct (H exact_sklearn (example_world 0 [tx_tie1; tx_tie2]) 0%nat)
    as (out & Hout & Hsignal).
  - intros a b Ha Hb.
    change (In a [tx_tie1; tx_tie2]) in Ha. change (In b [tx_tie1; tx_tie2]) in Hb.
    destruct Ha as [<-|[<-|[]]], Hb as [<-|[<-|[]]]; reflexivity.
  - apply Hsignal. now rewrite detect_anomalies_run.
Qed.

(** Two worlds with one batch and the global random states 0 and 7. *)
Lemma detect_anomalies_deterministic_witness :
  heap (example_world 0 batch_outlier) 0%nat =
  heap (example_world 7 batch_outlier) 0%nat /\
  snd (detect_anomalies 0%nat (example_world 0 batch_outlier)) =
  snd (detect_anomalies 0%nat (example_world 7 batch_outlier)).
Proof.
  split; [reflexivity|].
  apply (@detect_anomalies_deterministic exact_sklearn
           (example_world 0 batch_outlier) (example_world 7 batch_outlier)
           0%nat eq_refl).
Defined.

(** Without a seed the forest draws from the global random state: the two
    global states 0 and 1 give different labels on one matrix. *)
Example unseeded_forest_depends_on_the_global_state :
  exists X : @Matrix exact_sklearn,
    snd (IsolationForest_fit_predict 0.01 None X (example_world 0 [])) <>
    snd (IsolationForest_fit_predict 0.01 None X (example_world 1 [])).
Proof.
  exists ([(2, 0); (0, 2)]%Q, (1, 1)%Q). cbn. discriminate.
Qed.

(** C6, the no-data state.  On the empty batch [run_dashboard] adds no
    element to the page: nothing reports the state. *)
Lemma run_dashboard_reports_nothing_when_empty :
  ~ (forall (pandas : Pandas) (sklearn : Sklearn) (w : World) (txs : ref),
       PandasLaws pandas ->
       df_empty (heap w txs) = true ->
       exists e, In e (screen (fst (run_dashboard txs w))) /\ ~ In e (screen w)).
Proof.
  intros H.
  destruct (H stable_pandas exact_sklearn (example_world 0 []) 0%nat
              stable_pandas_laws eq_refl) as (e & He & _).
  exact He.
Qed.

(** The empty batch, on an installation whose estimators always raise. *)
Lemma run_dashboard_returns_silently_when_empty_witness :
  df_empty (heap (@world_of failing_sklearn tt 0%nat []) 0%nat) = true /\
  @run_dashboard stable_pandas failing_sklearn 0%nat
    (@world_of failing_sklearn tt 0%nat []) =
  (@world_of failing_sklearn tt 0%nat [], Ok tt).
Proof.
  split; [reflexivity|].
  apply (@run_dashboard_returns_silently_when_empty stable_pandas failing_sklearn
           (@world_of failing_sklearn tt 0%nat []) 0%nat eq_refl).
Defined.

(** On a batch with rows the same installation makes [run_dashboard] raise,
    at the first estimator it calls, before anything is written. *)
Example run_dashboard_calls_the_estimators_when_not_empty :
  @run_dashboard stable_pandas failing_sklearn 0%nat
    (@world_of failing_sklearn tt 0%nat batch_ABC) =
  (@world_of failing_sklearn tt 0%nat batch_ABC,
   Raise (LibraryError "StandardScaler")).
Proof. reflexivity. Qed.

(** C4, at the batch of three transactions at 1 Gwei and one at 10.  Before
    the call the frame behind [txs] has the six columns of the ingestion;
    when [dbscan_cluster] has returned it has a seventh, ['cluster'], with
    the label of every row, the noise label [-1] of the fourth included: the
    clusterer changes the batch it is given. *)
Theorem dbscan_cluster_adds_a_column_to_the_batch :
  columns (heap (example_world 0 batch_dense) 0%nat) = base_columns /\
  exists w' out,
    dbscan_cluster 0%nat (example_world 0 batch_dense) = (w', Ok out) /\
    columns (heap w' 0%nat) = base_columns ++ ["cluster"] /\
    cluster (heap w' 0%nat) = Some [0; 0; 0; -1] /\
    rows (heap w' 0%nat) = rows (heap (example_world 0 batch_dense) 0%nat) /\
    heap w' 0%nat <> heap (example_world 0 batch_dense) 0%nat.
Proof.
  split; [reflexivity|].
  exists (fst (dbscan_cluster 0%nat (example_world 0 batch_dense))).
  eexists. split; [apply pair_of_snd; vm_compute; reflexivity|].
  split; [vm_compute; reflexivity|]. split; [vm_compute; reflexivity|].
  split; [vm_compute; reflexivity|].
  intros E. apply (f_equal cluster) in E. vm_compute in E. discriminate.
Qed.

(** After [dbscan_cluster] the high-gas frame of the same batch carries the
    ['cluster'] column too: the order of the calls shows in the outputs. *)
Example high_gas_after_dbscan_cluster_has_the_column :
  (exists m t out,
     snd (@high_gas stable_pandas exact_sklearn 3 0%nat
            (example_world 0 batch_dense)) = Ok (m, t, out) /\
     columns out = base_columns) /\
  (exists m t out,
     snd (@high_gas stable_pandas exact_sklearn 3 0%nat
            (fst (dbscan_cluster 0%nat (example_world 0 batch_dense)))) =
       Ok (m, t, out) /\
     columns out = base_columns ++ ["cluster"]).
Proof.
  split; do 3 eexists; split; vm_compute; reflexivity.
Qed.

(** Three transactions at 1 Gwei and one at 10: the three are returned with
    cluster id 0, the fourth (noise) is not returned. *)
Lemma dbscan_cluster_excludes_noise_witness :
  exists w' out,
    dbscan_cluster 0%nat (example_world 0 batch_dense) = (w', Ok out) /\
    cluster out = Some [0; 0; 0] /\
    map snd (rows out) = [tx_low "l1"; tx_low "l2"; tx_low "l3"] /\
    ~ In (3, tx_far) (rows out).
Proof.
  assert (Hrun : exists out,
             dbscan_cluster 0%nat (example_world 0 batch_dense) =
             (fst (dbscan_cluster 0%nat (example_world 0 batch_dense)), Ok out) /\
             cluster out = Some [0; 0; 0] /\
             map snd (rows out) = [tx_low "l1"; tx_low "l2"; tx_low "l3"])
    by (eexists; split; [apply pair_of_snd|split]; vm_compute; reflexivity).
  destruct Hrun as (out & Hrun & Hids & Hrows).
  exists (fst (dbscan_cluster 0%nat (example_world 0 batch_dense))), out.
  split; [exact Hrun|]. split; [exact Hids|]. split; [exact Hrows|].
  destruct (dbscan_cluster_excludes_noise _ _ _ _ Hrun)
    as (X & lbls & ids & HX & Hlbls & _ & _ & _ & _ & _ & Hnoise).
  apply (Hnoise ltac:(repeat constructor; simpl; intuition discriminate) 3%nat).
  - reflexivity.
  - vm_compute in HX. injection HX as <-.
    vm_compute in Hlbls. injection Hlbls as <-. reflexivity.
Defined.


(** ** The complete run of the dashboard *)

Section CompleteRun.

Context {pandas : Pandas} {sklearn : Sklearn}.

Lemma push_all_nil (w : World) : push_all [] w = w.
Proof. destruct w. unfold push_all. cbn. now rewrite app_nil_r. Qed.

Lemma push_all_app (es1 es2 : list Element) (w : World) :
  push_all es2 (push_all es1 w) = push_all (es1 ++ es2) w.
Proof. unfold push_all. cbn. now rewrite app_assoc. Qed.

Lemma bind_st {A : Type} (e : Element) (k : unit -> M A) (w : World) :
  bind (st e) k w = k tt (push_all [e] w).
Proof. reflexivity. Qed.

Lemma for_st_run {A : Type} (g : A -> Element) (xs : list A) (w : World) :
  for_ xs (fun x _ => st (g x)) tt w = (push_all (map g xs) w, Ok tt).
Proof.
  revert w. induction xs as [|x xs IH]; intros w; simpl.
  - unfold ret. now rewrite push_all_nil.
  - rewrite bind_st, IH, push_all_app. reflexivity.
Qed.

Lemma sandwich_section_run {A : Type} (sandwiches : list Finding)
    (k : unit -> M A) (w : World) :
  bind (st (st_subheader "2. Detected Sandwich Attacks"))
    (fun _ =>
       bind match sandwiches with
            | [] => st (st_info "No sandwich attacks found in this dataset.")
            | _ :: _ =>
                bind (st (st_dataframe_findings sandwiches))
                  (fun _ => for_ sandwiches
                              (fun r _ => st (st_markdown_sandwich r)) tt)
            end k) w =
  k tt (push_all (sandwich_section sandwiches) w).
Proof.
  rewrite bind_st. unfold sandwich_section.
  destruct sandwiches as [|f fs].
  - rewrite bind_st, push_all_app. reflexivity.
  - unfold bind at 1. rewrite bind_st, for_st_run, !push_all_app. reflexivity.
Qed.

Lemma anomaly_section_run {A : Type} (txs : ref) (anomalies : DataFrame)
    (k : unit -> M A) (w : World) :
  bind (st (st_subheader "3. Suspicious Transactions"))
    (fun _ =>
       bind (if df_empty anomalies then st (st_info "No anomalies detected.")
             else
               bind (st (st_dataframe anomalies))
                 (fun _ =>
                    bind (getitem_gasPrice txs)
                      (fun gas =>
                         for_ (records anomalies)
                           (fun a _ =>
                              st (st_markdown_anomaly a
                                    match mean gas with
                                    | Some avg =>
                                        if Qeq_bool avg 0 then nan
                                        else Some (gasPrice a / avg)%Q
                                    | None => nan
                                    end)) tt))) k) w =
  k tt (push_all (anomaly_section (map gasPrice (records (heap w txs))) anomalies) w).
Proof.
  rewrite bind_st. unfold anomaly_section.
  destruct (df_empty anomalies).
  - rewrite bind_st, push_all_app. reflexivity.
  - unfold bind at 1. rewrite bind_st.
    unfold bind at 1, getitem_gasPrice, bind at 1, load, ret.
    cbn [heap push_all].
    rewrite (for_st_run
               (fun a => st_markdown_anomaly a
                           (anomaly_ratio
                              (mean (map gasPrice (records (heap w txs)))) a))).
    rewrite !push_all_app. reflexivity.
Qed.

(** [run_dashboard] on a batch with rows, step by step: the outcome of the
    anomaly scorer decides whether anything is written, and the outcome of
    the clusterer, called on the page of the first three sections, ends the
    run. *)
Lemma run_dashboard_run (txs : ref) (w : World) (med : Q) :
  df_empty (heap w txs) = false ->
  median (map gasPrice (records (heap w txs))) = Some med ->
  exists high_gas_df sandwiches,
    high_gas HIGH_GAS_MULTIPLIER txs w =
      (w, Ok (Some med, Some (med * HIGH_GAS_MULTIPLIER)%Q, high_gas_df)) /\
    detect_sandwich txs w = (w, Ok sandwiches) /\
    run_dashboard txs w =
    match snd (detect_anomalies txs w) with
    | Raise e => (w, Raise e)
    | Ok anomalies =>
        let w3 :=
          push_all (page_before_clusters (Some med)
                      (Some (med * HIGH_GAS_MULTIPLIER)%Q)
                      high_gas_df sandwiches anomalies
                      (map gasPrice (records (heap w txs)))) w in
        match dbscan_cluster txs w3 with
        | (wc, Raise e) => (wc, Raise e)
        | (wc, Ok clusters) =>
            (push_all [cluster_element (Some (med * HIGH_GAS_MULTIPLIER)%Q) clusters] wc,
             Ok tt)
        end
    end.
Proof.
  intros Hne Hmed. do 2 eexists.
  split; [apply (high_gas_run _ _ _ med Hmed)|].
  split; [apply detect_sandwich_run|].
  unfold run_dashboard.
  unfold bind at 1, load at 1. rewrite Hne.
  unfold bind at 1. rewrite (high_gas_run _ _ _ med Hmed).
  unfold bind at 1. rewrite detect_sandwich_run.
  unfold bind at 1. rewrite detect_anomalies_run. cbn [snd].
  set (hg := sort_values_gasPrice false _).
  set (sw := flat_map _ _).
  destruct (match StandardScaler_fit_transform _ with Ok _ => _ | Raise e => Raise e end)
    as [an|e]; [|reflexivity].
  do 4 rewrite bind_st. rewrite !push_all_app.
  rewrite sandwich_section_run, push_all_app.
  rewrite anomaly_section_run, push_all_app.
  cbn [heap push_all]. rewrite bind_st, push_all_app.
  unfold page_before_clusters, head_section. cbn [app].
  rewrite <- !app_assoc. cbn [app].
  cbv zeta. unfold bind at 1.
  match goal with |- context [dbscan_cluster txs ?x] =>
    destruct (dbscan_cluster txs x) as (wc, [clusters|e]) end; [|reflexivity].
  unfold cluster_element. destruct (df_empty clusters); reflexivity.
Qed.

End CompleteRun.

Section CompleteRunFacts.

Context {pandas : Pandas} {sklearn : Sklearn}.

(** The clusterer does not look at the page: run on a page with more
    elements it does the same and leaves them there. *)
Lemma dbscan_cluster_on_page (es : list Element) (txs : ref) (w : World) :
  dbscan_cluster txs (push_all es w) =
  (push_all es (fst (dbscan_cluster txs w)), snd (dbscan_cluster txs w)).
Proof.
  rewrite !dbscan_cluster_run. cbn [heap push_all].
  destruct (StandardScaler_fit_transform _) as [X|e]; [|reflexivity].
  destruct (DBSCAN_fit_predict _ _ X) as [lbls|e]; [|reflexivity].
  destruct (length lbls =? length (rows (heap w txs)))%nat; reflexivity.
Qed.

Lemma dbscan_cluster_raise_keeps (txs : ref) (w : World) (e : exn) :
  snd (dbscan_cluster txs w) = Raise e -> fst (dbscan_cluster txs w) = w.
Proof.
  rewrite dbscan_cluster_run.
  destruct (StandardScaler_fit_transform _) as [X|e1]; [|reflexivity].
  destruct (DBSCAN_fit_predict _ _ X) as [lbls|e2]; [|reflexivity].
  destruct (length lbls =? length (rows (heap w txs)))%nat;
    [discriminate|reflexivity].
Qed.

(** X1. When [run_dashboard] returns on a batch with rows, what it has added
    to the page is exactly: the summary with the three counts, section 1 with
    the caption and the high-gas frame, section 2 (the findings and one line
    per finding in order, or the notice when there is none), section 3 (the
    anomalies and one line per anomaly with its ratio to the mean gas price,
    or the notice), the header of section 4 and the chart of the clusters
    (or the notice).  All four outputs are those of the detectors on the
    batch as it was; the batch is left as [dbscan_cluster] leaves it and the
    global random state as it was. *)
Theorem run_dashboard_page (txs : ref) (w w' : World) :
  df_empty (heap w txs) = false ->
  run_dashboard txs w = (w', Ok tt) ->
  exists med high_gas_df sandwiches anomalies clusters,
    high_gas HIGH_GAS_MULTIPLIER txs w =
      (w, Ok (Some med, Some (med * HIGH_GAS_MULTIPLIER)%Q, high_gas_df)) /\
    detect_sandwich txs w = (w, Ok sandwiches) /\
    detect_anomalies txs w = (w, Ok anomalies) /\
    snd (dbscan_cluster txs w) = Ok clusters /\
    screen w' =
      screen w ++
      page_before_clusters (Some med) (Some (med * HIGH_GAS_MULTIPLIER)%Q)
        high_gas_df sandwiches anomalies (map gasPrice (records (heap w txs))) ++
      [cluster_element (Some (med * HIGH_GAS_MULTIPLIER)%Q) clusters] /\
    heap w' = heap (fst (dbscan_cluster txs w)) /\
    np_random w' = np_random w.
Proof.
  intros Hne Hrun.
  destruct (median_of_some _ (nonempty_records _ Hne)) as (med & Hmed).
  destruct (run_dashboard_run txs w med Hne Hmed) as (hg & sw & Hhg & Hsw & Hstep).
  rewrite Hstep in Hrun. clear Hstep.
  assert (Han : detect_anomalies txs w = (w, snd (detect_anomalies txs w)))
    by (rewrite detect_anomalies_run; reflexivity).
  destruct (snd (detect_anomalies txs w)) as [an|e]; [|discriminate].
  cbv zeta in Hrun. rewrite dbscan_cluster_on_page in Hrun.
  destruct (snd (dbscan_cluster txs w)) as [clusters|e] eqn:Hc; [|discriminate].
  injection Hrun as <-.
  exists med, hg, sw, an, clusters.
  split; [exact Hhg|]. split; [exact Hsw|]. split; [exact Han|].
  assert (Hd : dbscan_cluster txs w = (fst (dbscan_cluster txs w), Ok clusters))
    by (rewrite <- Hc; apply surjective_pairing).
  destruct (dbscan_cluster_writes_the_batch _ _ _ _ Hd)
    as (lbls & _ & _ & _ & Hrng & Hscr).
  split; [reflexivity|]. split; [|split].
  - cbn [screen push_all]. rewrite Hscr. symmetry. apply app_assoc.
  - reflexivity.
  - exact Hrng.
Qed.

(** X2. [run_dashboard] on a batch with rows raises only where an estimator
    raises.  If the anomaly scorer raises, the exception ends the run with
    nothing written and nothing changed, although the high-gas frame and the
    findings were computed.  Otherwise the run can only raise in
    [dbscan_cluster], with the first three sections and the header of the
    fourth on the page and the batch unchanged. *)
Theorem run_dashboard_raises_with_the_estimators (txs : ref) (w w' : World) (e : exn) :
  df_empty (heap w txs) = false ->
  run_dashboard txs w = (w', Raise e) ->
  (detect_anomalies txs w = (w, Raise e) /\ w' = w) \/
  (exists med high_gas_df sandwiches anomalies,
     high_gas HIGH_GAS_MULTIPLIER txs w =
       (w, Ok (Some med, Some (med * HIGH_GAS_MULTIPLIER)%Q, high_gas_df)) /\
     detect_sandwich txs w = (w, Ok sandwiches) /\
     detect_anomalies txs w = (w, Ok anomalies) /\
     dbscan_cluster txs w = (w, Raise e) /\
     w' = push_all
            (page_before_clusters (Some med) (Some (med * HIGH_GAS_MULTIPLIER)%Q)
               high_gas_df sandwiches anomalies
               (map gasPrice (records (heap w txs)))) w).
Proof.
  intros Hne Hrun.
  destruct (median_of_some _ (nonempty_records _ Hne)) as (med & Hmed).
  destruct (run_dashboard_run txs w med Hne Hmed) as (hg & sw & Hhg & Hsw & Hstep).
  rewrite Hstep in Hrun. clear Hstep.
  assert (Han : detect_anomalies txs w = (w, snd (detect_anomalies txs w)))
    by (rewrite detect_anomalies_run; reflexivity).
  destruct (snd (detect_anomalies txs w)) as [an|e1].
  - right. cbv zeta in Hrun. rewrite dbscan_cluster_on_page in Hrun.
    destruct (snd (dbscan_cluster txs w)) as [clusters|e2] eqn:Hc; [discriminate|].
    injection Hrun as <- <-.
    pose proof (dbscan_cluster_raise_keeps txs w e2 Hc) as Hkeep.
    exists med, hg, sw, an.
    split; [exact Hhg|]. split; [exact Hsw|]. split; [exact Han|].
    split.
    + rewrite (surjective_pairing (dbscan_cluster txs w)), Hc, Hkeep. reflexivity.
    + now rewrite Hkeep.
  - left. injection Hrun as <- <-. split; [exact Han|reflexivity].
Qed.

End CompleteRunFacts.

(** ** More on the sandwich detector *)

Lemma flagged_not_adjacent (recs : list Tx) (i : Z) :
  1 <= i -> flagged recs i = true -> flagged recs (i + 1) = false.
Proof.
  intros Hi Hf. destruct (flagged recs (i + 1)) eqn:Hf'; [|reflexivity].
  apply flagged_victim in Hf; [|lia]. apply flagged_victim in Hf'; [|lia].
  destruct Hf as (_ & p & c & n & (_ & _ & Hc & Hn) & (_ & _ & _ & Hcn)).
  destruct Hf' as (_ & p' & c' & n' & (_ & Hp' & Hc' & _) & (_ & _ & Hcp' & _)).
  replace (i + 1 - 1) with i in Hp' by lia.
  rewrite Hc in Hp'. injection Hp' as <-.
  rewrite Hn in Hc'. injection Hc' as <-.
  exfalso. apply (Qlt_irrefl (gasPrice c)). now apply (Qlt_trans _ (gasPrice n)).
Qed.

Lemma apart_length (l : list Z) (lo hi : Z) :
  StronglySorted Z.lt l ->
  (forall i, In i l -> lo <= i <= hi) ->
  (forall i, In i l -> ~ In (i + 1) l) ->
  l <> [] ->
  2 * Z.of_nat (length l) <= hi - lo + 2.
Proof.
  intros Hs. revert lo. induction Hs as [|x l Hs IH Hall]; intros lo Hin Hap Hne.
  - easy.
  - destruct l as [|y l'].
    + specialize (Hin x (or_introl eq_refl)). simpl. lia.
    + assert (Hx : lo <= x <= hi) by (apply Hin; now left).
      specialize (IH (x + 2)).
      assert (2 * Z.of_nat (length (y :: l')) <= hi - (x + 2) + 2).
      { apply IH.
        - intros i Hi. split; [|apply Hin; now right].
          rewrite Forall_forall in Hall. pose proof (Hall i Hi).
          assert (i <> x + 1); [|lia].
          intros ->. apply (Hap x); [now left|now right].
        - intros i Hi Hi'. apply (Hap i); now right.
        - discriminate. }
      change (length (x :: y :: l')) with (S (length (y :: l'))). lia.
Qed.

Section SandwichApart.

Context {sklearn : Sklearn}.

(** X3. Two consecutive positions are never both reported by
    [detect_sandwich] (the back transaction of a finding bids more than its
    victim, so it is no victim of the next window), so the findings number at
    most half of [len - 1]; and in every finding the victim's gas price is
    strictly below the front's and the back's. *)
Theorem sandwich_victims_are_apart (w : World) (txs : ref) :
  exists positions findings,
    detect_sandwich txs w = (w, Ok findings) /\
    Forall2 (finding_of (records (heap w txs))) positions findings /\
    (forall i, In i positions -> ~ In (i + 1) positions) /\
    2 * Z.of_nat (length findings) <= Z.max 0 (df_len (heap w txs) - 1) /\
    Forall (fun f => (victim_gas f < front_gas f)%Q /\
                     (victim_gas f < back_gas f)%Q) findings.
Proof.
  set (recs := records (heap w txs)).
  set (xs := range 1 (df_len (heap w txs) - 1)).
  exists (filter (flagged recs) xs), (flat_map (findings_at recs) xs).
  assert (Hxs : Forall (fun i => 1 <= i) xs).
  { apply Forall_forall. intros i Hi. apply in_range in Hi. lia. }
  assert (Hpos : Forall2 (finding_of recs) (filter (flagged recs) xs)
                   (flat_map (findings_at recs) xs))
    by now apply findings_follow_positions.
  assert (Hap : forall i, In i (filter (flagged recs) xs) ->
                          ~ In (i + 1) (filter (flagged recs) xs)).
  { intros i Hi Hi'. apply filter_In in Hi. apply filter_In in Hi'.
    destruct Hi as (Hr & Hf), Hi' as (_ & Hf'). apply in_range in Hr.
    rewrite (flagged_not_adjacent recs i) in Hf'; [discriminate|lia|exact Hf]. }
  split; [apply detect_sandwich_run|]. split; [exact Hpos|].
  split; [exact Hap|]. split.
  - rewrite <- (Forall2_length Hpos).
    assert (Hsorted : StronglySorted Z.lt (filter (flagged recs) xs))
      by apply filter_sorted, range_sorted.
    assert (Hin : forall i, In i (filter (flagged recs) xs) ->
                            1 <= i <= df_len (heap w txs) - 2).
    { intros i Hi. apply filter_In in Hi. destruct Hi as (Hi & _).
      apply in_range in Hi. lia. }
    destruct (filter (flagged recs) xs) as [|x l]; [simpl; lia|].
    assert (2 * Z.of_nat (length (x :: l)) <= (df_len (heap w txs) - 2) - 1 + 2)
      by (apply apart_length; [exact Hsorted|exact Hin|exact Hap|discriminate]).
    lia.
  - apply Forall_forall. intros f Hf. apply in_flat_map in Hf.
    destruct Hf as (i & Hi & Hf). apply in_range in Hi.
    destruct (findings_at_inv recs i f) as (p & c & n & _ & Hc & ->);
      [lia|exact Hf|].
    apply sandwich_condition_spec in Hc.
    destruct Hc as (_ & _ & Hg1 & Hg2). now split.
Qed.

End SandwichApart.

(** ** The median and the size of the high-gas frame *)

From Stdlib Require Import Lqa.

Lemma insert_sorted_perm (x : Q) (l : list Q) :
  Permutation (insert_sorted x l) (x :: l).
Proof.
  induction l as [|y l IH]; simpl; [reflexivity|].
  destruct (Qle_bool x y); [reflexivity|].
  rewrite IH. apply perm_swap.
Qed.

Lemma sort_values_Q_perm (l : list Q) : Permutation (sort_values_Q l) l.
Proof.
  unfold sort_values_Q. induction l as [|x l IH]; simpl; [reflexivity|].
  rewrite insert_sorted_perm. now apply perm_skip.
Qed.

Lemma insert_sorted_sorted (x : Q) (l : list Q) :
  Sorted Qle l -> Sorted Qle (insert_sorted x l).
Proof.
  induction l as [|y l IH]; simpl; intros Hs.
  - repeat constructor.
  - destruct (Qle_bool x y) eqn:E.
    + constructor; [exact Hs|]. constructor. now apply Qle_bool_iff.
    + apply Qle_bool_false in E. inversion Hs as [|? ? Hs' Hhd]; subst.
      constructor; [now apply IH|].
      destruct l as [|z l]; simpl.
      * now constructor.
      * destruct (Qle_bool x z); constructor; [exact E|now inversion Hhd].
Qed.

Lemma sort_values_Q_sorted (l : list Q) : StronglySorted Qle (sort_values_Q l).
Proof.
  apply Sorted_StronglySorted.
  - intros x y z. apply Qle_trans.
  - unfold sort_values_Q. induction l as [|x l IH]; simpl.
    + constructor.
    + now apply insert_sorted_sorted.
Qed.

(** In a sorted list the elements strictly above the one at position [k]
    come after it. *)
Lemma sorted_count_above (s : list Q) (k : nat) :
  StronglySorted Qle s -> (k < length s)%nat ->
  (length (filter (fun x => Qltb (nth k s 0%Q) x) s) + S k <= length s)%nat.
Proof.
  intros Hs. revert k. induction Hs as [|a s Hs IH Hall]; intros k Hk.
  - simpl in Hk. lia.
  - assert (Ha : Qltb (nth k (a :: s) 0%Q) a = false).
    { apply Qltb_ge. destruct k as [|k]; simpl; [apply Qle_refl|].
      rewrite Forall_forall in Hall. apply Hall, nth_In. simpl in Hk. lia. }
    change (filter (fun x => Qltb (nth k (a :: s) 0%Q) x) (a :: s))
      with (if Qltb (nth k (a :: s) 0%Q) a
            then a :: filter (fun x => Qltb (nth k (a :: s) 0%Q) x) s
            else filter (fun x => Qltb (nth k (a :: s) 0%Q) x) s).
    rewrite Ha. destruct k as [|k].
    + pose proof (filter_length_le (fun x => Qltb a x) s).
      simpl length. simpl nth. lia.
    + simpl in Hk. specialize (IH k ltac:(lia)).
      change (nth (S k) (a :: s) 0%Q) with (nth k s 0%Q). simpl length. lia.
Qed.

Lemma sorted_nth_le (s : list Q) (i j : nat) :
  StronglySorted Qle s -> (i <= j < length s)%nat ->
  (nth i s 0 <= nth j s 0)%Q.
Proof.
  intros Hs. revert i j. induction Hs as [|a s Hs IH Hall]; intros i j Hij.
  - simpl in Hij. lia.
  - destruct i as [|i], j as [|j]; simpl; try lia.
    + apply Qle_refl.
    + rewrite Forall_forall in Hall. apply Hall, nth_In. simpl in Hij. lia.
    + apply IH. simpl in Hij. lia.
Qed.

Lemma filter_length_mono {A : Type} (p q : A -> bool) (l : list A) :
  (forall x, In x l -> p x = true -> q x = true) ->
  (length (filter p l) <= length (filter q l))%nat.
Proof.
  induction l as [|x l IH]; intros H; simpl; [lia|].
  assert (IH' : (length (filter p l) <= length (filter q l))%nat)
    by (apply IH; intros y Hy; apply H; now right).
  destruct (p x) eqn:Ep.
  - rewrite (H x (or_introl eq_refl) Ep). simpl. lia.
  - destruct (q x); simpl; lia.
Qed.

Lemma filter_length_perm {A : Type} (p : A -> bool) (l l' : list A) :
  Permutation l l' -> length (filter p l) = length (filter p l').
Proof.
  induction 1; simpl; try lia.
  - destruct (p x); simpl; lia.
  - destruct (p x), (p y); simpl; lia.
Qed.

Lemma match_nonzero {T : Type} (n : nat) (a b : T) :
  n <> 0%nat -> match n with O => a | S _ => b end = b.
Proof. destruct n; congruence. Qed.

(** The values strictly above the median are at most half of the values. *)
Lemma above_median_at_most_half (l : list Q) (med : Q) :
  median l = Some med ->
  (2 * length (filter (fun x => Qltb med x) l) <= length l)%nat.
Proof.
  intros Hmed.
  assert (Hn : length l <> 0%nat)
    by (intros E; unfold median in Hmed; rewrite E in Hmed; discriminate).
  unfold median in Hmed. cbv zeta in Hmed.
  rewrite (match_nonzero _ _ _ Hn) in Hmed.
  pose proof (sort_values_Q_sorted l) as Hs.
  pose proof (sort_values_Q_perm l) as Hp.
  pose proof (Permutation_length Hp) as Hlen.
  rewrite (filter_length_perm _ _ _ (Permutation_sym Hp)).
  clear Hp. revert Hn Hmed Hs Hlen.
  generalize (sort_values_Q l) as s. generalize (length l) as n.
  intros n s Hn Hmed Hs Hlen.
  destruct (Nat.even n) eqn:Ev.
  - apply Nat.even_spec in Ev. destruct Ev as (k & Ek).
    assert (Hk : (k <> 0)%nat) by lia.
    assert (Hdiv : (n / 2)%nat = k)
      by (rewrite Ek, Nat.mul_comm; apply Nat.div_mul; lia).
    rewrite Hdiv in Hmed. injection Hmed as <-.
    pose proof (sorted_count_above s (k - 1) Hs ltac:(lia)) as Hc.
    pose proof (sorted_nth_le s (k - 1) k Hs ltac:(lia)) as Hle.
    assert (Hm : (length (filter (fun x : Q =>
                             Qltb ((nth (k - 1) s 0%Q + nth k s 0%Q) / 2)%Q x) s)
                  <= length (filter (fun x : Q => Qltb (nth (k - 1) s 0%Q) x) s))%nat).
    { apply filter_length_mono. intros x _ Hx.
      apply Qltb_lt in Hx. apply Qltb_lt.
      assert (E : ((nth (k - 1) s 0%Q + nth k s 0%Q) / 2 ==
                   (nth (k - 1) s 0%Q + nth k s 0%Q) * (1 # 2))%Q)
        by (unfold Qdiv; reflexivity).
      rewrite E in Hx. lra. }
    lia.
  - assert (Hodd : Nat.odd n = true) by (unfold Nat.odd; now rewrite Ev).
    apply Nat.odd_spec in Hodd. destruct Hodd as (k & Ek).
    assert (Hdiv : (n / 2)%nat = k).
    { rewrite Ek, Nat.add_comm, Nat.mul_comm, Nat.div_add by lia. reflexivity. }
    rewrite Hdiv in Hmed. injection Hmed as <-.
    pose proof (sorted_count_above s k Hs ltac:(lia)) as Hc. lia.
Qed.

Section HighGasSize.

Context {pandas : Pandas} {laws : PandasLaws pandas} {sklearn : Sklearn}.

(** X4. When the median gas price is positive and the multiplier exceeds 1
    (it is 3), the high-gas frame holds at most half of the batch: its rows
    bid strictly more than the median. *)
Theorem high_gas_is_at_most_half (w : World) (txs : ref) (multiplier med : Q)
    (median_gas threshold : float) (out : DataFrame) :
  median (map gasPrice (records (heap w txs))) = Some med ->
  (0 < med)%Q ->
  (1 < multiplier)%Q ->
  high_gas multiplier txs w = (w, Ok (median_gas, threshold, out)) ->
  2 * df_len out <= df_len (heap w txs).
Proof.
  intros Hmed Hpos Hmul Hrun.
  rewrite (high_gas_run _ _ _ med Hmed) in Hrun. injection Hrun as _ _ <-.
  unfold df_len.
  rewrite (Permutation_length (sort_values_perm false _)). cbn [rows].
  assert (Hle : (length (filter (fun r => Qle_bool (med * multiplier) (gasPrice (snd r)))
                                (rows (heap w txs)))
                 <= length (filter (fun x => Qltb med x)
                                   (map gasPrice (map snd (rows (heap w txs))))))%nat).
  { rewrite map_map.
    induction (rows (heap w txs)) as [|r rs IH]; simpl; [lia|].
    destruct (Qle_bool (med * multiplier) (gasPrice (snd r))) eqn:E.
    - apply Qle_bool_iff in E.
      assert (Hlt : Qltb med (gasPrice (snd r)) = true) by (apply Qltb_lt; nra).
      rewrite Hlt. simpl. lia.
    - destruct (Qltb med (gasPrice (snd r))); simpl; lia. }
  pose proof (above_median_at_most_half _ med Hmed) as Hhalf.
  unfold records in Hhalf. rewrite !length_map in Hhalf.
  lia.
Qed.


End HighGasSize.

(** ** The clusterer called again, and the chart *)

Lemma fold_max_upper (l : list Q) (m0 : Q) :
  (m0 <= fold_left (fun m y => if Qltb m y then y else m) l m0)%Q /\
  forall x, In x l ->
            (x <= fold_left (fun m y => if Qltb m y then y else m) l m0)%Q.
Proof.
  revert m0. induction l as [|y l IH]; intros m0; simpl.
  - split; [apply Qle_refl|easy].
  - destruct (IH (if Qltb m0 y then y else m0)) as (Hm & Hall).
    assert (H0 : (m0 <= (if Qltb m0 y then y else m0))%Q /\
                 (y <= (if Qltb m0 y then y else m0))%Q).
    { destruct (Qltb m0 y) eqn:E.
      - apply Qltb_lt in E. split; [now apply Qlt_le_weak|apply Qle_refl].
      - apply Qltb_ge in E. split; [apply Qle_refl|exact E]. }
    destruct H0 as (H0 & Hy). split.
    + now apply (Qle_trans _ _ _ H0).
    + intros x [<-|Hx]; [now apply (Qle_trans _ _ _ Hy)|now apply Hall].
Qed.

Lemma chart_bound (threshold : Q) (gas : list Q) :
  gas <> [] ->
  exists q, py_max (series_max gas) (Some threshold) = Some q /\
            (threshold <= q)%Q /\ forall x, In x gas -> (x <= q)%Q.
Proof.
  destruct gas as [|x0 l]; [easy|]. intros _. unfold series_max.
  destruct (fold_max_upper l x0) as (H0 & Hall).
  set (m := fold_left _ l x0) in *.
  assert (Hm : forall x, In x (x0 :: l) -> (x <= m)%Q)
    by (intros x [<-|Hx]; [exact H0|now apply Hall]).
  unfold py_max, fgt, Qgtb. destruct (Qltb m threshold) eqn:E.
  - apply Qltb_lt in E. exists threshold.
    split; [reflexivity|]. split; [apply Qle_refl|].
    intros x Hx. apply Qlt_le_weak. now apply (Qle_lt_trans _ m); [apply Hm|].
  - apply Qltb_ge in E. exists m. split; [reflexivity|]. split; assumption.
Qed.

Section ClustersAndChart.

Context {pandas : Pandas} {sklearn : Sklearn}.

(** X6. Calling [dbscan_cluster] a second time on the batch it has written
    returns the same frame and writes the same column again: the features are
    read from the rows, which the first call left as they were. *)
Theorem dbscan_cluster_twice (txs : ref) (w w1 : World) (out : DataFrame) :
  dbscan_cluster txs w = (w1, Ok out) ->
  exists w2,
    dbscan_cluster txs w1 = (w2, Ok out) /\
    (forall r, heap w2 r = heap w1 r) /\
    np_random w2 = np_random w1 /\ screen w2 = screen w1.
Proof.
  rewrite (dbscan_cluster_run txs w).
  destruct (StandardScaler_fit_transform _) as [X|e] eqn:HX; [|discriminate].
  destruct (DBSCAN_fit_predict _ _ X) as [lbls|e] eqn:Hl; [|discriminate].
  destruct (length lbls =? length (rows (heap w txs)))%nat eqn:Hlen;
    [|discriminate].
  cbv zeta. intros H. injection H as <- <-.
  eexists. split; [|split; [|split]].
  - rewrite dbscan_cluster_run. cbn [heap store fst].
    rewrite Nat.eqb_refl. unfold cluster_features, records. cbn [rows].
    fold (records (heap w txs)). fold (cluster_features (heap w txs)).
    rewrite HX, Hl, Hlen. cbv zeta. reflexivity.
  - intros r. cbn. destruct (Nat.eqb r txs); reflexivity.
  - reflexivity.
  - reflexivity.
Qed.

(** X7. Whenever [run_dashboard] draws the chart of the clusters, the upper
    end of its gas axis is a number that is at least the high-gas threshold
    and at least the gas price of every transaction drawn. *)
Theorem chart_axis_covers_the_clusters (txs : ref) (w w' : World) :
  df_empty (heap w txs) = false ->
  run_dashboard txs w = (w', Ok tt) ->
  exists med added,
    median (map gasPrice (records (heap w txs))) = Some med /\
    screen w' = screen w ++ added /\
    forall clusters y_max,
      In (st_vega_lite_chart clusters y_max) added ->
      snd (dbscan_cluster txs w) = Ok clusters /\
      exists q, y_max = Some q /\
                (med * HIGH_GAS_MULTIPLIER <= q)%Q /\
                forall r, In r (records clusters) -> (gasPrice r <= q)%Q.
Proof.
  intros Hne Hrun.
  destruct (median_of_some _ (nonempty_records _ Hne)) as (med & Hmed).
  destruct (run_dashboard_run txs w med Hne Hmed) as (hg & sw & _ & _ & Hstep).
  rewrite Hstep in Hrun. clear Hstep.
  destruct (snd (detect_anomalies txs w)) as [an|e]; [|discriminate].
  cbv zeta in Hrun.
  set (page := page_before_clusters _ _ hg sw an _) in Hrun.
  destruct (dbscan_cluster txs (push_all page w)) as (wc, [clusters|e]) eqn:Hd;
    [|discriminate].
  injection Hrun as <-.
  rewrite dbscan_cluster_on_page in Hd. injection Hd as <- Hc.
  assert (Hpair : dbscan_cluster txs w = (fst (dbscan_cluster txs w), Ok clusters))
    by (rewrite <- Hc; apply surjective_pairing).
  destruct (dbscan_cluster_writes_the_batch _ _ _ _ Hpair)
    as (lbls & _ & _ & _ & _ & Hscr).
  exists med, (page ++ [cluster_element (Some (med * HIGH_GAS_MULTIPLIER)%Q) clusters]).
  split; [exact Hmed|]. split.
  - cbn [screen push_all]. rewrite Hscr. symmetry. apply app_assoc.
  - intros c y Hin. apply in_app_or in Hin. destruct Hin as [Hin|Hin].
    + exfalso. unfold page, page_before_clusters, head_section,
        sandwich_section, anomaly_section in Hin.
      repeat (apply in_app_or in Hin; destruct Hin as [Hin|Hin]).
      * repeat (destruct Hin as [Hin|Hin]; [discriminate|]). exact Hin.
      * destruct Hin as [Hin|Hin]; [discriminate|].
        destruct sw as [|f fs]; [destruct Hin as [Hin|[]]; discriminate|].
        destruct Hin as [Hin|Hin]; [discriminate|].
        apply in_map_iff in Hin. destruct Hin as (? & Hin & _). discriminate.
      * destruct Hin as [Hin|Hin]; [discriminate|].
        destruct (df_empty an); [destruct Hin as [Hin|[]]; discriminate|].
        destruct Hin as [Hin|Hin]; [discriminate|].
        apply in_map_iff in Hin. destruct Hin as (? & Hin & _). discriminate.
      * destruct Hin as [Hin|[]]. discriminate.
    + destruct Hin as [Hin|[]]. unfold cluster_element in Hin.
      destruct (df_empty clusters) eqn:Hce; [discriminate|].
      injection Hin as <- <-. split; [exact Hc|].
      destruct (chart_bound (med * HIGH_GAS_MULTIPLIER)
                  (map gasPrice (records clusters))) as (q & Hq & Ht & Hall).
      { unfold df_empty, records in *. destruct (rows clusters); [discriminate|].
        simpl. discriminate. }
      exists q. split; [exact Hq|]. split; [exact Ht|].
      intros r Hr. apply Hall. now apply in_map.
Qed.

End ClustersAndChart.

(** ** The ingestion *)

Section IngestionFacts.

Context {builtins : Builtins} {outside : Outside}.

Lemma after_show_nil (s : Run) : after_show [] s = s.
Proof. destruct s. unfold after_show. cbn. now rewrite app_nil_r. Qed.

Lemma append_txs_prefix (block : Py.json) (txs : list Py.json) (all_txs : list RawTx) :
  append_txs block txs all_txs =
  (all_txs ++ parsed_prefix block txs, all_parse block txs).
Proof.
  revert all_txs. induction txs as [|tx txs IH]; intros all_txs; simpl.
  - now rewrite app_nil_r.
  - destruct (parse_tx block tx) as [row|e]; simpl.
    + rewrite IH, <- app_assoc. reflexivity.
    + now rewrite app_nil_r.
Qed.

(** The [try] body: what a block adds, and whether an exception ended it. *)
Lemma try_block_adds (block : Py.json) (all_txs : list RawTx) (timestamps : list Z) :
  try_block block all_txs timestamps =
  (all_txs ++ rows_of_block block,
   timestamps ++ match stamp_of block with Some ts => [ts] | None => [] end,
   block_ok block).
Proof.
  unfold try_block, rows_of_block, block_ok, stamp_of, txs_of, pure_bind.
  destruct (Py.getitem block "timestamp") as [t|e];
    [|now rewrite !app_nil_r].
  destruct (int_base16 t) as [ts|e]; [|now rewrite !app_nil_r].
  destruct (Py.getitem block "transactions") as [txs|e];
    [|now rewrite !app_nil_r].
  destruct (Py.iter txs) as [l|e]; [|now rewrite !app_nil_r].
  now rewrite append_txs_prefix.
Qed.

(** One iteration of the loop of [fetch_recent_txs]. *)
Lemma fetch_loop_step (limit_blocks : Z) (start_time : Q) (i blk : Z)
    (items : list (Z * Z)) (all_txs : list RawTx) (timestamps : list Z)
    (last : option Z) (s : Run) :
  fetch_loop limit_blocks start_time ((i, blk) :: items) all_txs timestamps last s =
  if over_budget start_time s 0
  then (after_show [ui_warning_timeout] (after_read s),
        Py.Return (all_txs, timestamps, Some i))
  else
    let r := respond (block_request blk) in
    let s1 := after_show (notices_of limit_blocks i r)
                (after_request (block_request blk) (after_read s)) in
    match reply_of r with
    | Breaks => (s1, Py.Raise Py.AttributeError)
    | Skipped => fetch_loop limit_blocks start_time items all_txs timestamps (Some i) s1
    | Block block =>
        fetch_loop limit_blocks start_time items
          (all_txs ++ rows_of_block block)
          (timestamps ++ match stamp_of block with Some ts => [ts] | None => [] end)
          (Some i) s1
    end.
Proof.
  unfold over_budget. rewrite Nat.add_0_r.
  cbn [fetch_loop]. unfold io_bind at 1, time.
  destruct (Qgtb (time_time (reads s) - start_time) FETCH_TIMEOUT); [reflexivity|].
  cbv zeta. unfold io_bind at 1, safe_get.
  change {| sent := sent s; reads := S (reads s); shown := shown s |}
    with (after_read s).
  unfold notices_of, reply_of.
  destruct (respond (block_request blk)) as [message|data].
  - reflexivity.
  - change {| sent := sent (after_read s) ++ [block_request blk];
              reads := reads (after_read s); shown := shown (after_read s) |}
      with (after_request (block_request blk) (after_read s)).
    set (s1 := after_request _ _).
    unfold io_bind at 1.
    destruct (Py.truthy data) eqn:Ht; cbn [negb].
    + destruct data as [|b|z|x|str|l|fields]; try discriminate;
        try (cbn; now rewrite after_show_nil).
      unfold io_bind at 1, io_lift, Py.get.
      destruct (Py.lookup "result" fields) as [v|] eqn:Hl.
      * unfold io_ret at 1.
        destruct v as [|b|z|x|str|l|fs]; cbn [Py.is_none];
          try (rewrite after_show_nil; reflexivity);
          unfold io_bind at 1, io_lift, Py.getitem; rewrite Hl;
          rewrite try_block_adds;
          (destruct (block_ok _); [|now rewrite after_show_nil]);
          unfold io_bind at 1, show at 1; unfold io_bind at 1, show at 1;
          f_equal; unfold after_show; cbn [sent reads shown];
          now rewrite <- app_assoc.
      * unfold io_ret at 1. cbn [Py.is_none]. now rewrite after_show_nil.
    + unfold io_ret at 1. now rewrite after_show_nil.
Qed.

Lemma fetch_loop_cons (limit_blocks : Z) (start_time : Q) (it : Z * Z)
    (items : list (Z * Z)) (all_txs : list RawTx) (timestamps : list Z)
    (last : option Z) (s : Run) :
  fetch_loop limit_blocks start_time (it :: items) all_txs timestamps last s =
  if over_budget start_time s 0
  then (after_show [ui_warning_timeout] (after_read s),
        Py.Return (all_txs, timestamps, Some (fst it)))
  else
    let r := respond (request_of it) in
    let s1 := after_show (notices_of limit_blocks (fst it) r)
                (after_request (request_of it) (after_read s)) in
    match reply_of r with
    | Breaks => (s1, Py.Raise Py.AttributeError)
    | _ => fetch_loop limit_blocks start_time items
             (all_txs ++ rows_of r) (timestamps ++ stamps_of r)
             (Some (fst it)) s1
    end.
Proof.
  destruct it as (i, blk). rewrite fetch_loop_step.
  unfold request_of, rows_of, stamps_of. cbn [fst snd].
  destruct (over_budget start_time s 0); [reflexivity|]. cbv zeta.
  destruct (reply_of (respond (block_request blk))); try reflexivity.
  now rewrite !app_nil_r.
Qed.

Lemma over_budget_next (start_time : Q) (s s1 : Run) (j : nat) :
  reads s1 = S (reads s) ->
  over_budget start_time s1 j = over_budget start_time s (S j).
Proof.
  intros H. unfold over_budget. rewrite H.
  now replace (S (reads s) + j)%nat with (reads s + S j)%nat by lia.
Qed.

(** The loop of [fetch_recent_txs], run over [items].  It goes through the
    first [k] pairs, whose readings of the clock are within the budget, and
    ends in one of three ways: after the last pair; at pair [k], whose
    reading is past the budget; or at pair [k - 1], whose response is true
    and no dict, with [AttributeError]. *)
Lemma fetch_loop_spec (limit_blocks : Z) (start_time : Q) (items : list (Z * Z)) :
  forall (all_txs : list RawTx) (timestamps : list Z) (last : option Z)
         (s s' : Run) (out : Py.outcome (list RawTx * list Z * option Z)),
  fetch_loop limit_blocks start_time items all_txs timestamps last s = (s', out) ->
  exists k,
    (k <= length items)%nat /\
    (forall j, (j < k)%nat -> over_budget start_time s j = false) /\
    sent s' = sent s ++ map request_of (firstn k items) /\
    match out with
    | Py.Return (all_txs', timestamps', last') =>
        all_txs' = all_txs ++ batch_of (firstn k items) /\
        timestamps' = timestamps ++ times_of (firstn k items) /\
        Forall no_break (firstn k items) /\
        ((k = length items /\ reads s' = (reads s + k)%nat /\
          shown s' = shown s ++ page_of limit_blocks (firstn k items) /\
          last' = last_index items last) \/
         (exists it, nth_error items k = Some it /\
                     over_budget start_time s k = true /\
                     reads s' = (reads s + S k)%nat /\
                     shown s' = shown s ++ page_of limit_blocks (firstn k items)
                                        ++ [ui_warning_timeout] /\
                     last' = Some (fst it)))
    | Py.Raise e =>
        e = Py.AttributeError /\
        reads s' = (reads s + k)%nat /\
        shown s' = shown s ++ page_of limit_blocks (firstn k items) /\
        exists k' it, k = S k' /\ Forall no_break (firstn k' items) /\
                      nth_error items k' = Some it /\
                      reply_of (respond (request_of it)) = Breaks
    end.
Proof.
  induction items as [|it items IH]; intros all_txs timestamps last s s' out Hrun.
  - cbn in Hrun. injection Hrun as <- <-. exists 0%nat. cbn.
    split; [lia|]. split; [intros; lia|]. rewrite !app_nil_r.
    split; [reflexivity|]. split; [reflexivity|]. split; [reflexivity|].
    split; [constructor|]. left. repeat split. lia.
  - rewrite fetch_loop_cons in Hrun.
    destruct (over_budget start_time s 0) eqn:Hover.
    + injection Hrun as <- <-. exists 0%nat. cbn.
      split; [lia|]. split; [intros; lia|]. rewrite !app_nil_r.
      split; [reflexivity|]. split; [reflexivity|]. split; [reflexivity|].
      split; [constructor|]. right. exists it.
      repeat split; [exact Hover|lia].
    + cbv zeta in Hrun.
      set (r := respond (request_of it)) in *.
      set (s1 := after_show _ _) in Hrun.
      assert (Hreads : reads s1 = S (reads s)) by reflexivity.
      assert (Hsent : sent s1 = sent s ++ [request_of it]) by reflexivity.
      assert (Hshown : shown s1 = shown s ++ notices_of limit_blocks (fst it) r)
        by reflexivity.
      assert (Hnext : forall k,
                (forall j, (j < k)%nat -> over_budget start_time s1 j = false) ->
                forall j, (j < S k)%nat -> over_budget start_time s j = false).
      { intros k Hk [|j] Hj; [exact Hover|].
        rewrite <- (over_budget_next _ s s1 j Hreads). apply Hk. lia. }
      destruct (reply_of r) eqn:Hreply.
      1,3: (apply IH in Hrun; destruct Hrun as (k & Hk & Hbud & Hs & Hout);
            exists (S k); cbn [firstn length map];
            split; [lia|]; split; [now apply Hnext|];
            split; [rewrite Hs, Hsent, <- app_assoc; reflexivity|];
            assert (Hnb : no_break it)
              by (unfold no_break; fold r; rewrite Hreply; discriminate);
            destruct out as [((all_txs', timestamps'), last')|e];
            [ destruct Hout as (Ha & Ht & Hf & Hend);
              unfold batch_of, times_of, page_of in *; cbn [flat_map]; fold r;
              split; [rewrite Ha, <- app_assoc; reflexivity|];
              split; [rewrite Ht, <- app_assoc; reflexivity|];
              split; [now constructor|];
              destruct Hend as [(Hk' & Hr & Hp & Hl)|(it' & Hn & Ho & Hr & Hp & Hl)];
              [ left; split; [lia|]; split; [lia|];
                split; [rewrite Hp, Hshown, <- app_assoc; reflexivity|exact Hl]
              | right; exists it'; split; [exact Hn|];
                split; [rewrite <- (over_budget_next _ s s1 k Hreads); exact Ho|];
                split; [lia|];
                split; [rewrite Hp, Hshown, <- !app_assoc; reflexivity|exact Hl] ]
            | destruct Hout as (He & Hr & Hp & k' & it' & Hk' & Hf & Hn & Hb);
              unfold page_of in *; cbn [flat_map]; fold r;
              split; [exact He|]; split; [lia|];
              split; [rewrite Hp, Hshown, <- app_assoc; reflexivity|];
              exists (S k'), it'; split; [lia|];
              split; [cbn [firstn]; now constructor|];
              split; [exact Hn|exact Hb] ]).
      injection Hrun as <- <-. exists 1%nat. cbn [firstn length map].
      split; [lia|]. split; [now apply (Hnext 0%nat); intros; lia|].
      split; [exact Hsent|]. split; [reflexivity|]. split; [lia|].
      split; [unfold page_of; cbn [flat_map]; fold r;
              now rewrite Hshown, app_nil_r|].
      exists 0%nat, it. repeat split; [constructor|exact Hreply].
Qed.

Lemma get_latest_block_run (s : Run) :
  get_latest_block s =
  (after_show (error_of (respond eth_blockNumber)) (after_request eth_blockNumber s),
   latest_of (respond eth_blockNumber)).
Proof.
  unfold get_latest_block, io_bind at 1, safe_get, latest_of, error_of.
  destruct (respond eth_blockNumber) as [message|data].
  - reflexivity.
  - rewrite after_show_nil.
    change {| sent := sent s ++ [eth_blockNumber]; reads := reads s; shown := shown s |}
      with (after_request eth_blockNumber s).
    unfold io_bind at 1.
    destruct (Py.truthy data) eqn:Ht; cbn [negb]; [|reflexivity].
    destruct data as [|b|z|x|str|l|fields]; try discriminate; try reflexivity.
    unfold io_bind at 1, io_lift at 1, Py.get, io_ret at 1.
    destruct (Py.lookup "result" fields) as [v|] eqn:Hl; [|reflexivity].
    destruct (Py.truthy v); [|reflexivity].
    unfold io_bind, io_lift, Py.getitem. rewrite Hl. reflexivity.
Qed.

Lemma fetch_recent_txs_run (limit_blocks : Z) (s : Run) :
  fetch_recent_txs limit_blocks s =
  let L := Z.min limit_blocks MAX_BLOCKS in
  let r0 := respond eth_blockNumber in
  let s0 := after_show (error_of r0) (after_request eth_blockNumber s) in
  match latest_of r0 with
  | Py.Raise e => (s0, Py.Raise e)
  | Py.Return latest_block =>
      match fetch_loop L (time_time (reads s)) (countdown latest_block L) [] [] None
              (after_read (after_show [ui_progress 0; ui_placeholder] s0)) with
      | (s2, Py.Raise e) => (s2, Py.Raise e)
      | (s2, Py.Return (all_txs, timestamps, last)) =>
          fetch_end all_txs timestamps last s2
      end
  end.
Proof.
  unfold fetch_recent_txs. cbv zeta. unfold io_bind at 1.
  rewrite get_latest_block_run.
  destruct (latest_of (respond eth_blockNumber)) as [latest_block|e]; [|reflexivity].
  set (s0 := after_show _ _).
  unfold io_bind at 1, show at 1. unfold io_bind at 1, show at 1.
  unfold io_bind at 1, time at 1. cbn [sent reads shown].
  unfold io_bind at 1.
  match goal with
  | |- match fetch_loop _ _ _ _ _ _ ?a with _ => _ end = _ =>
      replace a with (after_read (after_show [ui_progress 0; ui_placeholder] s0))
        by (unfold after_read, after_show; cbn [sent reads shown];
            now rewrite <- app_assoc)
  end.
  destruct (fetch_loop _ _ _ _ _ _ _) as (s2, [((all_txs, timestamps), last)|e]);
    [|reflexivity].
  unfold fetch_end, time_range_of. cbv zeta.
  unfold io_bind at 1, show at 1. unfold io_bind at 1, show at 1.
  set (s3 := after_show [ui_progress_empty; ui_status_empty] s2).
  match goal with
  | |- io_bind _ _ ?a = _ =>
      replace a with s3
        by (unfold s3, after_show; cbn [sent reads shown];
            now rewrite <- app_assoc)
  end.
  unfold io_bind at 1.
  destruct timestamps as [|ts timestamps'].
  - unfold io_ret at 1.
    destruct last as [i|]; [|now rewrite after_show_nil].
    unfold io_bind, show, io_ret. reflexivity.
  - unfold io_bind at 1, io_lift at 1.
    destruct (utc_text (list_min ts timestamps')) as [min_time|e]; [|reflexivity].
    unfold io_bind at 1, io_lift at 1.
    destruct (utc_text (list_max ts timestamps')) as [max_time|e]; [|reflexivity].
    unfold show at 1.
    destruct last as [i|]; [|reflexivity].
    unfold io_bind, show, io_ret, after_show. cbn [sent reads shown].
    now rewrite <- app_assoc.
Qed.

Lemma countdown_length (latest_block limit_blocks : Z) :
  length (countdown latest_block limit_blocks) = Z.to_nat limit_blocks.
Proof. unfold countdown. now rewrite length_map, length_seq. Qed.

Lemma firstn_seq_le (a n k : nat) : (k <= n)%nat -> firstn k (seq a n) = seq a k.
Proof.
  revert a n. induction k as [|k IH]; intros a [|n] H; cbn; try lia; try reflexivity.
  f_equal. apply IH. lia.
Qed.

Lemma countdown_requests (latest_block limit_blocks : Z) (k : nat) :
  (k <= Z.to_nat limit_blocks)%nat ->
  map request_of (firstn k (countdown latest_block limit_blocks)) =
  map block_request (blocks_down latest_block k).
Proof.
  intros H. unfold countdown, blocks_down.
  rewrite firstn_map, (firstn_seq_le _ _ _ H), !map_map. reflexivity.
Qed.

Lemma countdown_nth (latest_block limit_blocks : Z) (k : nat) (it : Z * Z) :
  nth_error (countdown latest_block limit_blocks) k = Some it ->
  it = (Z.of_nat k, latest_block - Z.of_nat k) /\ (k < Z.to_nat limit_blocks)%nat.
Proof.
  unfold countdown. rewrite nth_error_map, nth_error_seq.
  destruct (Nat.ltb_spec k (Z.to_nat limit_blocks)); cbn; [|discriminate].
  intros [= <-]. now split.
Qed.

Lemma last_index_map_seq (f : nat -> Z * Z) (n a : nat) (last : option Z) :
  last_index (map f (seq a n)) last =
  match n with
  | O => last
  | S n' => Some (fst (f (a + n')%nat))
  end.
Proof.
  unfold last_index. revert a last. induction n as [|n IH]; intros a last.
  - reflexivity.
  - cbn [seq map fold_left]. rewrite IH. destruct n as [|n'].
    + now rewrite Nat.add_0_r.
    + now replace (S a + n')%nat with (a + S n')%nat by lia.
Qed.

Lemma countdown_last (latest_block limit_blocks : Z) :
  last_index (countdown latest_block limit_blocks) None =
  if 0 <? limit_blocks then Some (limit_blocks - 1) else None.
Proof.
  unfold countdown. rewrite last_index_map_seq.
  destruct (Z.ltb_spec 0 limit_blocks) as [H|H].
  - destruct (Z.to_nat limit_blocks) as [|n'] eqn:E; [lia|].
    cbn [fst]. f_equal. lia.
  - now replace (Z.to_nat limit_blocks) with 0%nat by lia.
Qed.

Lemma block_request_inj (a b : Z) : block_request a = block_request b -> a = b.
Proof.
  unfold block_request. intros [= H].
  rewrite <- (HexString.to_Z_of_Z a), <- (HexString.to_Z_of_Z b). now rewrite H.
Qed.

Lemma blocks_down_requests_NoDup (latest_block : Z) (k : nat) :
  NoDup (map block_request (blocks_down latest_block k)).
Proof.
  unfold blocks_down. rewrite map_map.
  apply NoDup_map_NoDup_ForallPairs; [|apply seq_NoDup].
  intros x y _ _ H. apply block_request_inj in H. lia.
Qed.

(** A call of [fetch_recent_txs]: the requests, the readings of the clock,
    the elements and the outcome, in terms of the number [k] of blocks
    requested and of whether the loop was left at the time budget. *)
Lemma fetch_recent_txs_spec (limit_blocks : Z) (s s' : Run)
    (out : Py.outcome (list RawTx)) :
  fetch_recent_txs limit_blocks s = (s', out) ->
  let L := Z.min limit_blocks MAX_BLOCKS in
  let r0 := respond eth_blockNumber in
  let start_time := time_time (reads s) in
  match latest_of r0 with
  | Py.Raise e =>
      out = Py.Raise e /\
      s' = after_show (error_of r0) (after_request eth_blockNumber s)
  | Py.Return latest_block =>
      let items := countdown latest_block L in
      exists (k : nat) (timed_out : bool) (tail : list Notice),
        (k <= Z.to_nat L)%nat /\
        (forall j, (j < k)%nat -> over_budget start_time (after_read s) j = false) /\
        (if timed_out
         then (k < Z.to_nat L)%nat /\ over_budget start_time (after_read s) k = true
         else True) /\
        sent s' = sent s ++ eth_blockNumber
                    :: map block_request (blocks_down latest_block k) /\
        reads s' = (S (reads s) + k + (if timed_out then 1 else 0))%nat /\
        shown s' = shown s ++ error_of r0 ++ [ui_progress 0; ui_placeholder]
                     ++ page_of L (firstn k items)
                     ++ (if timed_out then [ui_warning_timeout] else []) ++ tail /\
        match out with
        | Py.Return rows =>
            rows = batch_of (firstn k items) /\
            Forall no_break (firstn k items) /\
            (timed_out = false -> k = Z.to_nat L /\ (0 < k)%nat) /\
            exists range,
              time_range_of (times_of (firstn k items)) = Py.Return range /\
              tail = [ui_progress_empty; ui_status_empty] ++ range ++
                     [ui_success (Z.of_nat k + (if timed_out then 1 else 0))
                                 (Z.of_nat (length rows))]
        | Py.Raise e =>
            (e = Py.AttributeError /\ timed_out = false /\ tail = [] /\
             exists k' it, k = S k' /\ nth_error items k' = Some it /\
                           reply_of (respond (request_of it)) = Breaks) \/
            (tail = [ui_progress_empty; ui_status_empty] /\
             Forall no_break (firstn k items) /\
             (timed_out = false -> k = Z.to_nat L) /\
             time_range_of (times_of (firstn k items)) = Py.Raise e) \/
            (e = Py.UnboundLocalError /\
             tail = [ui_progress_empty; ui_status_empty] /\
             timed_out = false /\ k = 0%nat /\ Z.to_nat L = 0%nat)
        end
  end.
Proof.
  intros Hrun. rewrite fetch_recent_txs_run in Hrun. cbv zeta in *.
  destruct (latest_of (respond eth_blockNumber)) as [latest_block|e].
  2: { injection Hrun as <- <-. now split. }
  set (L := Z.min limit_blocks MAX_BLOCKS) in *.
  set (r0 := respond eth_blockNumber) in *.
  set (s1 := after_read _) in Hrun.
  destruct (fetch_loop _ _ _ _ _ _ s1) as (s2, out2) eqn:Hloop.
  apply fetch_loop_spec in Hloop.
  destruct Hloop as (k & Hk & Hbud & Hsent & Hout).
  rewrite countdown_length in Hk.
  assert (Hsent' : sent s2 = sent s ++ eth_blockNumber
                     :: map block_request (blocks_down latest_block k)).
  { rewrite Hsent, (countdown_requests _ _ _ Hk). unfold s1. cbn [sent after_read
      after_show after_request]. now rewrite <- app_assoc. }
  assert (Hshown1 : shown s1 = shown s ++ error_of r0 ++ [ui_progress 0; ui_placeholder]).
  { unfold s1. cbn [shown after_read after_show after_request].
    now rewrite <- app_assoc. }
  assert (Hreads1 : reads s1 = S (reads s)) by reflexivity.
  destruct out2 as [((all_txs, timestamps), last)|e].
  - destruct Hout as (Ha & Ht & Hnb & Hend). cbn [app] in Ha, Ht.
    unfold fetch_end in Hrun. cbv zeta in Hrun. rewrite Ht in Hrun.
    destruct Hend as [(Hlen & Hr & Hp & Hl)|(it & Hn & Ho & Hr & Hp & Hl)].
    + rewrite countdown_length in Hlen. rewrite countdown_last in Hl.
      destruct (time_range_of _) as [range|e] eqn:Hrange.
      * destruct (Z.ltb_spec 0 L) as [HL|HL]; subst last.
        -- injection Hrun as <- <-.
           exists k, false, ([ui_progress_empty; ui_status_empty] ++ range ++
                             [ui_success (Z.of_nat k + 0) (Z.of_nat (length all_txs))]).
           split; [exact Hk|]. split; [exact Hbud|]. split; [exact I|].
           split; [exact Hsent'|]. split; [cbn [reads after_show]; lia|].
           split.
           { cbn [shown after_show]. rewrite Hp, Hshown1.
             replace (L - 1 + 1) with (Z.of_nat k + 0) by lia.
             rewrite <- !app_assoc. reflexivity. }
           split; [exact Ha|]. split; [exact Hnb|].
           split; [intros _; split; [exact Hlen|lia]|].
           exists range. split; [exact Hrange|]. now rewrite Ha.
        -- injection Hrun as <- <-.
           assert (k = 0)%nat by lia. clear Hlen. subst k.
           cbn [firstn times_of flat_map time_range_of] in Hrange.
           injection Hrange as <-.
           exists 0%nat, false, [ui_progress_empty; ui_status_empty].
           split; [lia|]. split; [exact Hbud|]. split; [exact I|].
           split; [exact Hsent'|]. split; [cbn [reads after_show]; lia|].
           split.
           { cbn [shown after_show]. rewrite Hp, Hshown1.
             rewrite <- !app_assoc. reflexivity. }
           right. right. repeat split. lia.
      * injection Hrun as <- <-.
        exists k, false, [ui_progress_empty; ui_status_empty].
        split; [exact Hk|]. split; [exact Hbud|]. split; [exact I|].
        split; [exact Hsent'|]. split; [cbn [reads after_show]; lia|].
        split.
        { cbn [shown after_show]. rewrite Hp, Hshown1.
          rewrite <- !app_assoc. reflexivity. }
        right. left. now repeat split.
    + apply countdown_nth in Hn. destruct Hn as (-> & Hlt). cbn [fst] in Hl.
      subst last.
      destruct (time_range_of _) as [range|e] eqn:Hrange.
      * injection Hrun as <- <-.
        exists k, true, ([ui_progress_empty; ui_status_empty] ++ range ++
                         [ui_success (Z.of_nat k + 1) (Z.of_nat (length all_txs))]).
        split; [exact Hk|]. split; [exact Hbud|]. split; [now split|].
        split; [exact Hsent'|]. split; [cbn [reads after_show]; lia|].
        split.
        { cbn [shown after_show]. rewrite Hp, Hshown1.
          rewrite <- !app_assoc. reflexivity. }
        split; [exact Ha|]. split; [exact Hnb|].
        split; [discriminate|].
        exists range. split; [exact Hrange|]. now rewrite Ha.
      * injection Hrun as <- <-.
        exists k, true, [ui_progress_empty; ui_status_empty].
        split; [exact Hk|]. split; [exact Hbud|]. split; [now split|].
        split; [exact Hsent'|]. split; [cbn [reads after_show]; lia|].
        split.
        { cbn [shown after_show]. rewrite Hp, Hshown1.
          rewrite <- !app_assoc. reflexivity. }
        right. left. repeat split; [exact Hnb|discriminate|exact Hrange].
  - injection Hrun as <- <-.
    destruct Hout as (-> & Hr & Hp & k' & it & -> & Hnb & Hn & Hb).
    exists (S k'), false, [].
    split; [exact Hk|]. split; [exact Hbud|]. split; [exact I|].
    split; [exact Hsent'|]. split; [lia|].
    split.
    { rewrite Hp, Hshown1. rewrite <- !app_assoc. cbn [app].
      now rewrite app_nil_r. }
    left. repeat split. now exists k', it.
Qed.

Lemma over_blocks {A : Type} (g : Request -> list A) (latest_block limit_blocks : Z)
    (k : nat) :
  (k <= Z.to_nat limit_blocks)%nat ->
  flat_map (fun it => g (request_of it)) (firstn k (countdown latest_block limit_blocks)) =
  flat_map (fun blk => g (block_request blk)) (blocks_down latest_block k).
Proof.
  intros H. unfold countdown, blocks_down.
  rewrite firstn_map, (firstn_seq_le _ _ _ H), !flat_map_concat_map, !map_map.
  reflexivity.
Qed.

Lemma countdown_firstn_in (latest_block limit_blocks : Z) (k : nat) (it : Z * Z) :
  (k <= Z.to_nat limit_blocks)%nat ->
  In it (firstn k (countdown latest_block limit_blocks)) ->
  0 <= fst it < Z.of_nat k.
Proof.
  intros H. unfold countdown. rewrite firstn_map, (firstn_seq_le _ _ _ H).
  intros Hin. apply in_map_iff in Hin. destruct Hin as (j & <- & Hj).
  apply in_seq in Hj. cbn [fst]. lia.
Qed.

Lemma parsed_prefix_in (block : Py.json) (txs : list Py.json) (row : RawTx) :
  In row (parsed_prefix block txs) ->
  exists tx, In tx txs /\ parse_tx block tx = Py.Return row.
Proof.
  induction txs as [|tx txs IH]; cbn [parsed_prefix]; [easy|].
  destruct (parse_tx block tx) as [row'|e] eqn:E; [|easy].
  intros [<-|Hin].
  - exists tx. split; [now left|exact E].
  - destruct (IH Hin) as (tx' & Hin' & Hp). exists tx'. split; [now right|exact Hp].
Qed.

Lemma parsed_prefix_stops (block : Py.json) (good : list Py.json) (rows : list RawTx)
    (bad : Py.json) (rest : list Py.json) (e : Py.error) :
  Forall2 (fun tx row => parse_tx block tx = Py.Return row) good rows ->
  parse_tx block bad = Py.Raise e ->
  parsed_prefix block (good ++ bad :: rest) = rows /\
  all_parse block (good ++ bad :: rest) = false.
Proof.
  intros Hgood Hbad. induction Hgood as [|tx row good rows Htx _ IH].
  - cbn. unfold all_parse. cbn. now rewrite Hbad.
  - destruct IH as (IH1 & IH2). unfold all_parse in *. cbn. rewrite Htx.
    split; [now rewrite IH1|exact IH2].
Qed.

Lemma fold_min_spec (l : list Z) (x : Z) :
  In (list_min x l) (x :: l) /\ forall t, In t (x :: l) -> list_min x l <= t.
Proof.
  unfold list_min. revert x. induction l as [|y l IH]; intros x.
  - cbn. split; [now left|]. intros t [<-|[]]. lia.
  - cbn [fold_left]. destruct (IH (Z.min x y)) as (Hin & Hle). split.
    + destruct Hin as [Hin|Hin]; [|now right; right].
      rewrite <- Hin. destruct (Z.min_spec x y) as [(_ & ->)|(_ & ->)];
        [now left|now right; left].
    + intros t [<-|[<-|Ht]].
      * specialize (Hle (Z.min x y) (or_introl eq_refl)). lia.
      * specialize (Hle (Z.min x y) (or_introl eq_refl)). lia.
      * apply Hle. now right.
Qed.

Lemma fold_max_spec (l : list Z) (x : Z) :
  In (list_max x l) (x :: l) /\ forall t, In t (x :: l) -> t <= list_max x l.
Proof.
  unfold list_max. revert x. induction l as [|y l IH]; intros x.
  - cbn. split; [now left|]. intros t [<-|[]]. lia.
  - cbn [fold_left]. destruct (IH (Z.max x y)) as (Hin & Hle). split.
    + destruct Hin as [Hin|Hin]; [|now right; right].
      rewrite <- Hin. destruct (Z.max_spec x y) as [(_ & ->)|(_ & ->)];
        [now right; left|now left].
    + intros t [<-|[<-|Ht]].
      * specialize (Hle (Z.max x y) (or_introl eq_refl)). lia.
      * specialize (Hle (Z.max x y) (or_introl eq_refl)). lia.
      * apply Hle. now right.
Qed.

Lemma page_of_the_loop (limit_blocks : Z) (done : list (Z * Z)) :
  Forall of_the_loop (page_of limit_blocks done).
Proof.
  unfold page_of. apply Forall_flat_map, Forall_forall. intros it _.
  unfold notices_of. destruct (respond (request_of it)) as [message|data].
  - repeat constructor.
  - destruct (reply_of (Body data)) as [| |blk]; try constructor.
    destruct (block_ok blk); repeat constructor.
Qed.

Lemma progress_in_range (i limit_blocks : Z) :
  0 <= i < limit_blocks ->
  (0 <= inject_Z (i + 1) / inject_Z limit_blocks <= 1)%Q.
Proof.
  intros H.
  assert (HL : (0 < inject_Z limit_blocks)%Q)
    by (change (inject_Z 0 < inject_Z limit_blocks)%Q; rewrite <- Zlt_Qlt; lia).
  split.
  - apply Qle_shift_div_l; [exact HL|]. rewrite Qmult_0_l.
    change (inject_Z 0 <= inject_Z (i + 1))%Q. rewrite <- Zle_Qle. lia.
  - apply Qle_shift_div_r; [exact HL|]. rewrite Qmult_1_l.
    rewrite <- Zle_Qle. lia.
Qed.

Lemma page_within_bounds (latest_block limit_blocks : Z) (k : nat) :
  (k <= Z.to_nat limit_blocks)%nat ->
  Forall (within_bounds limit_blocks)
         (page_of limit_blocks (firstn k (countdown latest_block limit_blocks))).
Proof.
  intros Hk. unfold page_of. apply Forall_flat_map, Forall_forall. intros it Hin.
  apply (countdown_firstn_in _ _ _ _ Hk) in Hin.
  unfold notices_of. destruct (respond (request_of it)) as [message|data].
  - repeat constructor.
  - destruct (reply_of (Body data)) as [| |blk]; try constructor.
    destruct (block_ok blk); [|constructor].
    constructor; [|constructor; [|constructor]]; cbn.
    + apply progress_in_range. lia.
    + lia.
Qed.

Lemma time_range_shape (timestamps : list Z) (range : list Notice) :
  time_range_of timestamps = Py.Return range ->
  (timestamps = [] /\ range = []) \/
  (exists lo hi a b,
     In lo timestamps /\ In hi timestamps /\
     (forall t, In t timestamps -> lo <= t <= hi) /\
     utc_text lo = Py.Return a /\ utc_text hi = Py.Return b /\
     range = [ui_time_range a b]).
Proof.
  destruct timestamps as [|ts l]; cbn [time_range_of].
  - intros [= <-]. now left.
  - destruct (utc_text (list_min ts l)) as [a|e] eqn:Ha; [|discriminate].
    destruct (utc_text (list_max ts l)) as [b|e] eqn:Hb; [|discriminate].
    intros [= <-]. right.
    destruct (fold_min_spec l ts) as (Hin1 & Hle1).
    destruct (fold_max_spec l ts) as (Hin2 & Hle2).
    exists (list_min ts l), (list_max ts l), a, b.
    split; [exact Hin1|]. split; [exact Hin2|].
    split; [intros t Ht; split; [now apply Hle1|now apply Hle2]|].
    now repeat split.
Qed.

(** X8. The requests of a call of [fetch_recent_txs]: the one of the latest
    block, then those of the blocks [latest_block], [latest_block - 1], ...
    in this order and nothing else.  However large [limit_blocks] is, at most
    100 blocks are requested, and no more than [limit_blocks]; no block is
    requested twice. *)
Theorem fetch_recent_txs_requests (limit_blocks latest_block : Z) (s s' : Run)
    (out : Py.outcome (list RawTx)) :
  latest_of (respond eth_blockNumber) = Py.Return latest_block ->
  fetch_recent_txs limit_blocks s = (s', out) ->
  exists k : nat,
    sent s' = sent s ++ eth_blockNumber
                :: map block_request (blocks_down latest_block k) /\
    (k <= 100)%nat /\
    Z.of_nat k <= Z.max 0 limit_blocks /\
    NoDup (map block_request (blocks_down latest_block k)).
Proof.
  intros Hl Hrun. apply fetch_recent_txs_spec in Hrun. cbv zeta in Hrun.
  rewrite Hl in Hrun.
  destruct Hrun as (k & timed_out & tail & Hk & _ & _ & Hsent & _).
  exists k. split; [exact Hsent|]. unfold MAX_BLOCKS in Hk.
  split; [lia|]. split; [lia|]. apply blocks_down_requests_NoDup.
Qed.

(** X9. The batch [fetch_recent_txs] returns is, block by block in the
    order of the requests, the rows of the leading transactions of the block
    that decode; a failed request, an empty body and a null result add
    nothing.  So every row is the decoding of a transaction of the result of
    a block that was requested, and the count of the closing line is the
    number of rows. *)
Theorem fetch_recent_txs_batch (limit_blocks latest_block : Z) (s s' : Run)
    (rows : list RawTx) :
  latest_of (respond eth_blockNumber) = Py.Return latest_block ->
  fetch_recent_txs limit_blocks s = (s', Py.Return rows) ->
  exists k : nat,
    sent s' = sent s ++ eth_blockNumber
                :: map block_request (blocks_down latest_block k) /\
    rows = flat_map (fun blk => rows_of (respond (block_request blk)))
                    (blocks_down latest_block k) /\
    (forall row, In row rows ->
       exists blk block txs tx,
         In blk (blocks_down latest_block k) /\
         reply_of (respond (block_request blk)) = Block block /\
         txs_of block = Some txs /\ In tx txs /\
         parse_tx block tx = Py.Return row) /\
    exists blocks, last (shown s') ui_placeholder =
                   ui_success blocks (Z.of_nat (length rows)).
Proof.
  intros Hl Hrun. apply fetch_recent_txs_spec in Hrun. cbv zeta in Hrun.
  rewrite Hl in Hrun.
  destruct Hrun as (k & timed_out & tail & Hk & _ & _ & Hsent & _ & Hshown &
                    Hrows & _ & _ & range & _ & Htail).
  unfold batch_of in Hrows.
  rewrite (over_blocks (fun r => rows_of (respond r)) _ _ _ Hk) in Hrows.
  exists k. split; [exact Hsent|]. split; [exact Hrows|]. split.
  - intros row Hin. rewrite Hrows in Hin. apply in_flat_map in Hin.
    destruct Hin as (blk & Hblk & Hin). unfold rows_of in Hin.
    destruct (reply_of (respond (block_request blk))) as [| |block] eqn:Hr;
      try easy.
    unfold rows_of_block in Hin.
    destruct (stamp_of block); [|easy].
    destruct (txs_of block) as [txs|] eqn:Ht; [|easy].
    destruct (parsed_prefix_in _ _ _ Hin) as (tx & Htx & Hp).
    now exists blk, block, txs, tx.
  - eexists. rewrite Hshown, Htail, !app_assoc. apply last_last.
Qed.

(** X10. The [try] body has no rollback.  When a transaction of a block
    does not decode, the rows of the transactions before it stay in the batch
    and so does the timestamp of the block; the transactions after it are
    not looked at, and the body ends with the exception (the progress line of
    the block is skipped). *)
Theorem try_block_keeps_the_rows_before_the_failure (block : Py.json) (ts : Z)
    (good : list Py.json) (bad : Py.json) (rest : list Py.json)
    (rows : list RawTx) (e : Py.error) (all_txs : list RawTx) (timestamps : list Z) :
  stamp_of block = Some ts ->
  txs_of block = Some (good ++ bad :: rest) ->
  Forall2 (fun tx row => parse_tx block tx = Py.Return row) good rows ->
  parse_tx block bad = Py.Raise e ->
  try_block block all_txs timestamps = (all_txs ++ rows, timestamps ++ [ts], false).
Proof.
  intros Hs Ht Hgood Hbad. rewrite try_block_adds.
  unfold rows_of_block, block_ok. rewrite Hs, Ht.
  destruct (parsed_prefix_stops block good rows bad rest e Hgood Hbad) as (-> & ->).
  reflexivity.
Qed.

(** X11. The closing line of [fetch_recent_txs] reports as fetched the
    number of iterations begun, not of blocks received: it is the number of
    block requests sent, whatever their responses were, and one more than
    that when the loop was left at the time budget; it is at least 1 and at
    most the limit. *)
Theorem fetch_recent_txs_reports_the_iterations_begun (limit_blocks latest_block : Z)
    (s s' : Run) (rows : list RawTx) :
  latest_of (respond eth_blockNumber) = Py.Return latest_block ->
  fetch_recent_txs limit_blocks s = (s', Py.Return rows) ->
  exists (k : nat) (page : list Notice) (blocks : Z),
    sent s' = sent s ++ eth_blockNumber
                :: map block_request (blocks_down latest_block k) /\
    shown s' = shown s ++ page ++ [ui_success blocks (Z.of_nat (length rows))] /\
    ((blocks = Z.of_nat k /\ ~ In ui_warning_timeout page) \/
     (blocks = Z.of_nat k + 1 /\ In ui_warning_timeout page)) /\
    1 <= blocks <= Z.min limit_blocks MAX_BLOCKS.
Proof.
  intros Hl Hrun. apply fetch_recent_txs_spec in Hrun. cbv zeta in Hrun.
  rewrite Hl in Hrun.
  destruct Hrun as (k & timed_out & tail & Hk & _ & Hto & Hsent & _ & Hshown &
                    _ & _ & Hfull & range & Hrange & Htail).
  set (L := Z.min limit_blocks MAX_BLOCKS) in *.
  set (items := countdown latest_block L) in *.
  exists k,
    (error_of (respond eth_blockNumber) ++ [ui_progress 0; ui_placeholder] ++
     page_of L (firstn k items) ++
     (if timed_out then [ui_warning_timeout] else []) ++
     [ui_progress_empty; ui_status_empty] ++ range),
    (Z.of_nat k + (if timed_out then 1 else 0)).
  split; [exact Hsent|]. split.
  { rewrite Hshown, Htail. rewrite <- !app_assoc. reflexivity. }
  split.
  - destruct timed_out.
    + right. split; [reflexivity|].
      apply in_or_app. right. apply in_or_app. right.
      apply in_or_app. right. now left.
    + left. split; [lia|]. intros Hin.
      apply in_app_or in Hin. destruct Hin as [Hin|Hin].
      { unfold error_of in Hin. destruct (respond eth_blockNumber);
          [destruct Hin as [Hin|[]]; discriminate|exact Hin]. }
      apply in_app_or in Hin. destruct Hin as [Hin|Hin].
      { destruct Hin as [Hin|[Hin|[]]]; discriminate. }
      apply in_app_or in Hin. destruct Hin as [Hin|Hin].
      { pose proof (page_of_the_loop L (firstn k items)) as Hp.
        rewrite Forall_forall in Hp. exact (Hp _ Hin). }
      cbn [app] in Hin. destruct Hin as [Hin|[Hin|Hin]]; try discriminate.
      destruct (time_range_shape _ _ Hrange)
        as [(_ & ->)|(lo & hi & a & b & _ & _ & _ & _ & _ & ->)];
        [exact Hin|destruct Hin as [Hin|[]]; discriminate].
  - destruct timed_out.
    + destruct Hto as (Hlt & _). lia.
    + destruct (Hfull eq_refl) as (Hkl & Hpos). lia.
Qed.

(** X12. With a limit of zero or less the loop has no iteration, so [i] is
    never bound: after the request of the latest block and the two
    placeholders, which it clears again, [fetch_recent_txs] raises
    [UnboundLocalError] at its closing line. *)
Theorem fetch_recent_txs_raises_without_an_iteration (limit_blocks latest_block : Z)
    (s s' : Run) (out : Py.outcome (list RawTx)) :
  limit_blocks <= 0 ->
  latest_of (respond eth_blockNumber) = Py.Return latest_block ->
  fetch_recent_txs limit_blocks s = (s', out) ->
  out = Py.Raise Py.UnboundLocalError /\
  sent s' = sent s ++ [eth_blockNumber] /\
  reads s' = S (reads s) /\
  shown s' = shown s ++ error_of (respond eth_blockNumber) ++
             [ui_progress 0; ui_placeholder; ui_progress_empty; ui_status_empty].
Proof.
  intros Hlim Hl Hrun. apply fetch_recent_txs_spec in Hrun. cbv zeta in Hrun.
  rewrite Hl in Hrun.
  destruct Hrun as (k & timed_out & tail & Hk & _ & Hto & Hsent & Hreads & Hshown & Hout).
  assert (HL : Z.to_nat (Z.min limit_blocks MAX_BLOCKS) = 0%nat) by lia.
  assert (Hk0 : k = 0%nat) by lia. subst k.
  destruct timed_out; [destruct Hto as (Hlt & _); lia|].
  cbn [firstn page_of flat_map blocks_down seq map app] in *.
  assert (Hend : out = Py.Raise Py.UnboundLocalError /\
                 tail = [ui_progress_empty; ui_status_empty]).
  { destruct out as [rows|e].
    - destruct Hout as (_ & _ & Hfull & _). destruct (Hfull eq_refl). lia.
    - destruct Hout as [(_ & _ & _ & k' & it & Hk' & _)
                       |[(_ & _ & _ & Hrange)|(-> & -> & _)]].
      + discriminate.
      + cbn in Hrange. discriminate.
      + now split. }
  destruct Hend as (-> & ->).
  split; [reflexivity|]. split; [exact Hsent|]. split; [lia|].
  rewrite Hshown. reflexivity.
Qed.

(** X13. A failed request of the latest block does not end the call: the
    error is shown, the latest block is taken to be 0, and the blocks
    requested are 0, -1, -2, ...: as many as the limit allows, unless the
    loop is left at the time budget or by an exception. *)
Theorem fetch_recent_txs_after_a_failed_latest_block (limit_blocks : Z)
    (message : string) (s s' : Run) (out : Py.outcome (list RawTx)) :
  respond eth_blockNumber = RequestException message ->
  fetch_recent_txs limit_blocks s = (s', out) ->
  exists (k : nat) (page : list Notice),
    sent s' = sent s ++ eth_blockNumber :: map block_request (blocks_down 0 k) /\
    shown s' = shown s ++ ui_error message :: ui_progress 0 :: ui_placeholder :: page /\
    (k = Z.to_nat (Z.min limit_blocks MAX_BLOCKS) \/
     In ui_warning_timeout page \/
     out = Py.Raise Py.AttributeError).
Proof.
  intros Hfail Hrun. apply fetch_recent_txs_spec in Hrun. cbv zeta in Hrun.
  rewrite Hfail in Hrun. cbn [latest_of error_of] in Hrun.
  destruct Hrun as (k & timed_out & tail & Hk & _ & _ & Hsent & _ & Hshown & Hout).
  exists k. eexists. split; [exact Hsent|]. split; [exact Hshown|].
  destruct timed_out.
  - right. left. apply in_or_app. right. now left.
  - destruct out as [rows|e].
    + destruct Hout as (_ & _ & Hfull & _). left. now destruct (Hfull eq_refl).
    + destruct Hout as [(-> & _)|[(_ & _ & Hfull & _)|(_ & _ & _ & -> & ->)]].
      * right. now right.
      * left. now apply Hfull.
      * now left.
Qed.

(** X14. Every value [fetch_recent_txs] gives to the progress bar lies
    between 0 and 1, and every status line reads [i + 1] of the capped limit
    with [1 <= i + 1 <= limit]. *)
Theorem fetch_recent_txs_progress_is_in_range (limit_blocks : Z) (s s' : Run)
    (out : Py.outcome (list RawTx)) :
  fetch_recent_txs limit_blocks s = (s', out) ->
  exists page,
    shown s' = shown s ++ page /\
    Forall (within_bounds (Z.min limit_blocks MAX_BLOCKS)) page.
Proof.
  intros Hrun. apply fetch_recent_txs_spec in Hrun. cbv zeta in Hrun.
  assert (Herr : Forall (within_bounds (Z.min limit_blocks MAX_BLOCKS))
                        (error_of (respond eth_blockNumber)))
    by (unfold error_of; destruct (respond eth_blockNumber); repeat constructor).
  destruct (latest_of (respond eth_blockNumber)) as [latest_block|e].
  - destruct Hrun as (k & timed_out & tail & Hk & _ & _ & _ & _ & Hshown & Hout).
    eexists. split; [exact Hshown|].
    apply Forall_app. split; [exact Herr|].
    apply Forall_app. split.
    { constructor; [cbn; split; apply Qle_bool_iff; reflexivity|].
      constructor; [exact I|constructor]. }
    apply Forall_app. split; [now apply page_within_bounds|].
    apply Forall_app. split; [destruct timed_out; repeat constructor|].
    destruct out as [rows|e].
    + destruct Hout as (_ & _ & _ & range & Hrange & ->).
      constructor; [exact I|]. constructor; [exact I|].
      apply Forall_app. split; [|repeat constructor].
      destruct (time_range_shape _ _ Hrange)
        as [(_ & ->)|(lo & hi & a & b & _ & _ & _ & _ & _ & ->)];
        repeat constructor.
    + destruct Hout as [(_ & _ & -> & _)|[(-> & _)|(_ & -> & _)]];
        repeat constructor.
  - destruct Hrun as (_ & ->). eexists. split; [reflexivity|exact Herr].
Qed.

(** X15. The time budget of [fetch_recent_txs].  The clock is read once
    before the loop and once at the head of every iteration; a block is
    requested only when the reading of its iteration is within 60 seconds of
    the first, and at the first reading past that the loop is left with the
    warning, the block of that iteration not requested. *)
Theorem fetch_recent_txs_keeps_to_the_budget (limit_blocks latest_block : Z)
    (s s' : Run) (out : Py.outcome (list RawTx)) :
  latest_of (respond eth_blockNumber) = Py.Return latest_block ->
  fetch_recent_txs limit_blocks s = (s', out) ->
  exists (k : nat) (page : list Notice),
    sent s' = sent s ++ eth_blockNumber
                :: map block_request (blocks_down latest_block k) /\
    shown s' = shown s ++ page /\
    (forall j, (j < k)%nat ->
       (time_time (S (reads s) + j) - time_time (reads s) <= FETCH_TIMEOUT)%Q) /\
    ((reads s' = (S (reads s) + k)%nat /\ ~ In ui_warning_timeout page) \/
     (reads s' = (S (reads s) + k + 1)%nat /\ In ui_warning_timeout page /\
      (FETCH_TIMEOUT < time_time (S (reads s) + k) - time_time (reads s))%Q /\
      Z.of_nat k < Z.min limit_blocks MAX_BLOCKS)).
Proof.
  intros Hl Hrun. apply fetch_recent_txs_spec in Hrun. cbv zeta in Hrun.
  rewrite Hl in Hrun.
  destruct Hrun as (k & timed_out & tail & Hk & Hbud & Hto & Hsent & Hreads &
                    Hshown & Hout).
  set (L := Z.min limit_blocks MAX_BLOCKS) in *.
  set (items := countdown latest_block L) in *.
  exists k. eexists. split; [exact Hsent|]. split; [exact Hshown|]. split.
  { intros j Hj. specialize (Hbud j Hj). unfold over_budget, Qgtb in Hbud.
    apply Qltb_ge in Hbud. exact Hbud. }
  destruct timed_out.
  - right. destruct Hto as (Hlt & Hover).
    split; [exact Hreads|]. split.
    { apply in_or_app. right. apply in_or_app. right.
      apply in_or_app. right. now left. }
    split; [|lia].
    unfold over_budget, Qgtb in Hover. apply Qltb_lt in Hover. exact Hover.
  - left. split; [lia|]. intros Hin.
    apply in_app_or in Hin. destruct Hin as [Hin|Hin].
    { unfold error_of in Hin. destruct (respond eth_blockNumber);
        [destruct Hin as [Hin|[]]; discriminate|exact Hin]. }
    apply in_app_or in Hin. destruct Hin as [Hin|Hin].
    { destruct Hin as [Hin|[Hin|[]]]; discriminate. }
    apply in_app_or in Hin. destruct Hin as [Hin|Hin].
    { pose proof (page_of_the_loop L (firstn k items)) as Hp.
      rewrite Forall_forall in Hp. exact (Hp _ Hin). }
    cbn [app] in Hin.
    destruct out as [rows|e].
    + destruct Hout as (_ & _ & _ & range & Hrange & ->).
      cbn [app] in Hin.
      destruct Hin as [Hin|[Hin|Hin]]; try discriminate.
      apply in_app_or in Hin. destruct Hin as [Hin|[Hin|[]]]; [|discriminate].
      destruct (time_range_shape _ _ Hrange)
        as [(_ & ->)|(lo & hi & a & b & _ & _ & _ & _ & _ & ->)];
        [exact Hin|destruct Hin as [Hin|[]]; discriminate].
    + destruct Hout as [(_ & _ & -> & _)|[(-> & _)|(_ & -> & _)]];
        cbn [app] in Hin.
      * exact Hin.
      * destruct Hin as [Hin|[Hin|[]]]; discriminate.
      * destruct Hin as [Hin|[Hin|[]]]; discriminate.
Qed.

(** X16. The line of the time range.  When [fetch_recent_txs] returns, the
    timestamps it has kept are those of the requested blocks whose timestamp
    decodes, whether or not any transaction of the block does.  With none
    there is no line of the time range; otherwise the line shows the texts of
    the least and of the greatest of them. *)
Theorem fetch_recent_txs_time_range (limit_blocks latest_block : Z) (s s' : Run)
    (rows : list RawTx) :
  latest_of (respond eth_blockNumber) = Py.Return latest_block ->
  fetch_recent_txs limit_blocks s = (s', Py.Return rows) ->
  exists (k : nat) (page : list Notice),
    sent s' = sent s ++ eth_blockNumber
                :: map block_request (blocks_down latest_block k) /\
    shown s' = shown s ++ page /\
    let times := flat_map (fun blk => stamps_of (respond (block_request blk)))
                          (blocks_down latest_block k) in
    (times = [] /\ forall a b, ~ In (ui_time_range a b) page) \/
    (exists lo hi a b,
       In lo times /\ In hi times /\
       (forall t, In t times -> lo <= t <= hi) /\
       utc_text lo = Py.Return a /\ utc_text hi = Py.Return b /\
       In (ui_time_range a b) page).
Proof.
  intros Hl Hrun. apply fetch_recent_txs_spec in Hrun. cbv zeta in Hrun.
  rewrite Hl in Hrun.
  destruct Hrun as (k & timed_out & tail & Hk & _ & _ & Hsent & _ & Hshown &
                    _ & _ & _ & range & Hrange & ->).
  set (L := Z.min limit_blocks MAX_BLOCKS) in *.
  set (items := countdown latest_block L) in *.
  unfold times_of, items in Hrange.
  rewrite (over_blocks (fun r => stamps_of (respond r)) _ _ _ Hk) in Hrange.
  exists k. eexists. split; [exact Hsent|]. split; [exact Hshown|]. cbv zeta.
  destruct (time_range_shape _ _ Hrange)
    as [(Hnil & ->)|(lo & hi & a & b & Hlo & Hhi & Hall & Ha & Hb & ->)].
  - left. split; [exact Hnil|]. intros a b Hin.
    apply in_app_or in Hin. destruct Hin as [Hin|Hin].
    { unfold error_of in Hin. destruct (respond eth_blockNumber);
        [destruct Hin as [Hin|[]]; discriminate|exact Hin]. }
    apply in_app_or in Hin. destruct Hin as [Hin|Hin].
    { destruct Hin as [Hin|[Hin|[]]]; discriminate. }
    apply in_app_or in Hin. destruct Hin as [Hin|Hin].
    { pose proof (page_of_the_loop L (firstn k items)) as Hp.
      rewrite Forall_forall in Hp. exact (Hp _ Hin). }
    apply in_app_or in Hin. destruct Hin as [Hin|Hin].
    { destruct timed_out; [destruct Hin as [Hin|[]]; discriminate|exact Hin]. }
    cbn in Hin. destruct Hin as [Hin|[Hin|[Hin|[]]]]; discriminate.
  - right. exists lo, hi, a, b.
    split; [exact Hlo|]. split; [exact Hhi|]. split; [exact Hall|].
    split; [exact Ha|]. split; [exact Hb|].
    apply in_or_app. right. apply in_or_app. right.
    apply in_or_app. right. apply in_or_app. right.
    cbn. right. right. now left.
Qed.

Lemma time_range_raises (timestamps : list Z) (e : Py.error) :
  time_range_of timestamps = Py.Raise e ->
  exists ts, In ts timestamps /\ utc_text ts = Py.Raise e.
Proof.
  destruct timestamps as [|ts l]; cbn [time_range_of]; [discriminate|].
  destruct (fold_min_spec l ts) as (Hin1 & _).
  destruct (fold_max_spec l ts) as (Hin2 & _).
  destruct (utc_text (list_min ts l)) as [a|e1] eqn:Ha.
  - destruct (utc_text (list_max ts l)) as [b|e2] eqn:Hb; [discriminate|].
    intros [= <-]. now exists (list_max ts l).
  - intros [= <-]. now exists (list_min ts l).
Qed.

(** X17. The exceptions of [fetch_recent_txs] for a limit of 1 or more.
    Nothing raised while a block is decoded leaves the call, and the closing
    line finds [i] bound; the call raises only where [get_latest_block]
    raises, or with [AttributeError] at the response of a block requested
    that is true and no dict, or where the formatting of a timestamp kept
    raises. *)
Theorem fetch_recent_txs_exceptions (limit_blocks : Z) (s s' : Run) (e : Py.error) :
  1 <= limit_blocks ->
  fetch_recent_txs limit_blocks s = (s', Py.Raise e) ->
  latest_of (respond eth_blockNumber) = Py.Raise e \/
  (e = Py.AttributeError /\
   exists blk, In (block_request blk) (sent s') /\
               reply_of (respond (block_request blk)) = Breaks) \/
  (exists blk ts, In (block_request blk) (sent s') /\
                  In ts (stamps_of (respond (block_request blk))) /\
                  utc_text ts = Py.Raise e).
Proof.
  intros Hlim Hrun. apply fetch_recent_txs_spec in Hrun. cbv zeta in Hrun.
  destruct (latest_of (respond eth_blockNumber)) as [latest_block|e0].
  2: { destruct Hrun as ([= ->] & _). now left. }
  right.
  destruct Hrun as (k & timed_out & tail & Hk & _ & _ & Hsent & _ & _ & Hout).
  assert (Hreq : forall j, (j < k)%nat ->
            In (block_request (latest_block - Z.of_nat j)) (sent s')).
  { intros j Hj. rewrite Hsent. apply in_or_app. right. right.
    apply in_map. unfold blocks_down.
    apply (in_map (fun j => latest_block - Z.of_nat j)). apply in_seq. lia. }
  destruct Hout as [(-> & _ & _ & k' & it & -> & Hn & Hb)
                   |[(_ & _ & _ & Hrange)|(_ & _ & _ & _ & HL)]].
  - left. split; [reflexivity|].
    apply countdown_nth in Hn. destruct Hn as (-> & _).
    exists (latest_block - Z.of_nat k'). split; [apply Hreq; lia|exact Hb].
  - right. apply time_range_raises in Hrange.
    destruct Hrange as (ts & Hin & Hts).
    unfold times_of in Hin.
    rewrite (over_blocks (fun r => stamps_of (respond r)) _ _ _ Hk) in Hin.
    apply in_flat_map in Hin. destruct Hin as (blk & Hblk & Hin).
    unfold blocks_down in Hblk. apply in_map_iff in Hblk.
    destruct Hblk as (j & <- & Hj). apply in_seq in Hj.
    exists (latest_block - Z.of_nat j), ts.
    split; [apply Hreq; lia|]. split; [exact Hin|exact Hts].
  - unfold MAX_BLOCKS in HL. lia.
Qed.

End IngestionFacts.


(** ** The extra properties at concrete inputs *)

(** The batch of the victim at 5 Gwei: [run_dashboard] returns, and its page
    is the four sections. *)
Lemma run_dashboard_page_witness :
  df_empty (heap (example_world 0 batch_both) 0%nat) = false /\
  exists w',
    @run_dashboard stable_pandas exact_sklearn 0%nat (example_world 0 batch_both) =
      (w', Ok tt) /\
    exists med high_gas_df sandwiches anomalies clusters,
      @high_gas stable_pandas exact_sklearn HIGH_GAS_MULTIPLIER 0%nat
        (example_world 0 batch_both) =
        (example_world 0 batch_both,
         Ok (Some med, Some (med * HIGH_GAS_MULTIPLIER)%Q, high_gas_df)) /\
      detect_sandwich 0%nat (example_world 0 batch_both) =
        (example_world 0 batch_both, Ok sandwiches) /\
      detect_anomalies 0%nat (example_world 0 batch_both) =
        (example_world 0 batch_both, Ok anomalies) /\
      snd (dbscan_cluster 0%nat (example_world 0 batch_both)) = Ok clusters /\
      screen w' =
        screen (example_world 0 batch_both) ++
        page_before_clusters (Some med) (Some (med * HIGH_GAS_MULTIPLIER)%Q)
          high_gas_df sandwiches anomalies
          (map gasPrice (records (heap (example_world 0 batch_both) 0%nat))) ++
        [cluster_element (Some (med * HIGH_GAS_MULTIPLIER)%Q) clusters] /\
      heap w' = heap (fst (dbscan_cluster 0%nat (example_world 0 batch_both))) /\
      np_random w' = np_random (example_world 0 batch_both).
Proof.
  split; [reflexivity|].
  exists (fst (@run_dashboard stable_pandas exact_sklearn 0%nat
                 (example_world 0 batch_both))).
  assert (Hrun : @run_dashboard stable_pandas exact_sklearn 0%nat
                   (example_world 0 batch_both) =
                 (fst (@run_dashboard stable_pandas exact_sklearn 0%nat
                         (example_world 0 batch_both)), Ok tt))
    by (apply pair_of_snd; vm_compute; reflexivity).
  split; [exact Hrun|].
  exact (@run_dashboard_page stable_pandas exact_sklearn 0%nat
           (example_world 0 batch_both) _ eq_refl Hrun).
Defined.

(** The batch [A, B, C] on an installation whose estimators raise: the run
    ends at the anomaly scorer with nothing changed. *)
Lemma run_dashboard_raises_with_the_estimators_witness :
  df_empty (heap (@world_of failing_sklearn tt 0%nat batch_ABC) 0%nat) = false /\
  @run_dashboard stable_pandas failing_sklearn 0%nat
    (@world_of failing_sklearn tt 0%nat batch_ABC) =
    (@world_of failing_sklearn tt 0%nat batch_ABC,
     Raise (LibraryError "StandardScaler")) /\
  ((@detect_anomalies failing_sklearn 0%nat (@world_of failing_sklearn tt 0%nat batch_ABC) =
      (@world_of failing_sklearn tt 0%nat batch_ABC,
       Raise (LibraryError "StandardScaler")) /\
    @world_of failing_sklearn tt 0%nat batch_ABC =
    @world_of failing_sklearn tt 0%nat batch_ABC) \/
   (exists med high_gas_df sandwiches anomalies,
      @high_gas stable_pandas failing_sklearn HIGH_GAS_MULTIPLIER 0%nat
        (@world_of failing_sklearn tt 0%nat batch_ABC) =
        (@world_of failing_sklearn tt 0%nat batch_ABC,
         Ok (Some med, Some (med * HIGH_GAS_MULTIPLIER)%Q, high_gas_df)) /\
      @detect_sandwich failing_sklearn 0%nat
        (@world_of failing_sklearn tt 0%nat batch_ABC) =
        (@world_of failing_sklearn tt 0%nat batch_ABC, Ok sandwiches) /\
      @detect_anomalies failing_sklearn 0%nat
        (@world_of failing_sklearn tt 0%nat batch_ABC) =
        (@world_of failing_sklearn tt 0%nat batch_ABC, Ok anomalies) /\
      @dbscan_cluster failing_sklearn 0%nat
        (@world_of failing_sklearn tt 0%nat batch_ABC) =
        (@world_of failing_sklearn tt 0%nat batch_ABC,
         Raise (LibraryError "StandardScaler")) /\
      @world_of failing_sklearn tt 0%nat batch_ABC =
      push_all
        (page_before_clusters (Some med) (Some (med * HIGH_GAS_MULTIPLIER)%Q)
           high_gas_df sandwiches anomalies
           (map gasPrice
              (records (heap (@world_of failing_sklearn tt 0%nat batch_ABC) 0%nat))))
        (@world_of failing_sklearn tt 0%nat batch_ABC))).
Proof.
  split; [reflexivity|]. split; [reflexivity|].
  exact (@run_dashboard_raises_with_the_estimators stable_pandas failing_sklearn
           0%nat (@world_of failing_sklearn tt 0%nat batch_ABC)
           (@world_of failing_sklearn tt 0%nat batch_ABC)
           (LibraryError "StandardScaler") eq_refl eq_refl).
Defined.

(** The batch [A, B, C], of median 5 Gwei, with the multiplier 3. *)
Lemma high_gas_is_at_most_half_witness :
  median (map gasPrice (records (heap (example_world 0 batch_ABC) 0%nat))) =
    Some 5%Q /\
  (0 < 5)%Q /\ (1 < 3)%Q /\
  exists median_gas threshold out,
    @high_gas stable_pandas exact_sklearn 3 0%nat (example_world 0 batch_ABC) =
      (example_world 0 batch_ABC, Ok (median_gas, threshold, out)) /\
    2 * df_len out <= df_len (heap (example_world 0 batch_ABC) 0%nat).
Proof.
  assert (Hmed : median (map gasPrice
                           (records (heap (example_world 0 batch_ABC) 0%nat))) =
                 Some 5%Q) by reflexivity.
  split; [exact Hmed|]. split; [reflexivity|]. split; [reflexivity|].
  pose proof (@high_gas_run stable_pandas exact_sklearn 3 0%nat
                (example_world 0 batch_ABC) 5 Hmed) as Hrun.
  do 3 eexists. split; [exact Hrun|].
  exact (@high_gas_is_at_most_half stable_pandas stable_pandas_laws exact_sklearn
           (example_world 0 batch_ABC) 0%nat 3 5 _ _ _ Hmed eq_refl eq_refl Hrun).
Defined.


(** Three transactions at 1 Gwei and one at 10, clustered twice. *)
Lemma dbscan_cluster_twice_witness :
  exists w1 out w2,
    dbscan_cluster 0%nat (example_world 0 batch_dense) = (w1, Ok out) /\
    dbscan_cluster 0%nat w1 = (w2, Ok out) /\
    (forall r, heap w2 r = heap w1 r) /\
    np_random w2 = np_random w1 /\ screen w2 = screen w1.
Proof.
  assert (Hrun : exists out,
             dbscan_cluster 0%nat (example_world 0 batch_dense) =
             (fst (dbscan_cluster 0%nat (example_world 0 batch_dense)), Ok out))
    by (eexists; apply pair_of_snd; vm_compute; reflexivity).
  destruct Hrun as (out & Hrun).
  destruct (@dbscan_cluster_twice exact_sklearn 0%nat _ _ _ Hrun) as (w2 & H2).
  exists (fst (dbscan_cluster 0%nat (example_world 0 batch_dense))), out, w2.
  split; [exact Hrun|exact H2].
Defined.

(** The batch of the victim at 5 Gwei, whose four cheap transactions make a
    cluster. *)
Lemma chart_axis_covers_the_clusters_witness :
  df_empty (heap (example_world 0 batch_both) 0%nat) = false /\
  exists w',
    @run_dashboard stable_pandas exact_sklearn 0%nat (example_world 0 batch_both) =
      (w', Ok tt) /\
    exists med added,
      median (map gasPrice (records (heap (example_world 0 batch_both) 0%nat))) =
        Some med /\
      screen w' = screen (example_world 0 batch_both) ++ added /\
      forall clusters y_max,
        In (st_vega_lite_chart clusters y_max) added ->
        snd (dbscan_cluster 0%nat (example_world 0 batch_both)) = Ok clusters /\
        exists q, y_max = Some q /\
                  (med * HIGH_GAS_MULTIPLIER <= q)%Q /\
                  forall r, In r (records clusters) -> (gasPrice r <= q)%Q.
Proof.
  split; [reflexivity|].
  exists (fst (@run_dashboard stable_pandas exact_sklearn 0%nat
                 (example_world 0 batch_both))).
  assert (Hrun : @run_dashboard stable_pandas exact_sklearn 0%nat
                   (example_world 0 batch_both) =
                 (fst (@run_dashboard stable_pandas exact_sklearn 0%nat
                         (example_world 0 batch_both)), Ok tt))
    by (apply pair_of_snd; vm_compute; reflexivity).
  split; [exact Hrun|].
  exact (@chart_axis_covers_the_clusters stable_pandas exact_sklearn 0%nat
           (example_world 0 batch_both) _ eq_refl Hrun).
Defined.

(** A call for three blocks on the example API, whose latest block is 2,
    with a clock that advances by a second at each reading. *)
Section QuickApi.

#[local] Existing Instance quick_outside.

Lemma fetch_recent_txs_requests_witness :
  latest_of (respond eth_blockNumber) = Py.Return 2 /\
  exists k : nat,
    sent (fst (fetch_recent_txs 3 fresh_run)) =
      sent fresh_run ++ eth_blockNumber :: map block_request (blocks_down 2 k) /\
    (k <= 100)%nat /\
    Z.of_nat k <= Z.max 0 3 /\
    NoDup (map block_request (blocks_down 2 k)).
Proof.
  split; [reflexivity|].
  exact (fetch_recent_txs_requests 3 2 fresh_run _ _ eq_refl
           (surjective_pairing (fetch_recent_txs 3 fresh_run))).
Defined.

Lemma fetch_recent_txs_batch_witness :
  latest_of (respond eth_blockNumber) = Py.Return 2 /\
  exists rows,
    snd (fetch_recent_txs 3 fresh_run) = Py.Return rows /\
    exists k : nat,
      sent (fst (fetch_recent_txs 3 fresh_run)) =
        sent fresh_run ++ eth_blockNumber :: map block_request (blocks_down 2 k) /\
      rows = flat_map (fun blk => rows_of (respond (block_request blk)))
                      (blocks_down 2 k) /\
      (forall row, In row rows ->
         exists blk block txs tx,
           In blk (blocks_down 2 k) /\
           reply_of (respond (block_request blk)) = Block block /\
           txs_of block = Some txs /\ In tx txs /\
           parse_tx block tx = Py.Return row) /\
      exists blocks, last (shown (fst (fetch_recent_txs 3 fresh_run))) ui_placeholder =
                     ui_success blocks (Z.of_nat (length rows)).
Proof.
  split; [reflexivity|].
  assert (Hrun : exists rows,
             fetch_recent_txs 3 fresh_run =
             (fst (fetch_recent_txs 3 fresh_run), Py.Return rows))
    by (eexists; apply pair_of_snd; vm_compute; reflexivity).
  destruct Hrun as (rows & Hrun). exists rows.
  split; [exact (eq_trans (f_equal snd Hrun) eq_refl)|].
  exact (fetch_recent_txs_batch 3 2 fresh_run _ rows eq_refl Hrun).
Defined.

(** Block 2 of the example API: its third transaction has no gas price. *)
Lemma try_block_keeps_the_rows_before_the_failure_witness :
  exists row1 row2,
    stamp_of block_two = Some 100 /\
    txs_of block_two =
      Some ([tx_json "0xh1" "0x3b9aca00"; tx_json "0xh2" "0x77359400"] ++
            Py.Obj [("hash", Py.Str "0xh3")] :: [tx_json "0xh4" "0x3b9aca00"]) /\
    parse_tx block_two (tx_json "0xh1" "0x3b9aca00") = Py.Return row1 /\
    parse_tx block_two (tx_json "0xh2" "0x77359400") = Py.Return row2 /\
    parse_tx block_two (Py.Obj [("hash", Py.Str "0xh3")]) = Py.Raise Py.KeyError /\
    try_block block_two [] [] = ([] ++ [row1; row2], [] ++ [100], false).
Proof.
  assert (H1 : exists row1,
             parse_tx block_two (tx_json "0xh1" "0x3b9aca00") = Py.Return row1)
    by (eexists; vm_compute; reflexivity).
  assert (H2 : exists row2,
             parse_tx block_two (tx_json "0xh2" "0x77359400") = Py.Return row2)
    by (eexists; vm_compute; reflexivity).
  destruct H1 as (row1 & H1), H2 as (row2 & H2).
  assert (Hs : stamp_of block_two = Some 100) by (vm_compute; reflexivity).
  exists row1, row2.
  split; [exact Hs|]. split; [reflexivity|].
  split; [exact H1|]. split; [exact H2|]. split; [reflexivity|].
  apply (try_block_keeps_the_rows_before_the_failure block_two 100
           [tx_json "0xh1" "0x3b9aca00"; tx_json "0xh2" "0x77359400"]
           (Py.Obj [("hash", Py.Str "0xh3")]) [tx_json "0xh4" "0x3b9aca00"]
           [row1; row2] Py.KeyError [] [] Hs eq_refl).
  - constructor; [exact H1|]. constructor; [exact H2|]. constructor.
  - reflexivity.
Defined.

Lemma fetch_recent_txs_progress_is_in_range_witness :
  exists page,
    shown (fst (fetch_recent_txs 3 fresh_run)) = shown fresh_run ++ page /\
    Forall (within_bounds (Z.min 3 MAX_BLOCKS)) page.
Proof.
  exact (fetch_recent_txs_progress_is_in_range 3 fresh_run _ _
           (surjective_pairing (fetch_recent_txs 3 fresh_run))).
Defined.

Lemma fetch_recent_txs_time_range_witness :
  latest_of (respond eth_blockNumber) = Py.Return 2 /\
  exists rows,
    snd (fetch_recent_txs 3 fresh_run) = Py.Return rows /\
    exists (k : nat) (page : list Notice),
      sent (fst (fetch_recent_txs 3 fresh_run)) =
        sent fresh_run ++ eth_blockNumber :: map block_request (blocks_down 2 k) /\
      shown (fst (fetch_recent_txs 3 fresh_run)) = shown fresh_run ++ page /\
      let times := flat_map (fun blk => stamps_of (respond (block_request blk)))
                            (blocks_down 2 k) in
      (times = [] /\ forall a b, ~ In (ui_time_range a b) page) \/
      (exists lo hi a b,
         In lo times /\ In hi times /\
         (forall t, In t times -> lo <= t <= hi) /\
         utc_text lo = Py.Return a /\ utc_text hi = Py.Return b /\
         In (ui_time_range a b) page).
Proof.
  split; [reflexivity|].
  assert (Hrun : exists rows,
             fetch_recent_txs 3 fresh_run =
             (fst (fetch_recent_txs 3 fresh_run), Py.Return rows))
    by (eexists; apply pair_of_snd; vm_compute; reflexivity).
  destruct Hrun as (rows & Hrun). exists rows.
  split; [exact (eq_trans (f_equal snd Hrun) eq_refl)|].
  exact (fetch_recent_txs_time_range 3 2 fresh_run _ rows eq_refl Hrun).
Defined.

(** The same API asked for no block at all. *)
Lemma fetch_recent_txs_raises_without_an_iteration_witness :
  0 <= 0 /\
  latest_of (respond eth_blockNumber) = Py.Return 2 /\
  snd (fetch_recent_txs 0 fresh_run) = Py.Raise Py.UnboundLocalError /\
  sent (fst (fetch_recent_txs 0 fresh_run)) = sent fresh_run ++ [eth_blockNumber] /\
  reads (fst (fetch_recent_txs 0 fresh_run)) = S (reads fresh_run) /\
  shown (fst (fetch_recent_txs 0 fresh_run)) =
    shown fresh_run ++ error_of (respond eth_blockNumber) ++
    [ui_progress 0; ui_placeholder; ui_progress_empty; ui_status_empty].
Proof.
  split; [lia|]. split; [reflexivity|].
  exact (fetch_recent_txs_raises_without_an_iteration 0 2 fresh_run _ _
           ltac:(lia) eq_refl (surjective_pairing (fetch_recent_txs 0 fresh_run))).
Defined.

End QuickApi.

(** The same call with a clock that advances by fifty seconds at each
    reading: the second reading of the loop is past the budget. *)
Section SlowApi.

#[local] Existing Instance slow_outside.

Lemma fetch_recent_txs_reports_the_iterations_begun_witness :
  latest_of (respond eth_blockNumber) = Py.Return 2 /\
  exists rows,
    snd (fetch_recent_txs 3 fresh_run) = Py.Return rows /\
    exists (k : nat) (page : list Notice) (blocks : Z),
      sent (fst (fetch_recent_txs 3 fresh_run)) =
        sent fresh_run ++ eth_blockNumber :: map block_request (blocks_down 2 k) /\
      shown (fst (fetch_recent_txs 3 fresh_run)) =
        shown fresh_run ++ page ++ [ui_success blocks (Z.of_nat (length rows))] /\
      ((blocks = Z.of_nat k /\ ~ In ui_warning_timeout page) \/
       (blocks = Z.of_nat k + 1 /\ In ui_warning_timeout page)) /\
      1 <= blocks <= Z.min 3 MAX_BLOCKS.
Proof.
  split; [reflexivity|].
  assert (Hrun : exists rows,
             fetch_recent_txs 3 fresh_run =
             (fst (fetch_recent_txs 3 fresh_run), Py.Return rows))
    by (eexists; apply pair_of_snd; vm_compute; reflexivity).
  destruct Hrun as (rows & Hrun). exists rows.
  split; [exact (eq_trans (f_equal snd Hrun) eq_refl)|].
  exact (fetch_recent_txs_reports_the_iterations_begun 3 2 fresh_run _ rows
           eq_refl Hrun).
Defined.

Lemma fetch_recent_txs_keeps_to_the_budget_witness :
  latest_of (respond eth_blockNumber) = Py.Return 2 /\
  exists (k : nat) (page : list Notice),
    sent (fst (fetch_recent_txs 3 fresh_run)) =
      sent fresh_run ++ eth_blockNumber :: map block_request (blocks_down 2 k) /\
    shown (fst (fetch_recent_txs 3 fresh_run)) = shown fresh_run ++ page /\
    (forall j, (j < k)%nat ->
       (time_time (S (reads fresh_run) + j) - time_time (reads fresh_run)
        <= FETCH_TIMEOUT)%Q) /\
    ((reads (fst (fetch_recent_txs 3 fresh_run)) = (S (reads fresh_run) + k)%nat /\
      ~ In ui_warning_timeout page) \/
     (reads (fst (fetch_recent_txs 3 fresh_run)) = (S (reads fresh_run) + k + 1)%nat /\
      In ui_warning_timeout page /\
      (FETCH_TIMEOUT < time_time (S (reads fresh_run) + k) - time_time (reads fresh_run))%Q /\
      Z.of_nat k < Z.min 3 MAX_BLOCKS)).
Proof.
  split; [reflexivity|].
  exact (fetch_recent_txs_keeps_to_the_budget 3 2 fresh_run _ _ eq_refl
           (surjective_pairing (fetch_recent_txs 3 fresh_run))).
Defined.

End SlowApi.

(** An API whose every request fails, asked for two blocks: the blocks
    requested are 0 and -1. *)
Section DeadApi.

#[local] Existing Instance dead_outside.

Lemma fetch_recent_txs_after_a_failed_latest_block_witness :
  respond eth_blockNumber = RequestException "no route" /\
  exists (k : nat) (page : list Notice),
    sent (fst (fetch_recent_txs 2 fresh_run)) =
      sent fresh_run ++ eth_blockNumber :: map block_request (blocks_down 0 k) /\
    shown (fst (fetch_recent_txs 2 fresh_run)) =
      shown fresh_run ++ ui_error "no route" :: ui_progress 0 :: ui_placeholder :: page /\
    (k = Z.to_nat (Z.min 2 MAX_BLOCKS) \/
     In ui_warning_timeout page \/
     snd (fetch_recent_txs 2 fresh_run) = Py.Raise Py.AttributeError).
Proof.
  split; [reflexivity|].
  exact (fetch_recent_txs_after_a_failed_latest_block 2 "no route" fresh_run _ _
           eq_refl (surjective_pairing (fetch_recent_txs 2 fresh_run))).
Defined.

(** The tags of the two requests. *)
Example negative_block_tags_are_requested :
  sent (fst (fetch_recent_txs 2 fresh_run)) =
  [eth_blockNumber; eth_getBlockByNumber "0x0"; eth_getBlockByNumber "-0x1"].
Proof. vm_compute. reflexivity. Qed.

End DeadApi.

(** An API that answers the request of a block with a JSON list: the call
    raises [AttributeError] at the first block. *)
Section ListApi.

#[local] Existing Instance list_outside.

Lemma fetch_recent_txs_exceptions_witness :
  1 <= 3 /\
  snd (fetch_recent_txs 3 fresh_run) = Py.Raise Py.AttributeError /\
  (latest_of (respond eth_blockNumber) = Py.Raise Py.AttributeError \/
   (Py.AttributeError = Py.AttributeError /\
    exists blk, In (block_request blk) (sent (fst (fetch_recent_txs 3 fresh_run))) /\
                reply_of (respond (block_request blk)) = Breaks) \/
   (exists blk ts,
      In (block_request blk) (sent (fst (fetch_recent_txs 3 fresh_run))) /\
      In ts (stamps_of (respond (block_request blk))) /\
      utc_text ts = Py.Raise Py.AttributeError)).
Proof.
  assert (Hrun : fetch_recent_txs 3 fresh_run =
                 (fst (fetch_recent_txs 3 fresh_run), Py.Raise Py.AttributeError))
    by (apply pair_of_snd; vm_compute; reflexivity).
  split; [lia|]. split; [exact (eq_trans (f_equal snd Hrun) eq_refl)|].
  exact (fetch_recent_txs_exceptions 3 fresh_run _ Py.AttributeError
           ltac:(lia) Hrun).
Defined.

End ListApi.
